(** * Asisten: a Telegram assistant bot -- points, referrals, memory, admin gate

    A shallow embedding of the parts of the bot that its specification makes
    testable claims about:

    - [models/user.py]          the [User] record, the daily reset, [use_point];
    - [services/point_service]  eligibility, charging a point, the points card;
    - [services/referral_service] redeeming a referral code;
    - [models/conversation.py]  the bounded conversation memory;
    - [core/bot.py]             owner/admin predicates, the long-message splitter;
    - [handlers/*]              [/image], the admin gate, the broadcast.

    and of what stands next to them in the same files: the statistics and
    the history of a conversation, the resets and bonuses of the point
    service, the validation of a referral code, the optimiser of the
    memory, the commands [/points], [/givepoints] and [/resetpoints], the
    callbacks that cancel a broadcast and clear a memory, and three
    helpers of [utils/helpers.py].

    Python integers are [Z]; a Python [str] is a list of characters; a
    MongoDB collection is the list of its documents in natural order; the
    wall clock, the network and the random generator are oracles threaded
    through the state.  A call of the chat platform may fail; a call of
    the database always goes through, so the [except Exception] clauses
    that only guard database calls have no counterpart here. *)

From Stdlib Require Import ZArith List String Ascii Bool Lia Arith.
From Stdlib Require Import DecimalString.
Import ListNotations.
Local Open Scope string_scope.
Local Open Scope list_scope.
Local Open Scope Z_scope.

Set Implicit Arguments.

(* ================================================================== *)
(** * Python strings *)
(* ================================================================== *)

(** A Python [str]: a sequence of characters, [len] is [length]. *)
Definition pystr := list ascii.

(** A string literal of the source. *)
Definition str (s : string) : pystr := list_ascii_of_string s.

Fixpoint str_eqb (a b : pystr) : bool :=
  match a, b with
  | [], [] => true
  | x :: a', y :: b' => Ascii.eqb x y && str_eqb a' b'
  | _, _ => false
  end.

Definition len {A} (l : list A) : Z := Z.of_nat (List.length l).

(** [sep.join(words)] *)
Fixpoint join (sep : pystr) (words : list pystr) : pystr :=
  match words with
  | [] => []
  | [w] => w
  | w :: ws => w ++ sep ++ join sep ws
  end.

Definition newline : ascii := "010"%char.

(* ================================================================== *)
(** * config/settings.py *)
(* ================================================================== *)

(** A [pytz] timezone, as far as the bot uses it: the UTC offset, in
    microseconds, in force at a given UTC instant. *)
Definition tzinfo := Z -> Z.

Record Settings := {
  OWNER_ID : Z;
  DAILY_POINTS : Z;
  REFERRAL_POINTS : Z;
  TIMEZONE : tzinfo;
}.

Definition MAX_MESSAGE_LENGTH : nat := 4096.
Definition MAX_MEMORY_MESSAGES : nat := 50.

Definition hour_us : Z := 3600000000.
Definition day_us : Z := 24 * hour_us.

(** [Asia/Jakarta] (WIB): UTC+7 the whole year. *)
Definition Asia_Jakarta : tzinfo := fun _ => 7 * hour_us.

(** The settings when the environment only names the owner. *)
Definition default_settings (owner : Z) : Settings :=
  {| OWNER_ID := owner; DAILY_POINTS := 3; REFERRAL_POINTS := 3;
     TIMEZONE := Asia_Jakarta |}.

(* ================================================================== *)
(** * datetime *)
(* ================================================================== *)

(** A [datetime]: naive (wall clock only, [tzinfo is None]) or aware (an
    instant together with the offset of the zone it is expressed in).  All
    quantities are microseconds since the epoch. *)
Inductive datetime :=
| Naive (wall : Z)
| Aware (utc : Z) (offset : Z).

(** [datetime.now(tz)] when the clock reads the instant [t]. *)
Definition datetime_now (tz : tzinfo) (t : Z) : datetime := Aware t (tz t).

(** [tz.localize(dt)] keeps the wall clock of a naive value; the offset is
    the one the zone has at that wall time (exact for a fixed-offset zone). *)
Definition localize (tz : tzinfo) (wall : Z) : datetime :=
  Aware (wall - tz wall) (tz wall).

(** [dt.astimezone(tz)] on an aware value keeps the instant. *)
Definition astimezone (tz : tzinfo) (utc : Z) : datetime := Aware utc (tz utc).

Definition wall_clock (dt : datetime) : Z :=
  match dt with
  | Naive wall => wall
  | Aware utc off => utc + off
  end.

(** [dt.date()], as a day number. *)
Definition date (dt : datetime) : Z := wall_clock dt / day_us.

(* ================================================================== *)
(** * models/user.py *)
(* ================================================================== *)

Record User := {
  user_id : Z;
  username : option pystr;
  first_name : option pystr;
  last_name : option pystr;
  is_banned : bool;
  is_admin_flag : bool;
  daily_points : Z;
  total_points_used : Z;
  last_reset : datetime;
  referral_code : option pystr;
  referred_by : option Z;
  referral_count : Z;
  referral_points : Z;
  join_date : datetime;
  last_activity : datetime;
  message_count : Z;
  image_generated : Z;
  has_clone_bot : bool;
  clone_bot_id : option Z;
}.

Definition set_daily_points (v : Z) (u : User) : User :=
  {| user_id := user_id u; username := username u; first_name := first_name u;
     last_name := last_name u; is_banned := is_banned u;
     is_admin_flag := is_admin_flag u; daily_points := v;
     total_points_used := total_points_used u; last_reset := last_reset u;
     referral_code := referral_code u; referred_by := referred_by u;
     referral_count := referral_count u; referral_points := referral_points u;
     join_date := join_date u; last_activity := last_activity u;
     message_count := message_count u; image_generated := image_generated u;
     has_clone_bot := has_clone_bot u; clone_bot_id := clone_bot_id u |}.

Definition set_total_points_used (v : Z) (u : User) : User :=
  {| user_id := user_id u; username := username u; first_name := first_name u;
     last_name := last_name u; is_banned := is_banned u;
     is_admin_flag := is_admin_flag u; daily_points := daily_points u;
     total_points_used := v; last_reset := last_reset u;
     referral_code := referral_code u; referred_by := referred_by u;
     referral_count := referral_count u; referral_points := referral_points u;
     join_date := join_date u; last_activity := last_activity u;
     message_count := message_count u; image_generated := image_generated u;
     has_clone_bot := has_clone_bot u; clone_bot_id := clone_bot_id u |}.

Definition set_last_reset (v : datetime) (u : User) : User :=
  {| user_id := user_id u; username := username u; first_name := first_name u;
     last_name := last_name u; is_banned := is_banned u;
     is_admin_flag := is_admin_flag u; daily_points := daily_points u;
     total_points_used := total_points_used u; last_reset := v;
     referral_code := referral_code u; referred_by := referred_by u;
     referral_count := referral_count u; referral_points := referral_points u;
     join_date := join_date u; last_activity := last_activity u;
     message_count := message_count u; image_generated := image_generated u;
     has_clone_bot := has_clone_bot u; clone_bot_id := clone_bot_id u |}.

Definition set_referred_by (v : option Z) (u : User) : User :=
  {| user_id := user_id u; username := username u; first_name := first_name u;
     last_name := last_name u; is_banned := is_banned u;
     is_admin_flag := is_admin_flag u; daily_points := daily_points u;
     total_points_used := total_points_used u; last_reset := last_reset u;
     referral_code := referral_code u; referred_by := v;
     referral_count := referral_count u; referral_points := referral_points u;
     join_date := join_date u; last_activity := last_activity u;
     message_count := message_count u; image_generated := image_generated u;
     has_clone_bot := has_clone_bot u; clone_bot_id := clone_bot_id u |}.

Definition set_referral_count (v : Z) (u : User) : User :=
  {| user_id := user_id u; username := username u; first_name := first_name u;
     last_name := last_name u; is_banned := is_banned u;
     is_admin_flag := is_admin_flag u; daily_points := daily_points u;
     total_points_used := total_points_used u; last_reset := last_reset u;
     referral_code := referral_code u; referred_by := referred_by u;
     referral_count := v; referral_points := referral_points u;
     join_date := join_date u; last_activity := last_activity u;
     message_count := message_count u; image_generated := image_generated u;
     has_clone_bot := has_clone_bot u; clone_bot_id := clone_bot_id u |}.

Definition set_referral_points (v : Z) (u : User) : User :=
  {| user_id := user_id u; username := username u; first_name := first_name u;
     last_name := last_name u; is_banned := is_banned u;
     is_admin_flag := is_admin_flag u; daily_points := daily_points u;
     total_points_used := total_points_used u; last_reset := last_reset u;
     referral_code := referral_code u; referred_by := referred_by u;
     referral_count := referral_count u; referral_points := v;
     join_date := join_date u; last_activity := last_activity u;
     message_count := message_count u; image_generated := image_generated u;
     has_clone_bot := has_clone_bot u; clone_bot_id := clone_bot_id u |}.

Definition set_last_activity (v : datetime) (u : User) : User :=
  {| user_id := user_id u; username := username u; first_name := first_name u;
     last_name := last_name u; is_banned := is_banned u;
     is_admin_flag := is_admin_flag u; daily_points := daily_points u;
     total_points_used := total_points_used u; last_reset := last_reset u;
     referral_code := referral_code u; referred_by := referred_by u;
     referral_count := referral_count u; referral_points := referral_points u;
     join_date := join_date u; last_activity := v;
     message_count := message_count u; image_generated := image_generated u;
     has_clone_bot := has_clone_bot u; clone_bot_id := clone_bot_id u |}.

Definition set_message_count (v : Z) (u : User) : User :=
  {| user_id := user_id u; username := username u; first_name := first_name u;
     last_name := last_name u; is_banned := is_banned u;
     is_admin_flag := is_admin_flag u; daily_points := daily_points u;
     total_points_used := total_points_used u; last_reset := last_reset u;
     referral_code := referral_code u; referred_by := referred_by u;
     referral_count := referral_count u; referral_points := referral_points u;
     join_date := join_date u; last_activity := last_activity u;
     message_count := v; image_generated := image_generated u;
     has_clone_bot := has_clone_bot u; clone_bot_id := clone_bot_id u |}.

Definition set_image_generated (v : Z) (u : User) : User :=
  {| user_id := user_id u; username := username u; first_name := first_name u;
     last_name := last_name u; is_banned := is_banned u;
     is_admin_flag := is_admin_flag u; daily_points := daily_points u;
     total_points_used := total_points_used u; last_reset := last_reset u;
     referral_code := referral_code u; referred_by := referred_by u;
     referral_count := referral_count u; referral_points := referral_points u;
     join_date := join_date u; last_activity := last_activity u;
     message_count := message_count u; image_generated := v;
     has_clone_bot := has_clone_bot u; clone_bot_id := clone_bot_id u |}.

Definition set_is_banned (v : bool) (u : User) : User :=
  {| user_id := user_id u; username := username u; first_name := first_name u;
     last_name := last_name u; is_banned := v;
     is_admin_flag := is_admin_flag u; daily_points := daily_points u;
     total_points_used := total_points_used u; last_reset := last_reset u;
     referral_code := referral_code u; referred_by := referred_by u;
     referral_count := referral_count u; referral_points := referral_points u;
     join_date := join_date u; last_activity := last_activity u;
     message_count := message_count u; image_generated := image_generated u;
     has_clone_bot := has_clone_bot u; clone_bot_id := clone_bot_id u |}.

Definition set_is_admin_flag (v : bool) (u : User) : User :=
  {| user_id := user_id u; username := username u; first_name := first_name u;
     last_name := last_name u; is_banned := is_banned u;
     is_admin_flag := v; daily_points := daily_points u;
     total_points_used := total_points_used u; last_reset := last_reset u;
     referral_code := referral_code u; referred_by := referred_by u;
     referral_count := referral_count u; referral_points := referral_points u;
     join_date := join_date u; last_activity := last_activity u;
     message_count := message_count u; image_generated := image_generated u;
     has_clone_bot := has_clone_bot u; clone_bot_id := clone_bot_id u |}.

(** [User(user_id, **kwargs)] with the defaults of [__init__]; the three
    timestamps default to three successive readings of the clock. *)
Definition new_user (s : Settings) (t1 t2 t3 : Z) (uid : Z)
    (fname uname : option pystr) (code : option pystr) : User :=
  {| user_id := uid; username := uname; first_name := fname; last_name := None;
     is_banned := false; is_admin_flag := false;
     daily_points := DAILY_POINTS s; total_points_used := 0;
     last_reset := datetime_now (TIMEZONE s) t1;
     referral_code := code; referred_by := None;
     referral_count := 0; referral_points := 0;
     join_date := datetime_now (TIMEZONE s) t2;
     last_activity := datetime_now (TIMEZONE s) t3;
     message_count := 0; image_generated := 0;
     has_clone_bot := false; clone_bot_id := None |}.

Section UserMethods.
Variable s : Settings.

(** [User._check_daily_reset], the clock reading [t]. *)
Definition _check_daily_reset (t : Z) (u : User) : User :=
  let tz := TIMEZONE s in
  let now := datetime_now tz t in
  let last :=
    match last_reset u with
    | Naive wall => localize tz wall
    | Aware utc _ => astimezone tz utc
    end in
  if date last <? date now
  then set_last_reset now (set_daily_points (DAILY_POINTS s) u)
  else u.

(** [User.can_generate_image]: the answer and the (possibly reset) user. *)
Definition can_generate_image (t : Z) (u : User) : bool * User :=
  if is_banned u then (false, u)
  else
    let u := _check_daily_reset t u in
    (0 <? daily_points u + referral_points u, u).

(** [User.use_point(point_type)] *)
Definition use_point (t : Z) (point_type : pystr) (u : User) : bool * User :=
  let (ok, u) := can_generate_image t u in
  if negb ok then (false, u)
  else
    let charged :=
      if str_eqb point_type (str "referral") && (0 <? referral_points u)
      then Some (set_referral_points (referral_points u - 1) u)
      else if 0 <? daily_points u
      then Some (set_daily_points (daily_points u - 1) u)
      else None in
    match charged with
    | None => (false, u)
    | Some u =>
        let u := set_total_points_used (total_points_used u + 1) u in
        let u := set_image_generated (image_generated u + 1) u in
        (true, u)
    end.

(** [User.update_activity] *)
Definition update_activity (t : Z) (u : User) : User :=
  set_message_count (message_count u + 1)
    (set_last_activity (datetime_now (TIMEZONE s) t) u).

End UserMethods.

(* ================================================================== *)
(** * Python sequences: slices, [rfind], [lstrip] *)
(* ================================================================== *)

(** [l[start:]] for any integer [start] (negative counts from the end,
    out-of-range is clamped). *)
Definition slice_from {A} (start : Z) (l : list A) : list A :=
  let n := len l in
  let i := if start <? 0 then Z.max 0 (start + n) else Z.min start n in
  skipn (Z.to_nat i) l.

(** [l[:stop]] for a non-negative [stop]. *)
Definition slice_to {A} (stop : nat) (l : list A) : list A := firstn stop l.

(** The last [n] elements of [l] (all of [l] when it is shorter). *)
Definition lastn {A} (n : nat) (l : list A) : list A :=
  skipn (List.length l - n) l.

(** [text.lstrip(c)] *)
Fixpoint lstrip (c : ascii) (text : pystr) : pystr :=
  match text with
  | x :: text' => if Ascii.eqb x c then lstrip c text' else text
  | [] => []
  end.

(** The greatest index [i < List.length text] with [text[i] = c], scanning
    a prefix: [last_index c text] is [Some i] or [None]. *)
Fixpoint last_index (c : ascii) (text : pystr) : option nat :=
  match text with
  | [] => None
  | x :: text' =>
      match last_index c text' with
      | Some i => Some (S i)
      | None => if Ascii.eqb x c then Some 0%nat else None
      end
  end.

(** [text.rfind(c, 0, stop)]: the index, or [-1]. *)
Definition rfind (c : ascii) (stop : nat) (text : pystr) : Z :=
  match last_index c (firstn stop text) with
  | Some i => Z.of_nat i
  | None => -1
  end.

(* ================================================================== *)
(** * models/conversation.py *)
(* ================================================================== *)

Record Message := {
  role : pystr;
  content : pystr;
  message_type : pystr;
  timestamp : datetime;
  metadata : list (pystr * pystr);
}.

(** The keyword arguments [Message.__init__] looks at. *)
Record MessageKwargs := {
  kw_timestamp : option datetime;
  kw_metadata : option (list (pystr * pystr));
}.

Definition no_kwargs : MessageKwargs :=
  {| kw_timestamp := None; kw_metadata := None |}.

(** [Message(role, content, message_type, **kwargs)]; [t] is the clock. *)
Definition new_message (s : Settings) (t : Z) (r c mt : pystr)
    (kw : MessageKwargs) : Message :=
  {| role := r; content := c; message_type := mt;
     timestamp := match kw_timestamp kw with
                  | Some ts => ts
                  | None => datetime_now (TIMEZONE s) t
                  end;
     metadata := match kw_metadata kw with Some m => m | None => [] end |}.

Record Conversation := {
  conv_user_id : Z;
  messages : list Message;
  created_at : datetime;
  updated_at : datetime;
  context : list (pystr * pystr);
}.

(** [Conversation(user_id=...)]: two readings of the clock. *)
Definition new_conversation (s : Settings) (t1 t2 : Z) (uid : Z)
  : Conversation :=
  {| conv_user_id := uid; messages := [];
     created_at := datetime_now (TIMEZONE s) t1;
     updated_at := datetime_now (TIMEZONE s) t2; context := [] |}.

(** One call of [Conversation.add_message]: its arguments and the two
    clock readings it makes (the message's timestamp, then [updated_at]). *)
Record Append := {
  ap_role : pystr;
  ap_content : pystr;
  ap_type : pystr;
  ap_kwargs : MessageKwargs;
  ap_t1 : Z;
  ap_t2 : Z;
}.

Section ConversationMethods.
Variable s : Settings.

Definition message_of (a : Append) : Message :=
  new_message s (ap_t1 a) (ap_role a) (ap_content a) (ap_type a)
              (ap_kwargs a).

(** [Conversation.add_message] *)
Definition add_message (a : Append) (c : Conversation) : Conversation :=
  let msgs := messages c ++ [message_of a] in
  let upd := datetime_now (TIMEZONE s) (ap_t2 a) in
  let msgs :=
    if (MAX_MEMORY_MESSAGES <? List.length msgs)%nat
    then slice_from (- Z.of_nat MAX_MEMORY_MESSAGES) msgs
    else msgs in
  {| conv_user_id := conv_user_id c; messages := msgs;
     created_at := created_at c; updated_at := upd;
     context := context c |}.

(** A sequence of appends, oldest first. *)
Definition add_messages (l : list Append) (c : Conversation)
  : Conversation :=
  fold_left (fun c a => add_message a c) l c.

(** [Conversation.get_recent_messages(limit)] *)
Definition get_recent_messages (limit : Z) (c : Conversation)
  : list Message :=
  if 0 <? limit then slice_from (- limit) (messages c) else messages c.

(** [Conversation.clear_memory] *)
Definition clear_memory (t : Z) (c : Conversation) : Conversation :=
  {| conv_user_id := conv_user_id c; messages := [];
     created_at := created_at c;
     updated_at := datetime_now (TIMEZONE s) t; context := context c |}.

End ConversationMethods.

(* ================================================================== *)
(** * The process state and its effects *)
(* ================================================================== *)

(** Bot statistics ([TelegramBot.stats]). *)
Record Stats := {
  total_users : Z;
  total_messages : Z;
  total_images : Z;
}.

(** What a handler can read and change.  The two collections are the
    MongoDB documents in natural order.  [clock] is the sequence of
    instants successive [datetime.now] calls return, [network] tells for
    each successive call of the chat-platform client whether it goes
    through, and [codes] is the sequence of referral codes
    [random.choices] draws.  [sent] lists what the client delivered, as
    (chat id, text), oldest first. *)
Record World := {
  users_collection : list User;
  conversations_collection : list Conversation;
  stats : Stats;
  pending_broadcast : option (pystr * Z);
  sent : list (Z * pystr);
  clock : nat -> Z;
  clock_reads : nat;
  network : nat -> bool;
  network_calls : nat;
  codes : nat -> pystr;
  codes_drawn : nat;
}.

Definition with_users (v : list User) (w : World) : World :=
  {| users_collection := v;
     conversations_collection := conversations_collection w;
     stats := stats w; pending_broadcast := pending_broadcast w;
     sent := sent w; clock := clock w; clock_reads := clock_reads w;
     network := network w; network_calls := network_calls w;
     codes := codes w; codes_drawn := codes_drawn w |}.

Definition with_conversations (v : list Conversation) (w : World) : World :=
  {| users_collection := users_collection w;
     conversations_collection := v;
     stats := stats w; pending_broadcast := pending_broadcast w;
     sent := sent w; clock := clock w; clock_reads := clock_reads w;
     network := network w; network_calls := network_calls w;
     codes := codes w; codes_drawn := codes_drawn w |}.

Definition with_stats (v : Stats) (w : World) : World :=
  {| users_collection := users_collection w;
     conversations_collection := conversations_collection w;
     stats := v; pending_broadcast := pending_broadcast w;
     sent := sent w; clock := clock w; clock_reads := clock_reads w;
     network := network w; network_calls := network_calls w;
     codes := codes w; codes_drawn := codes_drawn w |}.

Definition with_pending_broadcast (v : option (pystr * Z)) (w : World)
  : World :=
  {| users_collection := users_collection w;
     conversations_collection := conversations_collection w;
     stats := stats w; pending_broadcast := v;
     sent := sent w; clock := clock w; clock_reads := clock_reads w;
     network := network w; network_calls := network_calls w;
     codes := codes w; codes_drawn := codes_drawn w |}.

Definition with_sent (v : list (Z * pystr)) (w : World) : World :=
  {| users_collection := users_collection w;
     conversations_collection := conversations_collection w;
     stats := stats w; pending_broadcast := pending_broadcast w;
     sent := v; clock := clock w; clock_reads := clock_reads w;
     network := network w; network_calls := network_calls w;
     codes := codes w; codes_drawn := codes_drawn w |}.

Definition tick_clock (w : World) : World :=
  {| users_collection := users_collection w;
     conversations_collection := conversations_collection w;
     stats := stats w; pending_broadcast := pending_broadcast w;
     sent := sent w; clock := clock w; clock_reads := S (clock_reads w);
     network := network w; network_calls := network_calls w;
     codes := codes w; codes_drawn := codes_drawn w |}.

Definition tick_network (w : World) : World :=
  {| users_collection := users_collection w;
     conversations_collection := conversations_collection w;
     stats := stats w; pending_broadcast := pending_broadcast w;
     sent := sent w; clock := clock w; clock_reads := clock_reads w;
     network := network w; network_calls := S (network_calls w);
     codes := codes w; codes_drawn := codes_drawn w |}.

Definition tick_codes (w : World) : World :=
  {| users_collection := users_collection w;
     conversations_collection := conversations_collection w;
     stats := stats w; pending_broadcast := pending_broadcast w;
     sent := sent w; clock := clock w; clock_reads := clock_reads w;
     network := network w; network_calls := network_calls w;
     codes := codes w; codes_drawn := S (codes_drawn w) |}.

(** Python exceptions the modelled code can meet. *)
Inductive exn :=
| AttributeError (name : string)
| KeyError (key : string)
| ValueError
| RPCError.

(** How a call ends: a value, an exception, or no end at all (the only
    unbounded loop is the search for an unused referral code). *)
Inductive outcome (A : Type) :=
| Ok (a : A)
| Raise (e : exn)
| Diverge.
Arguments Ok {A} a.
Arguments Raise {A} e.
Arguments Diverge {A}.

Definition M (A : Type) : Type := World -> outcome A * World.

Definition ret {A} (a : A) : M A := fun w => (Ok a, w).

Definition bind {A B} (m : M A) (k : A -> M B) : M B :=
  fun w =>
    match m w with
    | (Ok a, w') => k a w'
    | (Raise e, w') => (Raise e, w')
    | (Diverge, w') => (Diverge, w')
    end.

Definition raise {A} (e : exn) : M A := fun w => (Raise e, w).

(** [try: m  except Exception as e: h e] *)
Definition try_except {A} (m : M A) (h : exn -> M A) : M A :=
  fun w =>
    match m w with
    | (Raise e, w') => h e w'
    | r => r
    end.

Definition get {A} (f : World -> A) : M A := fun w => (Ok (f w), w).
Definition modify (f : World -> World) : M unit := fun w => (Ok tt, f w).

Declare Scope monad_scope.
Delimit Scope monad_scope with monad.
Notation "x <- m ;; k" := (bind m (fun x => k))
  (at level 61, m at next level, right associativity) : monad_scope.
Notation "' pat <- m ;; k" := (bind m (fun x => match x with pat => k end))
  (at level 61, pat pattern, m at next level, right associativity)
  : monad_scope.
Notation "m ;;; k" := (bind m (fun _ => k))
  (at level 61, right associativity) : monad_scope.
Local Open Scope monad_scope.

(** [datetime.now(tz)]: the next reading of the clock. *)
Definition now : M Z :=
  fun w => (Ok (clock w (clock_reads w)), tick_clock w).

(** [client.send_message(chat_id, text)] and [client.edit_message_text]:
    delivered, or an exception of the platform. *)
Definition client_send (chat_id : Z) (text : pystr) : M unit :=
  fun w =>
    let ok := network w (network_calls w) in
    let w := tick_network w in
    if ok then (Ok tt, with_sent (sent w ++ [(chat_id, text)]) w)
    else (Raise RPCError, w).

(** One draw of [''.join(random.choices(..., k=8))]. *)
Definition draw_code : M pystr :=
  fun w => (Ok (codes w (codes_drawn w)), tick_codes w).

(** [n] readings of the clock whose values are dropped: the default
    arguments [kwargs.get(key, self._get_current_time())] are evaluated
    even when the key is present. *)
Fixpoint read_clock (n : nat) : M unit :=
  match n with
  | O => ret tt
  | S n' => _ <- now ;; read_clock n'
  end.

(* ================================================================== *)
(** * core/bot.py *)
(* ================================================================== *)

Record Bot := {
  settings : Settings;
  is_clone : bool;
  clone_admin_id : option Z;
}.

(** The loop shared by [TelegramBot._split_message] and
    [split_text_by_length]; [fuel] bounds the number of iterations, [None]
    when it does not suffice. *)
Fixpoint split_loop (max_length : nat) (fuel : nat) (text : pystr)
    (chunks : list pystr) : option (list pystr) :=
  if (max_length <? List.length text)%nat then
    match fuel with
    | O => None
    | S fuel' =>
        let found := rfind newline max_length text in
        let split_pos := if found =? -1 then Z.of_nat max_length else found in
        split_loop max_length fuel'
          (lstrip newline (slice_from split_pos text))
          (chunks ++ [slice_to (Z.to_nat split_pos) text])
    end
  else Some (match text with [] => chunks | _ => chunks ++ [text] end).

(** [TelegramBot._split_message] *)
Definition _split_message (text : pystr) : option (list pystr) :=
  split_loop MAX_MESSAGE_LENGTH (S (List.length text)) text [].

(** [utils.helpers.split_text_by_length] *)
Definition split_text_by_length (text : pystr) (max_length : nat)
  : option (list pystr) :=
  if (List.length text <=? max_length)%nat then Some [text]
  else split_loop max_length (S (List.length text)) text [].

Section BotMethods.
Variable bot : Bot.

(** [TelegramBot.is_owner] *)
Definition is_owner (uid : Z) : bool :=
  uid =? OWNER_ID (settings bot).

(** [TelegramBot.is_admin]: the database is not consulted. *)
Definition is_admin (uid : Z) : bool :=
  if is_owner uid then true
  else if is_clone bot &&
          match clone_admin_id bot with
          | Some a => uid =? a
          | None => false
          end
  then true
  else false.

Fixpoint send_each (chat_id : Z) (msgs : list pystr) : M unit :=
  match msgs with
  | [] => ret tt
  | m :: ms => _ <- client_send chat_id m ;; send_each chat_id ms
  end.

(** [TelegramBot.send_message_safe] *)
Definition send_message_safe (chat_id : Z) (text : pystr) : M unit :=
  try_except
    (if (MAX_MESSAGE_LENGTH <? List.length text)%nat then
       match _split_message text with
       | Some msgs => send_each chat_id msgs
       | None => fun w => (Diverge, w)
       end
     else client_send chat_id text)
    (fun _ => ret tt).

(** [TelegramBot.update_stats] *)
Definition update_stats (stat_type : pystr) : M unit :=
  modify (fun w =>
    let st := stats w in
    if str_eqb stat_type (str "users") then
      with_stats {| total_users := total_users st + 1;
                    total_messages := total_messages st;
                    total_images := total_images st |} w
    else if str_eqb stat_type (str "messages") then
      with_stats {| total_users := total_users st;
                    total_messages := total_messages st + 1;
                    total_images := total_images st |} w
    else if str_eqb stat_type (str "images") then
      with_stats {| total_users := total_users st;
                    total_messages := total_messages st;
                    total_images := total_images st + 1 |} w
    else w).

End BotMethods.

(* ================================================================== *)
(** * services/user_service.py *)
(* ================================================================== *)

(** [collection.update_one({"user_id": uid}, {"$set": ...})]: the first
    document with that [user_id] is rewritten by [f]. *)
Fixpoint update_one (uid : Z) (f : User -> User) (docs : list User)
  : list User :=
  match docs with
  | [] => []
  | d :: ds =>
      if user_id d =? uid then f d :: ds else d :: update_one uid f ds
  end.

Definition opt_str_eqb (a : option pystr) (b : pystr) : bool :=
  match a with
  | Some a => str_eqb a b
  | None => false
  end.

Section UserService.
Variable s : Settings.

(** [User.from_dict]: the stored fields; three clock readings are made
    for the defaults and dropped. *)
Definition user_from_dict (d : User) : M User :=
  _ <- read_clock 3 ;; ret d.

(** [UserService.get_user] *)
Definition get_user (uid : Z) : M (option User) :=
  docs <- get users_collection ;;
  match find (fun d => user_id d =? uid) docs with
  | Some d => u <- user_from_dict d ;; ret (Some u)
  | None => ret None
  end.

(** [UserService.get_user_by_referral_code] *)
Definition get_user_by_referral_code (code : pystr) : M (option User) :=
  docs <- get users_collection ;;
  match find (fun d => opt_str_eqb (referral_code d) code) docs with
  | Some d => u <- user_from_dict d ;; ret (Some u)
  | None => ret None
  end.

(** [UserService.update_user]; its result ([modified_count > 0]) is not
    looked at by any caller modelled here. *)
Definition update_user (u : User) : M unit :=
  modify (fun w =>
    with_users (update_one (user_id u) (fun _ => u) (users_collection w)) w).

(** [UserService._generate_unique_referral_code]: draw until the code is
    not taken; at most [fuel] draws. *)
Fixpoint _generate_unique_referral_code (fuel : nat) : M pystr :=
  match fuel with
  | O => fun w => (Diverge, w)
  | S fuel' =>
      code <- draw_code ;;
      docs <- get users_collection ;;
      match find (fun d => opt_str_eqb (referral_code d) code) docs with
      | Some _ => _generate_unique_referral_code fuel'
      | None => ret code
      end
  end.

(** [UserService.create_user(user_id, first_name=..., username=...)] *)
Definition create_user (fuel : nat) (uid : Z) (fname uname : option pystr)
  : M User :=
  code <- _generate_unique_referral_code fuel ;;
  t1 <- now ;; t2 <- now ;; t3 <- now ;;
  let u := new_user s t1 t2 t3 uid fname uname (Some code) in
  _ <- modify (fun w => with_users (users_collection w ++ [u]) w) ;;
  ret u.

(** [UserService.get_or_create_user] *)
Definition get_or_create_user (fuel : nat) (uid : Z)
    (fname uname : option pystr) : M User :=
  found <- get_user uid ;;
  match found with
  | None => create_user fuel uid fname uname
  | Some u =>
      t <- now ;;
      let u := update_activity s t u in
      _ <- update_user u ;;
      ret u
  end.

(** [UserService.ban_user] / [unban_user]: [$set] of [is_banned];
    the result is [modified_count > 0]. *)
Definition set_banned (v : bool) (uid : Z) : M bool :=
  docs <- get users_collection ;;
  _ <- modify (with_users (update_one uid (set_is_banned v) docs)) ;;
  ret (match find (fun d => user_id d =? uid) docs with
       | Some d => negb (Bool.eqb (is_banned d) v)
       | None => false
       end).

Definition ban_user (uid : Z) : M bool := set_banned true uid.
Definition unban_user (uid : Z) : M bool := set_banned false uid.

(** [UserService.set_admin] *)
Definition set_admin (uid : Z) (v : bool) : M bool :=
  docs <- get users_collection ;;
  _ <- modify (with_users (update_one uid (set_is_admin_flag v) docs)) ;;
  ret (match find (fun d => user_id d =? uid) docs with
       | Some d => negb (Bool.eqb (is_admin_flag d) v)
       | None => false
       end).

(** [UserService.get_users_for_broadcast] *)
Definition get_users_for_broadcast (exclude_banned : bool) : M (list Z) :=
  docs <- get users_collection ;;
  ret (map user_id
         (filter (fun d => if exclude_banned then negb (is_banned d)
                           else true) docs)).

End UserService.

(* ================================================================== *)
(** * services/memory_service.py *)
(* ================================================================== *)

Fixpoint update_one_conversation (uid : Z) (c : Conversation)
    (docs : list Conversation) : option (list Conversation) :=
  match docs with
  | [] => None
  | d :: ds =>
      if conv_user_id d =? uid then Some (c :: ds)
      else option_map (cons d) (update_one_conversation uid c ds)
  end.

Section MemoryService.
Variable s : Settings.

(** [Conversation.from_dict]: two readings of the clock for the
    defaults, and one per stored message ([Message.from_dict]). *)
Definition conversation_from_dict (d : Conversation) : M Conversation :=
  _ <- read_clock 2 ;;
  _ <- read_clock (List.length (messages d)) ;;
  ret d.

(** [MemoryService.get_conversation] *)
Definition get_conversation (uid : Z) : M (option Conversation) :=
  docs <- get conversations_collection ;;
  match find (fun d => conv_user_id d =? uid) docs with
  | Some d => c <- conversation_from_dict d ;; ret (Some c)
  | None => ret None
  end.

(** [MemoryService.create_conversation] *)
Definition create_conversation (uid : Z) : M Conversation :=
  t1 <- now ;; t2 <- now ;;
  let c := new_conversation s t1 t2 uid in
  _ <- modify (fun w =>
         with_conversations (conversations_collection w ++ [c]) w) ;;
  ret c.

(** [MemoryService.get_or_create_conversation]; an empty stored
    conversation is not falsy, only a missing one is. *)
Definition get_or_create_conversation (uid : Z) : M Conversation :=
  found <- get_conversation uid ;;
  match found with
  | Some c => ret c
  | None => create_conversation uid
  end.

(** [MemoryService.add_message]: load, append, write back with
    [upsert=True]. *)
Definition memory_add_message (uid : Z) (r c mt : pystr)
    (kw : MessageKwargs) : M unit :=
  conv <- get_or_create_conversation uid ;;
  t1 <- now ;; t2 <- now ;;
  let a := {| ap_role := r; ap_content := c; ap_type := mt;
              ap_kwargs := kw; ap_t1 := t1; ap_t2 := t2 |} in
  let conv := add_message s a conv in
  modify (fun w =>
    match update_one_conversation uid conv (conversations_collection w) with
    | Some docs => with_conversations docs w
    | None => with_conversations (conversations_collection w ++ [conv]) w
    end).

End MemoryService.

(* ================================================================== *)
(** * services/point_service.py *)
(* ================================================================== *)

(** Values of the dictionaries the services return. *)
#[warnings="-register-all"]
Inductive pyval :=
| VInt (z : Z)
| VBool (b : bool)
| VStr (t : pystr)
| VStrftime (format : string) (dt : datetime)
| VDict (d : list (string * pyval)).

Definition pydict := list (string * pyval).

Fixpoint dict_get (key : string) (d : pydict) : option pyval :=
  match d with
  | [] => None
  | (k, v) :: d' => if String.eqb k key then Some v else dict_get key d'
  end.

(** [d[key]] *)
Definition getitem (d : pydict) (key : string) : M pyval :=
  match dict_get key d with
  | Some v => ret v
  | None => raise (KeyError key)
  end.

(** A Python module, as the set of names bound at its top level. *)
Definition pymodule := list string.

(** [module.name] *)
Definition getattr (m : pymodule) (name : string) : M unit :=
  if existsb (String.eqb name) m then ret tt
  else raise (AttributeError name).

(** The top level of the [pytz] package: its public names, the modules it
    imports as a whole ([datetime], [sys], [os]) and its submodules.  The
    class [timedelta] lives in [datetime]; [pytz] does not bind it. *)
Definition pytz : pymodule :=
  [ "timezone"; "utc"; "UTC"; "country_timezones"; "country_names";
    "AmbiguousTimeError"; "InvalidTimeError"; "NonExistentTimeError";
    "UnknownTimeZoneError"; "all_timezones"; "all_timezones_set";
    "common_timezones"; "common_timezones_set"; "BaseTzInfo"; "FixedOffset";
    "ZERO"; "HOUR"; "OLSON_VERSION"; "VERSION";
    "datetime"; "sys"; "os"; "exceptions"; "lazy"; "tzinfo"; "tzfile";
    "unpickler"; "build_tzinfo"; "open_resource"; "resource_exists";
    "LazyDict"; "LazyList"; "LazySet" ]%string.

(** [str(n)] for an integer. *)
Definition str_of_Z (n : Z) : pystr :=
  str (DecimalString.NilZero.string_of_int (Z.to_int n)).

Definition minute_us : Z := 60000000.
Definition second_us : Z := 1000000.

(** [now.replace(hour=0, minute=0, second=0, microsecond=0)
      + timedelta(days=1) - now]: both operands carry the same [tzinfo], so
    the difference is taken on the wall clock. *)
Definition until_midnight (now_dt : datetime) : Z :=
  let wall := wall_clock now_dt in
  (wall - wall mod day_us + day_us) - wall.

(** The [hours] / [minutes] / [text] entries computed from the delta;
    [total_seconds() // 3600] is the integer quotient of the microseconds. *)
Definition reset_hours (delta : Z) : Z := delta / hour_us.
Definition reset_minutes (delta : Z) : Z := (delta mod hour_us) / minute_us.
Definition reset_text (delta : Z) : pystr :=
  str_of_Z (reset_hours delta) ++ str "h " ++
  str_of_Z (reset_minutes delta) ++ str "m".

Section PointService.
Variable s : Settings.

(** [PointService.can_user_generate_image]; the user object may be
    reset in place, so it is returned with the answer. *)
Definition can_user_generate_image (u : User) : M (bool * User) :=
  if is_banned u then ret (false, u)
  else
    t <- now ;;
    let u := _check_daily_reset s t u in
    ret (0 <? daily_points u + referral_points u, u).

(** [PointService.use_point_for_image] *)
Definition use_point_for_image (u : User) (point_type : pystr)
  : M (bool * User) :=
  '(ok, u) <- can_user_generate_image u ;;
  if negb ok then ret (false, u)
  else
    let point_type :=
      if str_eqb point_type (str "auto") then
        if 0 <? referral_points u then str "referral" else str "daily"
      else point_type in
    t <- now ;;
    let (success, u) := use_point s t point_type u in
    if success then
      _ <- update_user u ;;
      ret (true, u)
    else ret (false, u).

(** [PointService.get_user_points_info], against a given top level of
    [pytz].  The reset of the first line stays on the user object when a
    later line raises and the handler returns the empty dictionary. *)
Definition get_user_points_info_with (lib : pymodule) (u : User)
  : M (pydict * User) :=
  t0 <- now ;;
  let u := _check_daily_reset s t0 u in
  try_except
    (t <- now ;;
     let now_dt := datetime_now (TIMEZONE s) t in
     _ <- getattr lib "timedelta" ;;
     let delta := until_midnight now_dt in
     let daily := daily_points u in
     let referral := referral_points u in
     let used := total_points_used u in
     let images := image_generated u in
     '(can, u) <- can_user_generate_image u ;;
     ret ([ ("daily_points", VInt daily);
            ("referral_points", VInt referral);
            ("total_points", VInt (daily + referral));
            ("total_points_used", VInt used);
            ("images_generated", VInt images);
            ("can_generate", VBool can);
            ("time_until_reset",
              VDict [ ("hours", VInt (reset_hours delta));
                      ("minutes", VInt (reset_minutes delta));
                      ("text", VStr (reset_text delta)) ]);
            ("last_reset", VStrftime "%d/%m/%Y %H:%M" (last_reset u)) ]%string,
          u))
    (fun _ => ret ([], u)).

Definition get_user_points_info : User -> M (pydict * User) :=
  get_user_points_info_with pytz.

End PointService.

(** [utils.helpers.time_until_midnight_wib]: here [timedelta] is the name
    imported from [datetime]. *)
Definition time_until_midnight_wib (s : Settings) : M pydict :=
  t <- now ;;
  let delta := until_midnight (datetime_now (TIMEZONE s) t) in
  ret [ ("hours", VInt (reset_hours delta));
        ("minutes", VInt (reset_minutes delta));
        ("seconds", VInt ((delta / second_us) mod 60));
        ("total_seconds", VInt (delta / second_us));
        ("text", VStr (reset_text delta)) ]%string.

(* ================================================================== *)
(** * services/referral_service.py *)
(* ================================================================== *)

(** Truth value of an optional integer ([None] and [0] are falsy). *)
Definition truthy (v : option Z) : bool :=
  match v with
  | Some n => negb (n =? 0)
  | None => false
  end.

Section ReferralService.
Variable s : Settings.

(** [ReferralService.process_referral] *)
Definition process_referral (new_user_id : Z) (code : pystr)
  : M (bool * pystr) :=
  found <- get_user_by_referral_code code ;;
  match found with
  | None => ret (false, str "Kode referral tidak valid.")
  | Some referrer =>
      if user_id referrer =? new_user_id then
        ret (false, str "Anda tidak bisa menggunakan kode referral sendiri.")
      else
        new_user <- get_user new_user_id ;;
        match new_user with
        | Some nu =>
            if truthy (referred_by nu) then
              ret (false,
                   str "Anda sudah menggunakan kode referral sebelumnya.")
            else
              let nu := set_referred_by (Some (user_id referrer)) nu in
              let nu := set_referral_points
                          (referral_points nu + REFERRAL_POINTS s) nu in
              _ <- update_user nu ;;
              let referrer := set_referral_count
                                (referral_count referrer + 1) referrer in
              let referrer := set_referral_points
                                (referral_points referrer
                                 + REFERRAL_POINTS s) referrer in
              _ <- update_user referrer ;;
              ret (true,
                   str "Berhasil! Anda dan yang mengundang masing-masing mendapat "
                   ++ str_of_Z (REFERRAL_POINTS s) ++ str " poin.")
        | None => ret (false, str "User baru belum terdaftar.")
        end
  end.

End ReferralService.

(* ================================================================== *)
(** * handlers/user_handlers.py *)
(* ================================================================== *)

(** A [pyrogram] message, as far as the handlers read it. *)
Record TgMessage := {
  from_user_id : Z;
  from_first_name : option pystr;
  from_username : option pystr;
  chat_id : Z;
  command : list pystr;
}.

Definition nl : pystr := [newline].

(** Lines of a triple-quoted text after [.strip()]. *)
Definition text_lines (ls : list pystr) : pystr := join nl ls.

(** What an f-string prints for a value. *)
Definition format_value (v : pyval) : pystr :=
  match v with
  | VInt z => str_of_Z z
  | VBool true => str "True"
  | VBool false => str "False"
  | VStr t => t
  | VStrftime f _ => str f
  | VDict _ => str "{...}"
  end.

(** [d[k1][k2]] *)
Definition getitem2 (d : pydict) (k1 k2 : string) : M pyval :=
  v <- getitem d k1 ;;
  match v with
  | VDict d' => getitem d' k2
  | _ => raise (KeyError k2)
  end.

(** The refund of [/image]: three assignments on the user object. *)
Definition refund_point (u : User) : User :=
  let u := set_daily_points (daily_points u + 1) u in
  let u := set_total_points_used (total_points_used u - 1) u in
  set_image_generated (image_generated u - 1) u.

Section UserHandlers.
Variable bot : Bot.
Let s := settings bot.

Definition no_points_text (daily referral text : pyval) : pystr :=
  text_lines
    [ str "❌ **Poin Tidak Cukup**"; [];
      str "💎 **Poin Anda:**";
      str "• Poin Harian: " ++ format_value daily;
      str "• Poin Referral: " ++ format_value referral; [];
      str "⏰ **Reset Berikutnya:** " ++ format_value text ++ str " lagi"; [];
      str "🎁 **Cara Mendapat Poin:**";
      str "• Tunggu reset harian (jam 12 malam WIB)";
      str "• Undang teman dengan `/invite`"; [];
      str "📋 **Info Lengkap:** `/points`" ].

Definition image_stub_text : pystr :=
  str "❌ **Fitur Sedang Dikembangkan**" ++ nl ++ nl ++
  str "Generasi gambar sedang dalam tahap pengembangan. Poin Anda telah dikembalikan."
  ++ nl ++ nl ++ str "💡 **Coming Soon:**" ++ nl ++
  str "• Integrasi dengan Stable Diffusion" ++ nl ++
  str "• Multiple style options" ++ nl ++
  str "• High-quality image generation".

(** [UserHandlers.handle_image_generation]; [fuel] bounds the draws of
    a referral code when the sender is new. *)
Definition handle_image_generation (fuel : nat) (message : TgMessage)
  : M unit :=
  try_except
    (user <- get_or_create_user s fuel (from_user_id message)
               (from_first_name message) (from_username message) ;;
     '(can, user) <- can_user_generate_image s user ;;
     if negb can then
       '(points_info, user) <- get_user_points_info s user ;;
       daily <- getitem points_info "daily_points" ;;
       referral <- getitem points_info "referral_points" ;;
       text <- getitem2 points_info "time_until_reset" "text" ;;
       send_message_safe (chat_id message)
                         (no_points_text daily referral text)
     else if (List.length (command message) <? 2)%nat then
       send_message_safe (chat_id message)
         (str "❌ **Format Salah**" ++ nl ++ nl ++
          str "Gunakan: `/image [deskripsi gambar]`" ++ nl ++ nl ++
          str "Contoh:" ++ nl ++ str "`/image kucing lucu sedang bermain`")
     else
       let prompt := join (str " ") (tl (command message)) in
       if (List.length prompt <? 5)%nat then
         send_message_safe (chat_id message)
           (str "❌ Deskripsi gambar terlalu pendek. Minimal 5 karakter.")
       else
         '(success, user) <- use_point_for_image s user (str "auto") ;;
         if negb success then
           send_message_safe (chat_id message)
             (str "❌ Gagal menggunakan poin. Silakan coba lagi.")
         else
           _ <- client_send (chat_id message)
                  (str "🎨 **Sedang membuat gambar...**" ++ nl ++ nl ++
                   str "Prompt: " ++ prompt ++ nl ++ nl ++
                   str "⏳ Mohon tunggu sebentar...") ;;
           user <- try_except
              (_ <- client_send (chat_id message) image_stub_text ;;
               let user := refund_point user in
               _ <- update_user user ;;
               ret user)
              (fun _ =>
               _ <- client_send (chat_id message)
                      (str "❌ Terjadi kesalahan saat membuat gambar. Poin Anda telah dikembalikan.") ;;
               let user := refund_point user in
               _ <- update_user user ;;
               ret user) ;;
           _ <- update_stats (str "images") ;;
           memory_add_message s (user_id user) (str "user")
             (str "Meminta gambar: " ++ prompt) (str "image") no_kwargs)
    (fun _ =>
       send_message_safe (chat_id message)
         (str "Terjadi kesalahan saat memproses permintaan gambar.")).

End UserHandlers.

(* ================================================================== *)
(** * handlers/admin_handlers.py *)
(* ================================================================== *)

Definition is_digit (c : ascii) : bool :=
  let n := nat_of_ascii c in ((48 <=? n) && (n <=? 57))%nat.

Definition digit_value (c : ascii) : Z := Z.of_nat (nat_of_ascii c - 48).

(** Digits, with single underscores allowed between two digits. *)
Fixpoint parse_digits (acc : Z) (after_digit : bool) (t : pystr)
  : option Z :=
  match t with
  | [] => if after_digit then Some acc else None
  | c :: t' =>
      if is_digit c then parse_digits (acc * 10 + digit_value c) true t'
      else if Ascii.eqb c "_"%char then
        if after_digit then parse_digits acc false t' else None
      else None
  end.

(** [int(word)] on a word of a command (no white space inside): an
    optional sign and decimal digits; [None] stands for [ValueError]. *)
Definition int_of_str (t : pystr) : option Z :=
  match t with
  | c :: t' =>
      if Ascii.eqb c "-"%char then option_map Z.opp (parse_digits 0 false t')
      else if Ascii.eqb c "+"%char then parse_digits 0 false t'
      else parse_digits 0 false t
  | [] => None
  end.

(** [f"{name}"] for an optional string. *)
Definition format_opt (v : option pystr) : pystr :=
  match v with
  | Some t => t
  | None => str "None"
  end.

(** The reply of every handler gated by [AdminHandlers.is_admin]. *)
Definition access_denied : pystr := str "❌ Anda tidak memiliki akses admin.".

(** The outcome of a broadcast: the dictionary [execute_broadcast]
    returns. *)
Record BroadcastResult := {
  success : Z;
  failed : Z;
  total : Z;
}.

(** [range(0, n, step)] *)
Definition range_step (n step : nat) : list nat :=
  map (fun k => (k * step)%nat) (seq 0 ((n + (step - 1)) / step)).

Section AdminHandlers.
Variable bot : Bot.
Let s := settings bot.

(** [AdminHandlers.is_admin] *)
Definition handlers_is_admin (uid : Z) : bool :=
  is_admin bot uid || is_owner bot uid.

(** The best-effort notification: [try: send  except: pass]. *)
Definition notify (uid : Z) (text : pystr) : M unit :=
  try_except (client_send uid text) (fun _ => ret tt).

Definition user_name_of (u : option User) : pystr :=
  match u with
  | Some u => format_opt (first_name u)
  | None => str "Unknown"
  end.

(** [AdminHandlers.handle_ban_user] *)
Definition handle_ban_user (message : TgMessage) : M unit :=
  try_except
    (if negb (handlers_is_admin (from_user_id message)) then
       send_message_safe (chat_id message) access_denied
     else if (List.length (command message) <? 2)%nat then
       send_message_safe (chat_id message)
         (str "❌ **Format Salah**" ++ nl ++ nl ++
          str "Gunakan: `/ban <user_id> [alasan]`" ++ nl ++ nl ++
          str "Contoh:" ++ nl ++ str "`/ban 123456789 Spam`")
     else
       match int_of_str (nth 1 (command message) []) with
       | None =>
           send_message_safe (chat_id message)
             (str "❌ User ID harus berupa angka.")
       | Some uid =>
           if is_owner bot uid then
             send_message_safe (chat_id message)
               (str "❌ Tidak dapat memban owner bot.")
           else
             let reason :=
               if (2 <? List.length (command message))%nat
               then join (str " ") (skipn 2 (command message))
               else str "Tidak ada alasan" in
             ok <- ban_user uid ;;
             if ok then
               user <- get_user uid ;;
               _ <- send_message_safe (chat_id message)
                      (text_lines
                         [ str "✅ **Pengguna Telah Dibanned**"; [];
                           str "👤 **User:** " ++ user_name_of user ++
                             str " (`" ++ str_of_Z uid ++ str "`)";
                           str "📝 **Alasan:** " ++ reason;
                           str "👮 **Admin:** " ++
                             format_opt (from_first_name message); [];
                           str "⚠️ User tidak akan bisa menggunakan bot lagi." ]) ;;
               notify uid
                 (str "🚫 **Anda telah dibanned dari bot ini**" ++ nl ++ nl ++
                  str "📝 **Alasan:** " ++ reason ++ nl ++ nl ++
                  str "Jika merasa ini kesalahan, hubungi admin.")
             else
               send_message_safe (chat_id message)
                 (str "❌ Gagal memban pengguna. User mungkin tidak ditemukan.")
       end)
    (fun _ =>
       send_message_safe (chat_id message)
         (str "Terjadi kesalahan saat memban pengguna.")).

(** [AdminHandlers.handle_unban_user] *)
Definition handle_unban_user (message : TgMessage) : M unit :=
  try_except
    (if negb (handlers_is_admin (from_user_id message)) then
       send_message_safe (chat_id message) access_denied
     else if (List.length (command message) <? 2)%nat then
       send_message_safe (chat_id message)
         (str "❌ **Format Salah**" ++ nl ++ nl ++
          str "Gunakan: `/unban <user_id>`" ++ nl ++ nl ++
          str "Contoh:" ++ nl ++ str "`/unban 123456789`")
     else
       match int_of_str (nth 1 (command message) []) with
       | None =>
           send_message_safe (chat_id message)
             (str "❌ User ID harus berupa angka.")
       | Some uid =>
           ok <- unban_user uid ;;
           if ok then
             user <- get_user uid ;;
             _ <- send_message_safe (chat_id message)
                    (text_lines
                       [ str "✅ **Pengguna Telah Diunban**"; [];
                         str "👤 **User:** " ++ user_name_of user ++
                           str " (`" ++ str_of_Z uid ++ str "`)";
                         str "👮 **Admin:** " ++
                           format_opt (from_first_name message); [];
                         str "✅ User sekarang bisa menggunakan bot lagi." ]) ;;
             notify uid
               (str "✅ **Anda telah diunban**" ++ nl ++ nl ++
                str "Sekarang Anda bisa menggunakan bot lagi. Pastikan mengikuti aturan yang berlaku.")
           else
             send_message_safe (chat_id message)
               (str "❌ Gagal mengunban pengguna. User mungkin tidak ditemukan.")
       end)
    (fun _ =>
       send_message_safe (chat_id message)
         (str "Terjadi kesalahan saat mengunban pengguna.")).

(** [AdminHandlers.handle_broadcast]: asks for confirmation and keeps
    the text and the initiator on the bot object. *)
Definition handle_broadcast (message : TgMessage) : M unit :=
  try_except
    (if negb (handlers_is_admin (from_user_id message)) then
       send_message_safe (chat_id message) access_denied
     else if (List.length (command message) <? 2)%nat then
       send_message_safe (chat_id message)
         (str "❌ **Format Salah**" ++ nl ++ nl ++
          str "Gunakan: `/broadcast <pesan>`" ++ nl ++ nl ++
          str "Contoh:" ++ nl ++
          str "`/broadcast Halo semua! Bot sedang update.`")
     else
       let broadcast_text := join (str " ") (tl (command message)) in
       _ <- modify (with_pending_broadcast
                      (Some (broadcast_text, from_user_id message))) ;;
       client_send (chat_id message)
         (text_lines
            [ str "📢 **Konfirmasi Broadcast**"; [];
              str "📝 **Pesan yang akan dikirim:**";
              broadcast_text; [];
              str "⚠️ **Pesan ini akan dikirim ke semua pengguna bot.**";
              str "Apakah Anda yakin?" ]))
    (fun _ =>
       send_message_safe (chat_id message)
         (str "Terjadi kesalahan saat mempersiapkan broadcast.")).

(** [AdminHandlers.handle_add_admin]: owner only. *)
Definition handle_add_admin (message : TgMessage) : M unit :=
  try_except
    (if negb (is_owner bot (from_user_id message)) then
       send_message_safe (chat_id message)
         (str "❌ Hanya owner yang bisa menambah admin.")
     else if (List.length (command message) <? 2)%nat then
       send_message_safe (chat_id message)
         (str "❌ **Format Salah**" ++ nl ++ nl ++
          str "Gunakan: `/addadmin <user_id>`" ++ nl ++ nl ++
          str "Contoh:" ++ nl ++ str "`/addadmin 123456789`")
     else
       match int_of_str (nth 1 (command message) []) with
       | None =>
           send_message_safe (chat_id message)
             (str "❌ User ID harus berupa angka.")
       | Some uid =>
           ok <- set_admin uid true ;;
           if ok then
             user <- get_user uid ;;
             _ <- send_message_safe (chat_id message)
                    (str "✅ **Admin Ditambahkan**" ++ nl ++ nl ++
                     str "👤 **User:** " ++ user_name_of user ++
                     str " (`" ++ str_of_Z uid ++ str "`)" ++ nl ++
                     str "👑 **Status:** Admin") ;;
             notify uid
               (str "🎉 **Anda telah menjadi admin bot!**" ++ nl ++ nl ++
                str "Gunakan `/admin` untuk mengakses panel admin.")
           else
             send_message_safe (chat_id message)
               (str "❌ Gagal menambahkan admin. User mungkin tidak ditemukan.")
       end)
    (fun _ =>
       send_message_safe (chat_id message)
         (str "Terjadi kesalahan saat menambahkan admin.")).

(** [AdminHandlers._send_broadcast_message] *)
Definition _send_broadcast_message (uid : Z) (message : pystr) : M bool :=
  try_except
    (_ <- client_send uid
            (str "📢 **Broadcast dari Admin**" ++ nl ++ nl ++ message) ;;
     ret true)
    (fun _ => ret false).

(** The tasks of one batch, gathered: one result per recipient. *)
Fixpoint gather_sends (uids : list Z) (message : pystr) : M (list bool) :=
  match uids with
  | [] => ret []
  | u :: us =>
      r <- _send_broadcast_message u message ;;
      rs <- gather_sends us message ;;
      ret (r :: rs)
  end.

(** The counting of one batch's results. *)
Definition count_results (results : list bool) (acc : Z * Z) : Z * Z :=
  fold_left (fun '(ok, ko) (r : bool) =>
               if r then (ok + 1, ko) else (ok, ko + 1))
            results acc.

Fixpoint broadcast_batches (starts : list nat) (user_ids : list Z)
    (admin_id : Z) (text : pystr) (acc : Z * Z) : M (Z * Z) :=
  match starts with
  | [] => ret acc
  | i :: starts' =>
      let batch := firstn 30 (skipn i user_ids) in
      let recipients := filter (fun u => negb (u =? admin_id)) batch in
      results <- gather_sends recipients text ;;
      broadcast_batches starts' user_ids admin_id text
                        (count_results results acc)
  end.

(** [AdminHandlers.execute_broadcast] *)
Definition execute_broadcast (broadcast_text : pystr) (admin_id : Z)
  : M BroadcastResult :=
  try_except
    (user_ids <- get_users_for_broadcast true ;;
     match user_ids with
     | [] => ret {| success := 0; failed := 0; total := 0 |}
     | _ =>
         let total_count := len user_ids in
         '(ok, ko) <- broadcast_batches
                        (range_step (List.length user_ids) 30)
                        user_ids admin_id broadcast_text (0, 0) ;;
         ret {| success := ok; failed := ko; total := total_count |}
     end)
    (fun _ => ret {| success := 0; failed := 0; total := 0 |}).

End AdminHandlers.

(* ================================================================== *)
(** * handlers/callback_handlers.py *)
(* ================================================================== *)

(** A [pyrogram] callback query: who pressed the button, and the chat of
    the message that carries it. *)
Record CallbackQuery := {
  cq_from_user_id : Z;
  cq_chat_id : Z;
}.

(** Digits in groups of three, from the right ([f"{n:,}"]). *)
Fixpoint group3 (k : nat) (rev_digits : pystr) : pystr :=
  match rev_digits with
  | [] => []
  | d :: ds =>
      if (k =? 3)%nat then ","%char :: d :: group3 1 ds
      else d :: group3 (S k) ds
  end.

Definition format_grouped (n : Z) : pystr :=
  (if n <? 0 then str "-" else []) ++
  rev (group3 0 (rev (str_of_Z (Z.abs n)))).

(** The success rate in tenths of a percent:
    [success / max(total, 1) * 100] to one decimal place.  The source
    computes the quotient in binary floating point and lets [:.1f] round
    it; here the exact quotient is rounded to the nearest tenth (half to
    even), which is the same number except possibly on an exact tie. *)
Definition success_rate_tenths (r : BroadcastResult) : Z :=
  let den := Z.max (total r) 1 in
  let num := success r * 1000 in
  let q := num / den in
  let twice_rem := 2 * (num mod den) in
  if twice_rem <? den then q
  else if den <? twice_rem then q + 1
  else if Z.even q then q else q + 1.

Definition format_rate (tenths : Z) : pystr :=
  str_of_Z (tenths / 10) ++ str "." ++ str_of_Z (tenths mod 10).

Section CallbackHandlers.
Variable bot : Bot.

(** [callback_query.answer] and [callback_query.edit_message_text]: both
    go through the client. *)
Definition answer (cq : CallbackQuery) (text : pystr) : M unit :=
  client_send (cq_from_user_id cq) text.

Definition edit_message_text (cq : CallbackQuery) (text : pystr) : M unit :=
  client_send (cq_chat_id cq) text.

Definition broadcast_result_text (r : BroadcastResult) : pystr :=
  text_lines
    [ str "✅ **Broadcast Selesai**"; [];
      str "📊 **Hasil:**";
      str "• Berhasil: " ++ format_grouped (success r) ++ str " users";
      str "• Gagal: " ++ format_grouped (failed r) ++ str " users";
      str "• Total: " ++ format_grouped (total r) ++ str " users"; [];
      str "📈 **Success Rate:** " ++
        format_rate (success_rate_tenths r) ++ str "%" ].

(** [CallbackHandlers.handle_confirm_broadcast]; the result of the
    broadcast is returned as well, for the statements below. *)
Definition handle_confirm_broadcast (cq : CallbackQuery)
  : M (option BroadcastResult) :=
  try_except
    (if negb (is_admin bot (cq_from_user_id cq)) then
       _ <- answer cq (str "❌ Akses ditolak.") ;; ret None
     else
       pending <- get pending_broadcast ;;
       match pending with
       | None =>
           _ <- answer cq (str "❌ Data broadcast tidak ditemukan.") ;;
           ret None
       | Some (broadcast_text, admin_id) =>
           if negb (admin_id =? cq_from_user_id cq) then
             _ <- answer cq (str "❌ Data broadcast tidak ditemukan.") ;;
             ret None
           else
             _ <- edit_message_text cq
                    (str "📢 **Mengirim Broadcast...**" ++ nl ++ nl ++
                     str "⏳ Mohon tunggu, sedang mengirim ke semua pengguna...") ;;
             result <- execute_broadcast broadcast_text
                         (cq_from_user_id cq) ;;
             _ <- edit_message_text cq (broadcast_result_text result) ;;
             _ <- modify (with_pending_broadcast None) ;;
             ret (Some result)
       end)
    (fun _ => _ <- answer cq (str "❌ Terjadi kesalahan.") ;; ret None).

End CallbackHandlers.

(* ================================================================== *)
(** * More of the models *)
(* ================================================================== *)

(** [User.add_referral_points] *)
Definition add_referral_points (points : Z) (u : User) : User :=
  set_referral_points (referral_points u + points) u.

(** An entry of the history handed to the AI client:
    [{"role": ..., "parts": [{"text": ...}]}]. *)
Record GeminiMessage := {
  g_role : pystr;
  g_text : pystr;
}.

(** [Conversation.get_gemini_format(limit)] *)
Definition get_gemini_format (limit : Z) (c : Conversation)
  : list GeminiMessage :=
  flat_map
    (fun msg =>
       if str_eqb (message_type msg) (str "text")
       then [ {| g_role := if str_eqb (role msg) (str "user")
                           then str "user" else str "model";
                 g_text := content msg |} ]
       else [])
    (get_recent_messages limit c).

(** The dictionary [Conversation.get_stats] returns. *)
Record ConversationStats := {
  total_messages_count : Z;
  user_messages : Z;
  assistant_messages : Z;
  image_messages : Z;
  audio_messages : Z;
}.

(** [sum(1 for x in l if p(x))] *)
Definition count_if {A} (p : A -> bool) (l : list A) : Z :=
  fold_left (fun n x => if p x then n + 1 else n) l 0.

(** [Conversation.get_stats] *)
Definition get_stats (c : Conversation) : ConversationStats :=
  {| total_messages_count := len (messages c);
     user_messages :=
       count_if (fun m => str_eqb (role m) (str "user")) (messages c);
     assistant_messages :=
       count_if (fun m => str_eqb (role m) (str "assistant")) (messages c);
     image_messages :=
       count_if (fun m => str_eqb (message_type m) (str "image")) (messages c);
     audio_messages :=
       count_if (fun m => str_eqb (message_type m) (str "audio")) (messages c)
  |}.

(* ================================================================== *)
(** * More of the services *)
(* ================================================================== *)

(** The BSON date a [datetime] is stored as: milliseconds, a naive value
    being taken as UTC. *)
Definition bson_date (dt : datetime) : Z :=
  match dt with
  | Naive wall => wall / 1000
  | Aware utc _ => utc / 1000
  end.

(** [modified_count] of an [update_one] on [user_id]: 1 when the first
    matching document is changed by the update, else 0. *)
Definition modified_one (uid : Z) (changed : User -> bool)
    (docs : list User) : Z :=
  match find (fun d => user_id d =? uid) docs with
  | Some d => if changed d then 1 else 0
  | None => 0
  end.

Section MorePointService.
Variable s : Settings.

(** The update of [reset_daily_points] and whether it changes a
    document. *)
Definition reset_update (now_dt : datetime) (d : User) : User :=
  set_last_reset now_dt (set_daily_points (DAILY_POINTS s) d).

Definition reset_changes (now_dt : datetime) (d : User) : bool :=
  negb ((daily_points d =? DAILY_POINTS s)
        && (bson_date (last_reset d) =? bson_date now_dt)).

(** [PointService.reset_daily_points(user_id)]: one user when [user_id]
    is truthy, every user otherwise; the result is [modified_count]. *)
Definition reset_daily_points (uid : option Z) : M Z :=
  t <- now ;;
  let now_dt := datetime_now (TIMEZONE s) t in
  docs <- get users_collection ;;
  if truthy uid then
    let id := match uid with Some n => n | None => 0 end in
    _ <- modify (with_users (update_one id (reset_update now_dt) docs)) ;;
    ret (modified_one id (reset_changes now_dt) docs)
  else
    _ <- modify (with_users (map (reset_update now_dt) docs)) ;;
    ret (count_if (reset_changes now_dt) docs).

(** [PointService.manual_reset_user_points] *)
Definition manual_reset_user_points (uid : Z) : M bool :=
  count <- reset_daily_points (Some uid) ;;
  ret (0 <? count).

(** [PointService.grant_bonus_points]: [$inc] of one of the balances. *)
Definition grant_bonus_points (uid points : Z) (point_type : pystr)
  : M bool :=
  let inc :=
    if str_eqb point_type (str "referral")
    then fun d => set_referral_points (referral_points d + points) d
    else fun d => set_daily_points (daily_points d + points) d in
  docs <- get users_collection ;;
  _ <- modify (with_users (update_one uid inc docs)) ;;
  ret (0 <? modified_one uid (fun _ => negb (points =? 0)) docs).

End MorePointService.

Section MoreReferralService.

(** [ReferralService.validate_referral_code] *)
Definition validate_referral_code (code : pystr) : M (bool * pystr) :=
  if negb (List.length code =? 8)%nat then
    ret (false, str "Kode referral harus 8 karakter.")
  else
    found <- get_user_by_referral_code code ;;
    match found with
    | None => ret (false, str "Kode referral tidak ditemukan.")
    | Some u =>
        if is_banned u then ret (false, str "Kode referral tidak valid.")
        else ret (true, str "Kode referral valid.")
    end.

End MoreReferralService.

Section MoreMemoryService.
Variable s : Settings.

(** [MemoryService.get_conversation_history] *)
Definition get_conversation_history (uid : Z) (limit : Z)
  : M (list GeminiMessage) :=
  found <- get_conversation uid ;;
  match found with
  | Some c => ret (get_gemini_format limit c)
  | None => ret []
  end.

(** Whether two stored conversations differ in what [clear_memory]
    writes. *)
Definition clear_changes (t : Z) (c : Conversation) : bool :=
  negb (match messages c with [] => true | _ => false end
        && (bson_date (updated_at c)
            =? bson_date (datetime_now (TIMEZONE s) t))).

(** [MemoryService.clear_conversation]: [True] when there is nothing to
    clear, else whether the stored document was modified. *)
Definition clear_conversation (uid : Z) : M bool :=
  found <- get_conversation uid ;;
  match found with
  | Some c =>
      t <- now ;;
      let c' := clear_memory s t c in
      docs <- get conversations_collection ;;
      _ <- modify (fun w =>
             match update_one_conversation uid c' docs with
             | Some docs' => with_conversations docs' w
             | None => w
             end) ;;
      ret (clear_changes t c)
  | None => ret true
  end.

End MoreMemoryService.

(* ================================================================== *)
(** * More of the handlers *)
(* ================================================================== *)

(** Truth value of a dictionary entry. *)
Definition pyval_truthy (v : pyval) : bool :=
  match v with
  | VInt z => negb (z =? 0)
  | VBool b => b
  | VStr t => negb (List.length t =? 0)%nat
  | VStrftime f _ => negb (String.length f =? 0)%nat
  | VDict d => negb (List.length d =? 0)%nat
  end.

Section MoreUserHandlers.
Variable bot : Bot.
Let s := settings bot.

(** The card of [/points]. *)
Definition points_text (daily referral total used images text : pyval)
    (can : pyval) : pystr :=
  text_lines
    [ str "🎯 **Informasi Poin Anda**"; [];
      str "💎 **Poin Tersedia:**";
      str "• Poin Harian: " ++ format_value daily ++ str " ";
      str "• Poin Referral: " ++ format_value referral;
      str "• **Total Poin: " ++ format_value total ++ str "**"; [];
      str "📊 **Statistik:**";
      str "• Total Poin Terpakai: " ++ format_value used;
      str "• Gambar Dibuat: " ++ format_value images; [];
      str "⏰ **Reset Berikutnya:**";
      format_value text ++ str " lagi";
      str "(Setiap jam 12 malam WIB)"; [];
      str "🎯 **Status:** " ++
        (if pyval_truthy can then str "✅ Bisa buat gambar"
         else str "❌ Poin habis"); [];
      str "💡 **Cara Mendapat Poin:**";
      str "• Otomatis: 3 poin setiap hari";
      str "• Referral: Undang teman dengan `/invite`";
      str "• Bonus: Ikuti event khusus"; [];
      str "📋 **Info Lengkap:** `/help`" ].

(** [UserHandlers.handle_points]; [fuel] bounds the draws of a referral
    code when the sender is new. *)
Definition handle_points (fuel : nat) (message : TgMessage) : M unit :=
  try_except
    (user <- get_or_create_user s fuel (from_user_id message)
               (from_first_name message) (from_username message) ;;
     '(points_info, user) <- get_user_points_info s user ;;
     match points_info with
     | [] =>
         send_message_safe (chat_id message)
           (str "Gagal mengambil informasi poin. Silakan coba lagi.")
     | _ =>
         daily <- getitem points_info "daily_points" ;;
         referral <- getitem points_info "referral_points" ;;
         total <- getitem points_info "total_points" ;;
         used <- getitem points_info "total_points_used" ;;
         images <- getitem points_info "images_generated" ;;
         text <- getitem2 points_info "time_until_reset" "text" ;;
         can <- getitem points_info "can_generate" ;;
         send_message_safe (chat_id message)
           (points_text daily referral total used images text can)
     end)
    (fun _ =>
       send_message_safe (chat_id message)
         (str "Terjadi kesalahan saat mengambil informasi poin.")).

End MoreUserHandlers.

(** [c.lower()] on a byte of the UTF-8 text: the ASCII capitals are
    lowered, the bytes of other characters are kept. *)
Definition ascii_lower (c : ascii) : ascii :=
  let n := nat_of_ascii c in
  if ((65 <=? n) && (n <=? 90))%nat then ascii_of_nat (n + 32) else c.

Definition lower (t : pystr) : pystr := map ascii_lower t.

Section MoreAdminHandlers.
Variable bot : Bot.
Let s := settings bot.

(** [AdminHandlers.handle_give_points] *)
Definition handle_give_points (message : TgMessage) : M unit :=
  try_except
    (if negb (handlers_is_admin bot (from_user_id message)) then
       send_message_safe (chat_id message) access_denied
     else if (List.length (command message) <? 3)%nat then
       send_message_safe (chat_id message)
         (str "❌ **Format Salah**" ++ nl ++ nl ++
          str "Gunakan: `/givepoints <user_id> <jumlah> [type]`" ++ nl ++ nl ++
          str "Contoh:" ++ nl ++ str "`/givepoints 123456789 5 referral`" ++
          nl ++ nl ++ str "Type: daily atau referral (default: referral)")
     else
       match int_of_str (nth 1 (command message) []),
             int_of_str (nth 2 (command message) []) with
       | Some uid, Some points =>
           let point_type :=
             if (3 <? List.length (command message))%nat
             then nth 3 (command message) [] else str "referral" in
           if negb (str_eqb point_type (str "daily")
                    || str_eqb point_type (str "referral")) then
             send_message_safe (chat_id message)
               (str "❌ Type poin harus 'daily' atau 'referral'.")
           else if (points <=? 0) || (100 <? points) then
             send_message_safe (chat_id message)
               (str "❌ Jumlah poin harus antara 1-100.")
           else
             ok <- grant_bonus_points uid points point_type ;;
             if ok then
               user <- get_user uid ;;
               _ <- send_message_safe (chat_id message)
                      (text_lines
                         [ str "✅ **Poin Berhasil Diberikan**"; [];
                           str "👤 **User:** " ++ user_name_of user ++
                             str " (`" ++ str_of_Z uid ++ str "`)";
                           str "🎯 **Poin:** +" ++ str_of_Z points ++
                             str " poin " ++ point_type;
                           str "👮 **Admin:** " ++
                             format_opt (from_first_name message) ]) ;;
               notify uid
                 (str "🎉 **Bonus Poin Diterima!**" ++ nl ++ nl ++
                  str "🎯 **Poin:** +" ++ str_of_Z points ++
                  str " poin " ++ point_type ++ nl ++
                  str "💝 **Dari:** Admin" ++ nl ++ nl ++
                  str "Gunakan `/points` untuk melihat total poin Anda.")
             else
               send_message_safe (chat_id message)
                 (str "❌ Gagal memberikan poin. User mungkin tidak ditemukan.")
       | _, _ =>
           send_message_safe (chat_id message)
             (str "❌ User ID dan jumlah poin harus berupa angka.")
       end)
    (fun _ =>
       send_message_safe (chat_id message)
         (str "Terjadi kesalahan saat memberikan poin.")).

(** [AdminHandlers.handle_reset_points] *)
Definition handle_reset_points (message : TgMessage) : M unit :=
  try_except
    (if negb (handlers_is_admin bot (from_user_id message)) then
       send_message_safe (chat_id message) access_denied
     else if (List.length (command message) <? 2)%nat then
       send_message_safe (chat_id message)
         (str "❌ **Format Salah**" ++ nl ++ nl ++
          str "Gunakan: `/resetpoints <user_id|all>`" ++ nl ++ nl ++
          str "Contoh:" ++ nl ++ str "`/resetpoints 123456789`" ++ nl ++
          str "`/resetpoints all`")
     else
       let target := nth 1 (command message) [] in
       if str_eqb (lower target) (str "all") then
         if negb (is_owner bot (from_user_id message)) then
           send_message_safe (chat_id message)
             (str "❌ Hanya owner yang bisa reset poin semua user.")
         else
           client_send (chat_id message)
             (str "⚠️ **Konfirmasi Reset Poin Semua User**" ++ nl ++ nl ++
              str "Apakah Anda yakin ingin mereset poin harian semua pengguna? Tindakan ini tidak dapat dibatalkan.")
       else
         match int_of_str target with
         | None =>
             send_message_safe (chat_id message)
               (str "❌ User ID harus berupa angka atau 'all'.")
         | Some uid =>
             ok <- manual_reset_user_points s uid ;;
             if ok then
               user <- get_user uid ;;
               _ <- send_message_safe (chat_id message)
                      (str "✅ **Poin Direset**" ++ nl ++ nl ++
                       str "👤 **User:** " ++ user_name_of user ++
                       str " (`" ++ str_of_Z uid ++ str "`)" ++ nl ++
                       str "🎯 **Poin harian direset ke " ++
                       str_of_Z (DAILY_POINTS s) ++ str "**" ++ nl ++
                       str "👮 **Admin:** " ++
                       format_opt (from_first_name message)) ;;
               notify uid
                 (str "🔄 **Poin Harian Direset**" ++ nl ++ nl ++
                  str "Poin harian Anda telah direset ke " ++
                  str_of_Z (DAILY_POINTS s) ++ str " oleh admin.")
             else
               send_message_safe (chat_id message)
                 (str "❌ Gagal mereset poin. User mungkin tidak ditemukan.")
         end)
    (fun _ =>
       send_message_safe (chat_id message)
         (str "Terjadi kesalahan saat mereset poin.")).

End MoreAdminHandlers.

(** [t.split(sep)] for a one-character separator. *)
Fixpoint split_on (sep : ascii) (t : pystr) : list pystr :=
  match t with
  | [] => [[]]
  | c :: t' =>
      if Ascii.eqb c sep then [] :: split_on sep t'
      else match split_on sep t' with
           | part :: parts => (c :: part) :: parts
           | [] => [[c]]
           end
  end.

Section MoreCallbackHandlers.
Variable bot : Bot.
Let s := settings bot.

(** [int(...)] on a part of the callback data, which may hold any
    character; [None] stands for [ValueError]. *)
Variable int_ : pystr -> option Z.

(** [CallbackHandlers.handle_cancel_broadcast] *)
Definition handle_cancel_broadcast (cq : CallbackQuery) : M unit :=
  try_except
    (_ <- edit_message_text cq (str "✅ Broadcast dibatalkan.") ;;
     modify (with_pending_broadcast None))
    (fun _ => answer cq (str "❌ Terjadi kesalahan.")).

(** [CallbackHandlers.handle_clear_memory_confirm], on the [data] of the
    callback query. *)
Definition handle_clear_memory_confirm (cq : CallbackQuery) (data : pystr)
  : M unit :=
  try_except
    (let data_parts := split_on "_"%char data in
     if (3 <=? List.length data_parts)%nat then
       match int_ (nth 2 data_parts []) with
       | None => raise ValueError
       | Some uid =>
           if negb (cq_from_user_id cq =? uid)
              && negb (is_admin bot (cq_from_user_id cq)) then
             answer cq (str "❌ Anda tidak bisa menghapus memory user lain.")
           else
             ok <- clear_conversation s uid ;;
             if ok then
               _ <- edit_message_text cq
                      (str "✅ **Memory Berhasil Dihapus**" ++ nl ++ nl ++
                       str "Semua riwayat percakapan telah dihapus. Percakapan baru akan dimulai dari awal.") ;;
               answer cq (str "✅ Memory berhasil dihapus!")
             else
               _ <- edit_message_text cq
                      (str "❌ **Gagal Menghapus Memory**" ++ nl ++ nl ++
                       str "Terjadi kesalahan saat menghapus memory. Silakan coba lagi.") ;;
               answer cq (str "❌ Gagal menghapus memory.")
       end
     else ret tt)
    (fun _ => answer cq (str "❌ Terjadi kesalahan.")).

End MoreCallbackHandlers.

(* ================================================================== *)
(** * utils/helpers.py *)
(* ================================================================== *)

(** [l[:stop]] for any integer [stop]. *)
Definition slice_to_Z {A} (stop : Z) (l : list A) : list A :=
  let n := len l in
  let j := if stop <? 0 then Z.max 0 (stop + n) else Z.min stop n in
  firstn (Z.to_nat j) l.

(** [truncate_text(text, max_length, suffix)] *)
Definition truncate_text (text : pystr) (max_length : Z) (suffix : pystr)
  : pystr :=
  if len text <=? max_length then text
  else slice_to_Z (max_length - len suffix) text ++ suffix.

(** [text.replace(char, "\\" + char)] for a one-character [char]. *)
Definition escape_char (c : ascii) (text : pystr) : pystr :=
  flat_map (fun x => if Ascii.eqb x c then ["\"%char; c] else [x]) text.

Definition special_chars : list ascii :=
  ["_"; "*"; "["; "]"; "("; ")"; "~"; "`"; ">"; "#"; "+"; "-"; "=";
   "|"; "{"; "}"; "."; "!"]%char.

(** [escape_markdown]: one replacement after the other. *)
Definition escape_markdown (text : pystr) : pystr :=
  fold_left (fun t c => escape_char c t) special_chars text.

(* ================================================================== *)
(** * More of the memory service *)
(* ================================================================== *)

Section OptimizeMemory.
Variable s : Settings.

(** The text of the summary message. *)
Definition summary_text (n : Z) : pystr :=
  str "Ringkasan percakapan sebelumnya: " ++ str_of_Z n ++
  str " pesan telah diringkas untuk mengoptimalkan memori.".

(** [MemoryService.optimize_memory_usage]; [-MAX_MEMORY_MESSAGES//2] is
    the floor of [-MAX_MEMORY_MESSAGES / 2]. *)
Definition optimize_memory_usage (uid : Z) : M bool :=
  found <- get_conversation uid ;;
  match found with
  | None => ret true
  | Some conversation =>
      if (List.length (messages conversation) <=? MAX_MEMORY_MESSAGES)%nat
      then ret true
      else
        let half := (- Z.of_nat MAX_MEMORY_MESSAGES) / 2 in
        let recent_messages := slice_from half (messages conversation) in
        let old_messages := slice_to_Z half (messages conversation) in
        match old_messages with
        | [] => ret true
        | _ =>
            t <- now ;;
            let summary :=
              new_message s t (str "assistant")
                (summary_text (len old_messages)) (str "text")
                {| kw_timestamp := None;
                   kw_metadata := Some [(str "type", str "summary")] |} in
            let conversation :=
              {| conv_user_id := conv_user_id conversation;
                 messages := summary :: recent_messages;
                 created_at := created_at conversation;
                 updated_at := updated_at conversation;
                 context := context conversation |} in
            docs <- get conversations_collection ;;
            match update_one_conversation uid conversation docs with
            | Some docs' =>
                _ <- modify (with_conversations docs') ;;
                ret true
            | None => ret false
            end
        end
  end.

End OptimizeMemory.

(* ================================================================== *)
(** * Vocabulary of the statements *)
(* ================================================================== *)

(** The local calendar day of a stored [last_reset]. *)
Definition reset_day (s : Settings) (u : User) : Z :=
  date (match last_reset u with
        | Naive wall => localize (TIMEZONE s) wall
        | Aware utc _ => astimezone (TIMEZONE s) utc
        end).

(** The local calendar day at the instant [t]. *)
Definition today (s : Settings) (t : Z) : Z :=
  date (datetime_now (TIMEZONE s) t).

(** The next reading of the clock. *)
Definition next_instant (w : World) : Z := clock w (clock_reads w).

(** ** Sample data *)

Definition noon : Z := 20000 * day_us + 5 * hour_us.

(** A stored user with the given balances, last reset at [last]. *)
Definition sample_user (uid daily referral : Z) (last : datetime) : User :=
  {| user_id := uid; username := None; first_name := Some (str "Budi");
     last_name := None; is_banned := false; is_admin_flag := false;
     daily_points := daily; total_points_used := 0; last_reset := last;
     referral_code := Some (str "CODE" ++ str_of_Z uid); referred_by := None;
     referral_count := 0; referral_points := referral;
     join_date := last; last_activity := last;
     message_count := 0; image_generated := 0;
     has_clone_bot := false; clone_bot_id := None |}.

(** The same day, and the day before, in WIB. *)
Definition this_morning : datetime := Aware (noon - 4 * hour_us) (7 * hour_us).

(** A world whose clock stands at [noon] and whose network works. *)
Definition sample_world (users : list User) : World :=
  {| users_collection := users; conversations_collection := [];
     stats := {| total_users := 0; total_messages := 0; total_images := 0 |};
     pending_broadcast := None; sent := [];
     clock := fun _ => noon; clock_reads := 0;
     network := fun _ => true; network_calls := 0;
     codes := fun _ => str "AAAAAAAA"; codes_drawn := 0 |}.

(** The same world with a network that fails on the calls [net] rejects. *)
Definition world_with_network (users : list User) (net : nat -> bool)
  : World :=
  {| users_collection := users; conversations_collection := [];
     stats := {| total_users := 0; total_messages := 0; total_images := 0 |};
     pending_broadcast := None; sent := [];
     clock := fun _ => noon; clock_reads := 0;
     network := net; network_calls := 0;
     codes := fun _ => str "AAAAAAAA"; codes_drawn := 0 |}.

(** No reading of the clock can change the daily balance of [u]: the
    balance already is the allotment, or no reading falls on a later local
    day than the last reset. *)
Definition no_refill (s : Settings) (w : World) (u : User) : Prop :=
  DAILY_POINTS s = daily_points u \/
  forall k, today s (clock w k) <= reset_day s u.

(** The conversation stored for a user, and its messages. *)
Definition stored_conversation (uid : Z) (w : World) : option Conversation :=
  find (fun d => conv_user_id d =? uid) (conversations_collection w).

Definition stored_messages (uid : Z) (w : World) : list Message :=
  match stored_conversation uid w with
  | Some d => messages d
  | None => []
  end.

(** Where the splitter cuts a text longer than [max_length]: at the last
    newline among its first [max_length] characters, or at [max_length]. *)
Definition split_pos (max_length : nat) (text : pystr) : nat :=
  match last_index newline (firstn max_length text) with
  | Some i => i
  | None => max_length
  end.

(** What is left to split after the first chunk. *)
Definition remainder (max_length : nat) (text : pystr) : pystr :=
  lstrip newline (skipn (split_pos max_length text) text).

Definition fits (max_length : nat) (chunk : pystr) : Prop :=
  (List.length chunk <= max_length)%nat.

(** The stored user with a given id, and the one holding a given
    referral code. *)
Definition stored_user (uid : Z) (w : World) : option User :=
  find (fun d => user_id d =? uid) (users_collection w).

Definition user_with_code (code : pystr) (w : World) : option User :=
  find (fun d => opt_str_eqb (referral_code d) code) (users_collection w).

(** The main bot, run by [owner], with the default settings. *)
Definition main_bot (owner : Z) : Bot :=
  {| settings := default_settings owner; is_clone := false;
     clone_admin_id := None |}.

(** [/image kucing lucu], sent by [uid] in a private chat. *)
Definition image_request (uid : Z) : TgMessage :=
  {| from_user_id := uid; from_first_name := Some (str "Budi");
     from_username := None; chat_id := uid;
     command := [str "image"; str "kucing"; str "lucu"] |}.

(** The four fields the refund is about. *)
Definition balances (u : User) : Z * Z * Z * Z :=
  (daily_points u, referral_points u, total_points_used u, image_generated u).

(** [/ban 7], [/unban 7], [/broadcast Halo] and [/addadmin 7], sent by
    [uid] in a private chat. *)
Definition admin_request (uid : Z) (cmd : list pystr) : TgMessage :=
  {| from_user_id := uid; from_first_name := Some (str "Sari");
     from_username := None; chat_id := uid; command := cmd |}.

(** What a handler may change besides the outgoing messages and the
    counters of the oracles. *)
Definition same_data (w w' : World) : Prop :=
  users_collection w' = users_collection w /\
  conversations_collection w' = conversations_collection w /\
  pending_broadcast w' = pending_broadcast w /\
  stats w' = stats w.

(** The caller is the configured owner, or on a clone the clone's
    designated admin. *)
Definition owner_or_clone_admin (bot : Bot) (uid : Z) : Prop :=
  uid = OWNER_ID (settings bot) \/
  (is_clone bot = true /\ clone_admin_id bot = Some uid).

(** The admin check as the specification words it: owner, clone admin, or
    the [is_admin] flag of the stored user. *)
Definition spec_admin_check (bot : Bot) (w : World) (uid : Z) : Prop :=
  owner_or_clone_admin bot uid \/
  exists u, stored_user uid w = Some u /\ is_admin_flag u = true.

(** The ids [get_users_for_broadcast(exclude_banned=True)] returns, and
    those among them a broadcast started by [admin_id] is sent to. *)
Definition audience (w : World) : list Z :=
  map user_id (filter (fun d => negb (is_banned d)) (users_collection w)).

Definition recipients (admin_id : Z) (w : World) : list Z :=
  filter (fun u => negb (u =? admin_id)) (audience w).

(** The batches [execute_broadcast] cuts a list of ids into. *)
Definition batches_of (ids : list Z) : list (list Z) :=
  map (fun i => firstn 30 (skipn i ids)) (range_step (List.length ids) 30).

(** The clock, the network and the outgoing messages are as before. *)
Definition same_io (w w' : World) : Prop :=
  clock w' = clock w /\ network w' = network w /\
  network_calls w' = network_calls w /\ sent w' = sent w.

(** Two user objects with the same identity, ban flag, balances, counters
    and reset stamp. *)
Definition same_account (u u' : User) : Prop :=
  user_id u' = user_id u /\ is_banned u' = is_banned u /\
  daily_points u' = daily_points u /\
  referral_points u' = referral_points u /\
  total_points_used u' = total_points_used u /\
  image_generated u' = image_generated u /\
  last_reset u' = last_reset u.

(** The unique index on [user_id]. *)
Definition unique_ids (w : World) : Prop :=
  NoDup (map user_id (users_collection w)).

(** The referral codes in use. *)
Definition codes_in_use (docs : list User) : list pystr :=
  flat_map (fun d => match referral_code d with
                     | Some c => [c]
                     | None => []
                     end) docs.

(** The (sparse) unique index on [referral_code]. *)
Definition unique_codes (w : World) : Prop :=
  NoDup (codes_in_use (users_collection w)).

(** The text a broadcast delivers to each recipient. *)
Definition broadcast_message (text : pystr) : pystr :=
  str "📢 **Broadcast dari Admin**" ++ nl ++ nl ++ text.

(** Of the ids sent to one after the other, starting with call number
    [call] of the client, those whose call goes through. *)
Fixpoint deliveries (net : nat -> bool) (call : nat) (uids : list Z)
  : list Z :=
  match uids with
  | [] => []
  | u :: us =>
      if net call then u :: deliveries net (S call) us
      else deliveries net (S call) us
  end.

(** The characters of a text other than the newlines, in order. *)
Definition without_newlines (text : pystr) : pystr :=
  filter (fun x => negb (Ascii.eqb x newline)) text.

(** No stored conversation holds more than [MAX_MEMORY_MESSAGES]
    messages. *)
Definition capped (w : World) : Prop :=
  Forall (fun c => (List.length (messages c) <= MAX_MEMORY_MESSAGES)%nat)
         (conversations_collection w).

(* ================================================================== *)
(** * Properties *)
(* ================================================================== *)

(** ** The daily reset *)

Section DailyReset.
Variable s : Settings.


Lemma check_daily_reset_not_due t u :
  today s t <= reset_day s u -> _check_daily_reset s t u = u.
Proof.
  unfold _check_daily_reset, reset_day, today. intros H.
  apply Z.ltb_ge in H. now rewrite H.
Qed.

(** The reset touches two fields only. *)
Lemma check_daily_reset_frame t u :
  let u' := _check_daily_reset s t u in
  user_id u' = user_id u /\ is_banned u' = is_banned u /\
  referral_points u' = referral_points u /\
  total_points_used u' = total_points_used u /\
  image_generated u' = image_generated u /\
  (daily_points u' = daily_points u \/ daily_points u' = DAILY_POINTS s).
Proof.
  unfold _check_daily_reset.
  destruct (_ <? _); cbn; auto 10.
Qed.

End DailyReset.

(** ** Running the effects *)

Lemma bind_ok {A B} (m : M A) (k : A -> M B) w a w' :
  m w = (Ok a, w') -> bind m k w = k a w'.
Proof. unfold bind. now intros ->. Qed.

Lemma try_except_ok {A} (m : M A) h w a w' :
  m w = (Ok a, w') -> try_except m h w = (Ok a, w').
Proof. unfold try_except. now intros ->. Qed.

Lemma try_except_raise {A} (m : M A) h w e w' :
  m w = (Raise e, w') -> try_except m h w = h e w'.
Proof. unfold try_except. now intros ->. Qed.

Lemma now_run w : now w = (Ok (next_instant w), tick_clock w).
Proof. reflexivity. Qed.

(** [pytz.timedelta] raises. *)
Lemma pytz_has_no_timedelta w :
  getattr pytz "timedelta" w = (Raise (AttributeError "timedelta"), w).
Proof. reflexivity. Qed.

Section PointsRun.
Variable s : Settings.

Lemma can_user_generate_image_banned u w :
  is_banned u = true ->
  can_user_generate_image s u w = (Ok (false, u), w).
Proof. unfold can_user_generate_image. now intros ->. Qed.

Lemma can_user_generate_image_run u w :
  is_banned u = false ->
  can_user_generate_image s u w
  = (Ok (0 <? daily_points (_check_daily_reset s (next_instant w) u)
              + referral_points u,
         _check_daily_reset s (next_instant w) u),
     tick_clock w).
Proof.
  unfold can_user_generate_image. intros ->.
  unfold bind, ret. rewrite now_run.
  destruct (check_daily_reset_frame s (next_instant w) u)
    as (_ & _ & -> & _).
  reflexivity.
Qed.

(** The points card is always the empty dictionary; the user object
    keeps the reset of the first line. *)
Lemma get_user_points_info_run u w :
  get_user_points_info s u w
  = (Ok ([], _check_daily_reset s (next_instant w) u),
     tick_clock (tick_clock w)).
Proof. reflexivity. Qed.

End PointsRun.

(** ** C4: the daily refill boundary *)




(** ** C3: referral points are spent first *)

Section Consumption.
Variable s : Settings.

Lemma no_refill_check w u k :
  no_refill s w u ->
  let u' := _check_daily_reset s (clock w k) u in
  daily_points u' = daily_points u /\ no_refill s w u'.
Proof.
  intros [Heq | Hday]; cbv zeta.
  - unfold _check_daily_reset. destruct (_ <? _); cbn.
    + split; [auto | now left].
    + split; [auto | now left].
  - rewrite check_daily_reset_not_due by apply Hday.
    split; [auto | now right].
Qed.

(** One call in ["auto"] mode, spelled out. *)
Lemma use_point_for_image_auto u w :
  is_banned u = false ->
  no_refill s w u ->
  0 < daily_points u + referral_points u ->
  exists u' w',
    use_point_for_image s u (str "auto") w = (Ok (true, u'), w') /\
    is_banned u' = false /\ clock w' = clock w /\
    total_points_used u' = total_points_used u + 1 /\
    image_generated u' = image_generated u + 1 /\
    (if 0 <? referral_points u
     then referral_points u' = referral_points u - 1 /\
          daily_points u' = daily_points u /\ no_refill s w' u'
     else referral_points u' = referral_points u /\
          daily_points u' = daily_points u - 1).
Proof.
  intros Hnb Hstable Hpos.
  unfold use_point_for_image.
  rewrite (bind_ok _ _ _ (can_user_generate_image_run s u w Hnb)).
  set (u1 := _check_daily_reset s (next_instant w) u).
  destruct (@no_refill_check w u (clock_reads w) Hstable) as [Hd1 Hs1].
  fold (next_instant w) in Hd1, Hs1. fold u1 in Hd1, Hs1.
  destruct (check_daily_reset_frame s (next_instant w) u)
    as (_ & Hb1 & Hr1 & Ht1 & Hi1 & _). fold u1 in Hb1, Hr1, Ht1, Hi1.
  rewrite Hd1.
  assert (Hok : (0 <? daily_points u + referral_points u) = true)
    by (apply Z.ltb_lt; lia).
  rewrite Hok. cbn [negb].
  unfold bind at 1. rewrite now_run.
  set (t2 := next_instant (tick_clock w)).
  set (u2 := _check_daily_reset s t2 u1).
  destruct (@no_refill_check w u1 (S (clock_reads w)) Hs1) as [Hd2 Hs2].
  change (clock w (S (clock_reads w))) with t2 in Hd2, Hs2.
  fold u2 in Hd2, Hs2.
  destruct (check_daily_reset_frame s t2 u1)
    as (_ & Hb2 & Hr2 & Ht2 & Hi2 & _). fold u2 in Hb2, Hr2, Ht2, Hi2.
  assert (Hcan : can_generate_image s t2 u1 = (true, u2)).
  { unfold can_generate_image. rewrite Hb1, Hnb. fold u2.
    rewrite Hd2, Hd1, Hr2, Hr1, Hok. reflexivity. }
  rewrite Hr1. clearbody u2. clearbody u1.
  destruct (0 <? referral_points u) eqn:Href.
  - (* the referral balance is charged *)
    unfold use_point. rewrite Hcan. cbn [negb].
    replace (str_eqb (str "auto") (str "auto")) with true by reflexivity.
    replace (str_eqb (str "referral") (str "referral")) with true
      by reflexivity.
    rewrite Hr2, Hr1, Href. cbn [andb].
    eexists _, _. split; [reflexivity|].
    cbn. repeat split; try congruence; try lia.
    destruct Hs2 as [H | H]; [left | right]; auto.
  - (* the daily balance is charged *)
    apply Z.ltb_ge in Href.
    assert (Hdaily : (0 <? daily_points u) = true) by (apply Z.ltb_lt; lia).
    unfold use_point. rewrite Hcan. cbn [negb].
    replace (str_eqb (str "auto") (str "auto")) with true by reflexivity.
    replace (str_eqb (str "daily") (str "referral")) with false
      by reflexivity.
    cbn [andb]. rewrite Hd2, Hd1, Hdaily.
    eexists _, _. split; [reflexivity|].
    cbn. repeat split; try congruence; lia.
Qed.

End Consumption.




(** ** Slices and suffixes *)

Section Suffixes.
Context {A : Type}.
Implicit Types l : list A.

Lemma lastn_length n l : List.length (lastn n l) = Nat.min n (List.length l).
Proof. unfold lastn. rewrite length_skipn. lia. Qed.

Lemma lastn_all n l : (List.length l <= n)%nat -> lastn n l = l.
Proof.
  intros H. unfold lastn.
  replace (List.length l - n)%nat with 0%nat by lia. reflexivity.
Qed.

Lemma lastn_app_long n l l' :
  (n <= List.length l')%nat -> lastn n (l ++ l') = lastn n l'.
Proof.
  intros H. unfold lastn. rewrite length_app, skipn_app.
  rewrite skipn_all2 by lia. cbn.
  f_equal. lia.
Qed.

(** Cutting to the last [n] early does not change the last [n] later. *)
Lemma lastn_lastn_app n l l' :
  lastn n (lastn n l ++ l') = lastn n (l ++ l').
Proof.
  destruct (Nat.le_gt_cases (List.length l) n) as [H | H].
  - now rewrite (@lastn_all n l H).
  - unfold lastn at 1 3. rewrite !length_app, lastn_length.
    rewrite !skipn_app. unfold lastn. rewrite length_skipn, skipn_skipn.
    f_equal; f_equal; lia.
Qed.

(** A negative slice start takes a suffix. *)
Lemma slice_from_neg n l :
  (0 < n)%nat -> slice_from (- Z.of_nat n) l = lastn n l.
Proof.
  intros H. unfold slice_from, lastn, len.
  replace (- Z.of_nat n <? 0) with true by (symmetry; apply Z.ltb_lt; lia).
  f_equal. lia.
Qed.

End Suffixes.

(** ** C5: the retention cap of a conversation *)

Section Retention.
Variable s : Settings.

Lemma add_message_messages a c :
  messages (add_message s a c) = lastn 50 (messages c ++ [message_of s a]).
Proof.
  unfold add_message. cbn [messages].
  destruct (_ <? _)%nat eqn:E.
  - apply slice_from_neg. unfold MAX_MEMORY_MESSAGES. lia.
  - apply Nat.ltb_ge in E. symmetry. apply lastn_all. exact E.
Qed.

Lemma add_messages_messages l : forall c,
  l <> [] ->
  messages (add_messages s l c)
  = lastn 50 (messages c ++ map (message_of s) l).
Proof.
  induction l as [| a l IH]; intros c Hne; [congruence |].
  cbn [add_messages fold_left map].
  destruct l as [| b l].
  - cbn. apply add_message_messages.
  - change (fold_left (fun c a => add_message s a c) (b :: l)
              (add_message s a c))
      with (add_messages s (b :: l) (add_message s a c)).
    rewrite IH by discriminate.
    rewrite add_message_messages, lastn_lastn_app, <- app_assoc.
    reflexivity.
Qed.

End Retention.

(** *** The stored conversation *)

Lemma read_clock_run n : forall w,
  exists w', read_clock n w = (Ok tt, w') /\
             conversations_collection w' = conversations_collection w /\
             users_collection w' = users_collection w /\
             sent w' = sent w /\ clock w' = clock w /\
             network w' = network w /\
             network_calls w' = network_calls w /\
             pending_broadcast w' = pending_broadcast w /\
             stats w' = stats w.
Proof.
  induction n as [| n IH]; intros w.
  - exists w. cbn. auto 10.
  - cbn [read_clock]. unfold bind. rewrite now_run.
    destruct (IH (tick_clock w)) as (w' & -> & H). exists w'. split; auto.
Qed.

Lemma update_one_conversation_found uid c docs d :
  find (fun d => conv_user_id d =? uid) docs = Some d ->
  conv_user_id c = uid ->
  exists docs',
    update_one_conversation uid c docs = Some docs' /\
    find (fun d => conv_user_id d =? uid) docs' = Some c.
Proof.
  intros Hf Hc. induction docs as [| x docs IH]; [discriminate |].
  cbn in *. destruct (conv_user_id x =? uid) eqn:E.
  - eexists. split; [reflexivity |]. cbn. rewrite Hc, Z.eqb_refl. reflexivity.
  - destruct (IH Hf) as (docs' & -> & Hfind).
    eexists. split; [reflexivity |]. cbn. now rewrite E.
Qed.

Lemma update_one_conversation_missing uid c docs :
  find (fun d => conv_user_id d =? uid) docs = None ->
  update_one_conversation uid c docs = None.
Proof.
  induction docs as [| x docs IH]; [reflexivity |].
  cbn. destruct (conv_user_id x =? uid); [discriminate |].
  intros H. now rewrite IH.
Qed.

Lemma find_app_missing {A} (p : A -> bool) l x :
  find p l = None -> p x = true -> find p (l ++ [x]) = Some x.
Proof.
  induction l as [| y l IH]; cbn; intros Hf Hp.
  - now rewrite Hp.
  - destruct (p y); [discriminate | auto].
Qed.

Section StoredRetention.
Variable s : Settings.

Lemma get_conversation_run uid w :
  exists w',
    get_conversation uid w = (Ok (stored_conversation uid w), w') /\
    conversations_collection w' = conversations_collection w.
Proof.
  unfold get_conversation, stored_conversation, bind, get.
  destruct (find _ _) as [d |].
  - unfold conversation_from_dict, bind, ret.
    destruct (read_clock_run 2 w) as (w1 & -> & Hc1 & _).
    destruct (read_clock_run (List.length (messages d)) w1)
      as (w2 & -> & Hc2 & _).
    exists w2. split; [reflexivity | congruence].
  - exists w. split; reflexivity.
Qed.

Lemma get_or_create_conversation_run uid w :
  exists conv w',
    get_or_create_conversation s uid w = (Ok conv, w') /\
    stored_conversation uid w' = Some conv /\
    messages conv = stored_messages uid w.
Proof.
  unfold get_or_create_conversation, stored_messages.
  destruct (get_conversation_run uid w) as (w1 & Hrun & Hc1).
  rewrite (bind_ok _ _ _ Hrun).
  destruct (stored_conversation uid w) as [d |] eqn:Hfind.
  - exists d, w1. split; [reflexivity |]. split; [| reflexivity].
    unfold stored_conversation in *. now rewrite Hc1.
  - unfold create_conversation, bind, ret, modify. rewrite !now_run.
    eexists _, _. split; [reflexivity |]. split; [| reflexivity].
    unfold stored_conversation in *.
    cbn [conversations_collection tick_clock with_conversations].
    rewrite Hc1. apply find_app_missing; [exact Hfind |].
    cbn. apply Z.eqb_refl.
Qed.

(** [MemoryService.add_message] ends, and leaves for the user a stored
    conversation made of the last 50 of the old messages and the new. *)
Lemma memory_add_message_stored uid r c mt kw w :
  exists w' m,
    memory_add_message s uid r c mt kw w = (Ok tt, w') /\
    role m = r /\ content m = c /\ message_type m = mt /\
    stored_messages uid w' = lastn 50 (stored_messages uid w ++ [m]).
Proof.
  unfold memory_add_message.
  destruct (get_or_create_conversation_run uid w)
    as (conv & w1 & Hrun & Hstored & Hmsgs).
  rewrite (bind_ok _ _ _ Hrun).
  unfold bind, modify. rewrite !now_run.
  cbn [conversations_collection tick_clock].
  set (a := {| ap_role := r; ap_content := c; ap_type := mt;
               ap_kwargs := kw; ap_t1 := next_instant w1;
               ap_t2 := next_instant (tick_clock w1) |}).
  destruct (@update_one_conversation_found uid (add_message s a conv)
              _ conv Hstored) as (docs' & -> & Hfound).
  { cbn. unfold stored_conversation in Hstored.
    apply find_some in Hstored. now apply Z.eqb_eq. }
  exists (with_conversations docs' (tick_clock (tick_clock w1))),
         (message_of s a).
  split; [reflexivity |]. repeat split.
  unfold stored_messages at 1, stored_conversation.
  cbn [conversations_collection with_conversations]. rewrite Hfound.
  rewrite add_message_messages, Hmsgs. reflexivity.
Qed.

End StoredRetention.

(** C5: a conversation never holds more than 50 messages.  Appending a
    sequence of messages to a conversation within the cap (or a non-empty
    sequence to any conversation) leaves the last 50 of the old messages
    followed by the new ones, in their order; appending more than 50
    leaves exactly the 50 most recent of the appended messages.  The
    conversation [MemoryService.add_message] stores obeys the same cap. *)
Theorem conversation_retention_cap (s : Settings) :
  (forall c l,
     let c' := add_messages s l c in
     let appended := map (message_of s) l in
     ((List.length (messages c) <= 50)%nat \/ l <> [] ->
        messages c' = lastn 50 (messages c ++ appended) /\
        (List.length (messages c') <= 50)%nat) /\
     ((50 < List.length l)%nat ->
        messages c' = lastn 50 appended /\
        List.length (messages c') = 50%nat)) /\
  (forall uid r c mt kw w,
     exists w' m,
       memory_add_message s uid r c mt kw w = (Ok tt, w') /\
       role m = r /\ content m = c /\ message_type m = mt /\
       stored_messages uid w' = lastn 50 (stored_messages uid w ++ [m]) /\
       (List.length (stored_messages uid w') <= 50)%nat).
Proof.
  split.
  - intros c l. cbv zeta.
    assert (Hcap : (List.length (messages c) <= 50)%nat \/ l <> [] ->
                   messages (add_messages s l c)
                   = lastn 50 (messages c ++ map (message_of s) l)).
    { intros [Hlen | Hne].
      - destruct l as [| a l].
        + cbn. rewrite app_nil_r. symmetry. now apply lastn_all.
        + now apply add_messages_messages.
      - now apply add_messages_messages. }
    split.
    + intros H. rewrite (Hcap H). split; [reflexivity |].
      rewrite lastn_length. lia.
    + intros Hlong.
      assert (Hne : l <> []) by (destruct l; [cbn in Hlong; lia | discriminate]).
      rewrite (Hcap (or_intror Hne)).
      rewrite lastn_app_long by (rewrite length_map; lia).
      split; [reflexivity |].
      rewrite lastn_length, length_map. lia.
  - intros uid r c mt kw w.
    destruct (memory_add_message_stored s uid r c mt kw w)
      as (w' & m & Hrun & Hr & Hc & Hmt & Hst).
    exists w', m. repeat split; auto.
    rewrite Hst, lastn_length. lia.
Qed.

(** Fifty-one appends to a new conversation keep the last fifty. *)
Lemma conversation_retention_cap_witness :
  let s := default_settings 1 in
  let l := map (fun k => {| ap_role := str "user";
                            ap_content := str_of_Z (Z.of_nat k);
                            ap_type := str "text"; ap_kwargs := no_kwargs;
                            ap_t1 := noon; ap_t2 := noon |}) (seq 1 51) in
  let c' := add_messages s l (new_conversation s noon noon 7) in
  (messages c' = lastn 50 ([] ++ map (message_of s) l) /\
   (List.length (messages c') <= 50)%nat) /\
  (messages c' = lastn 50 (map (message_of s) l) /\
   List.length (messages c') = 50%nat).
Proof.
  cbv zeta.
  pose proof (proj1 (conversation_retention_cap (default_settings 1))
                (new_conversation (default_settings 1) noon noon 7)
                (map (fun k => {| ap_role := str "user";
                                  ap_content := str_of_Z (Z.of_nat k);
                                  ap_type := str "text";
                                  ap_kwargs := no_kwargs;
                                  ap_t1 := noon; ap_t2 := noon |})
                     (seq 1 51))) as H.
  cbv zeta in H. destruct H as [H1 H2]. split.
  - apply H1. left. cbn. lia.
  - apply H2. rewrite length_map, length_seq. lia.
Defined.

(** ** C10: the most recent messages *)

(** [l[-n:]] for a positive [n]. *)
Lemma slice_from_neg_Z {A} (n : Z) (l : list A) :
  0 < n ->
  slice_from (- n) l = lastn (Z.to_nat (Z.min n (len l))) l.
Proof.
  intros H. unfold slice_from, lastn, len.
  replace (- n <? 0) with true by (symmetry; apply Z.ltb_lt; lia).
  f_equal. lia.
Qed.

(** C10: [get_recent_messages(limit)] with [limit > 0] returns the last
    [min(limit, length)] messages, in order; with [limit = 0] or a
    negative [limit] it returns the whole list, not the empty one. *)
Theorem get_recent_messages_limit (c : Conversation) (limit : Z) :
  (0 < limit ->
     get_recent_messages limit c
     = lastn (Z.to_nat (Z.min limit (len (messages c)))) (messages c) /\
     len (get_recent_messages limit c) = Z.min limit (len (messages c))) /\
  (limit <= 0 -> get_recent_messages limit c = messages c).
Proof.
  unfold get_recent_messages. split.
  - intros H. replace (0 <? limit) with true by (symmetry; apply Z.ltb_lt; lia).
    rewrite slice_from_neg_Z by assumption. split; [reflexivity |].
    unfold len. rewrite lastn_length. unfold len. lia.
  - intros H. replace (0 <? limit) with false by (symmetry; apply Z.ltb_ge; lia).
    reflexivity.
Qed.

(** Three messages: a limit of 2 gives the last two, a limit of 0 or -1
    gives all three. *)
Lemma get_recent_messages_limit_witness :
  let c := add_messages (default_settings 1)
             (map (fun t => {| ap_role := str "user"; ap_content := t;
                               ap_type := str "text"; ap_kwargs := no_kwargs;
                               ap_t1 := noon; ap_t2 := noon |})
                  [str "a"; str "b"; str "c"])
             (new_conversation (default_settings 1) noon noon 7) in
  map content (get_recent_messages 2 c) = [str "b"; str "c"] /\
  len (get_recent_messages 2 c) = 2 /\
  get_recent_messages 0 c = messages c /\
  get_recent_messages (-1) c = messages c /\
  len (messages c) = 3.
Proof.
  cbv zeta.
  set (c := add_messages _ _ _).
  destruct (get_recent_messages_limit c 2) as [H2 _].
  destruct (get_recent_messages_limit c 0) as [_ H0].
  destruct (get_recent_messages_limit c (-1)) as [_ Hneg].
  destruct (H2 ltac:(lia)) as [H2a H2b].
  split; [rewrite H2a; reflexivity |].
  split; [rewrite H2b; reflexivity |].
  split; [apply H0; lia |].
  split; [apply Hneg; lia | reflexivity].
Defined.

(** ** C9: splitting a long message *)

Lemma lstrip_length c t : (List.length (lstrip c t) <= List.length t)%nat.
Proof.
  induction t as [| x t IH]; cbn; [lia |].
  destruct (Ascii.eqb x c); cbn; lia.
Qed.

Lemma lstrip_head c x t :
  x = c -> (List.length (lstrip c (x :: t)) <= List.length t)%nat.
Proof.
  intros ->. cbn. rewrite Ascii.eqb_refl. apply lstrip_length.
Qed.

(** [last_index] finds an occurrence, and the last one. *)
Lemma last_index_some c t i :
  last_index c t = Some i ->
  (i < List.length t)%nat /\ nth_error t i = Some c /\
  Forall (fun x => x <> c) (skipn (S i) t).
Proof.
  revert i. induction t as [| x t IH]; intros i; cbn; [discriminate |].
  destruct (last_index c t) as [j |] eqn:E.
  - intros [= <-]. destruct (IH j eq_refl) as (Hlt & Hnth & Hall).
    repeat split; [lia | exact Hnth | exact Hall].
  - destruct (Ascii.eqb x c) eqn:Ex; [| discriminate].
    intros [= <-]. apply Ascii.eqb_eq in Ex. subst x.
    repeat split; [lia |].
    clear IH. induction t as [| y t IHt]; cbn; [constructor |].
    cbn in E. destruct (last_index c t); [discriminate |].
    destruct (Ascii.eqb y c) eqn:Ey; [discriminate |].
    constructor; [now apply Ascii.eqb_neq | now apply IHt].
Qed.

Lemma last_index_none c t :
  last_index c t = None -> Forall (fun x => x <> c) t.
Proof.
  induction t as [| x t IH]; cbn; [constructor |].
  destruct (last_index c t); [discriminate |].
  destruct (Ascii.eqb x c) eqn:Ex; [discriminate |].
  constructor; [now apply Ascii.eqb_neq | now apply IH].
Qed.

Section Splitter.
Variable max_length : nat.
Hypothesis max_positive : (0 < max_length)%nat.

Lemma split_pos_le text : (split_pos max_length text <= max_length)%nat.
Proof.
  unfold split_pos.
  destruct (last_index _ _) as [i |] eqn:E; [| lia].
  apply last_index_some in E. rewrite length_firstn in E. lia.
Qed.

(** The position [rfind] computes, as a natural number. *)
Lemma rfind_split_pos text :
  (if rfind newline max_length text =? -1 then Z.of_nat max_length
   else rfind newline max_length text)
  = Z.of_nat (split_pos max_length text).
Proof.
  unfold rfind, split_pos.
  destruct (last_index _ _) as [i |]; [| reflexivity].
  replace (Z.of_nat i =? -1) with false by (symmetry; apply Z.eqb_neq; lia).
  reflexivity.
Qed.

Lemma slice_from_nat {A} (i : nat) (l : list A) :
  slice_from (Z.of_nat i) l = skipn i l.
Proof.
  unfold slice_from, len.
  replace (Z.of_nat i <? 0) with false by (symmetry; apply Z.ltb_ge; lia).
  destruct (Nat.le_gt_cases i (List.length l)) as [H | H].
  - f_equal. lia.
  - rewrite Z.min_r by lia. rewrite Nat2Z.id.
    rewrite !skipn_all2; auto; lia.
Qed.

(** One turn of the loop, in terms of [split_pos] and [remainder]. *)
Lemma split_loop_step fuel text chunks :
  (max_length < List.length text)%nat ->
  split_loop max_length (S fuel) text chunks
  = split_loop max_length fuel (remainder max_length text)
      (chunks ++ [firstn (split_pos max_length text) text]).
Proof.
  intros Hlong. cbn [split_loop].
  replace (max_length <? List.length text)%nat with true
    by (symmetry; now apply Nat.ltb_lt).
  rewrite rfind_split_pos, Nat2Z.id, slice_from_nat. reflexivity.
Qed.

Lemma split_loop_stop fuel text chunks :
  (List.length text <= max_length)%nat ->
  split_loop max_length fuel text chunks
  = Some (match text with [] => chunks | _ => chunks ++ [text] end).
Proof.
  intros Hshort.
  destruct fuel; cbn [split_loop];
    replace (max_length <? List.length text)%nat with false
      by (symmetry; now apply Nat.ltb_ge); reflexivity.
Qed.

(** Every turn shortens the text. *)
Lemma remainder_shorter text :
  (max_length < List.length text)%nat ->
  (List.length (remainder max_length text) < List.length text)%nat.
Proof.
  intros Hlong. unfold remainder, split_pos.
  destruct (last_index _ _) as [i |] eqn:E.
  - apply last_index_some in E. destruct E as (Hi & Hnth & _).
    destruct i as [| i].
    + destruct text as [| x text]; [cbn in Hlong; lia |].
      destruct max_length; [lia |]. cbn in Hnth. injection Hnth as ->.
      cbn [skipn]. pose proof (@lstrip_head newline newline text eq_refl).
      cbn [List.length]. lia.
    + pose proof (lstrip_length newline (skipn (S i) text)) as H.
      rewrite length_skipn in H. lia.
  - pose proof (lstrip_length newline (skipn max_length text)) as H.
    rewrite length_skipn in H. lia.
Qed.

(** With fuel beyond the length of the text the loop ends, and every
    chunk it adds fits. *)
Lemma split_loop_total fuel : forall text chunks,
  (List.length text < fuel)%nat ->
  Forall (fits max_length) chunks ->
  exists res,
    split_loop max_length fuel text chunks = Some res /\
    Forall (fits max_length) res.
Proof.
  induction fuel as [| fuel IH]; intros text chunks Hfuel Hfits; [lia |].
  destruct (Nat.le_gt_cases (List.length text) max_length) as [Hs | Hl].
  - rewrite split_loop_stop by assumption. eexists. split; [reflexivity |].
    destruct text; [assumption |].
    apply Forall_app. split; [assumption |].
    constructor; [exact Hs | constructor].
  - rewrite split_loop_step by assumption.
    apply IH.
    + pose proof (remainder_shorter text Hl). lia.
    + apply Forall_app. split; [assumption |].
      constructor; [| constructor].
      unfold fits. rewrite length_firstn.
      pose proof (split_pos_le text). lia.
Qed.




End Splitter.




Lemma split_message_total text :
  exists chunks,
    _split_message text = Some chunks /\ Forall (fits 4096) chunks.
Proof.
  unfold _split_message, MAX_MESSAGE_LENGTH.
  apply split_loop_total; [lia | lia | constructor].
Qed.



(** The 9000-character message of the specification ends up in three
    chunks, the remainder (4904 characters) being too long for one. *)
Example split_9000 :
  option_map (map (@List.length ascii)) (_split_message (repeat "a"%char (9 * 1000)))
  = Some [4096; 4096; 808]%nat.
Proof. vm_compute. reflexivity. Qed.


(** ** C6: rejected referral redemptions *)

Lemma user_from_dict_run d w :
  exists w',
    user_from_dict d w = (Ok d, w') /\
    users_collection w' = users_collection w /\
    conversations_collection w' = conversations_collection w /\
    sent w' = sent w /\ clock w' = clock w /\ network w' = network w /\
    network_calls w' = network_calls w /\
    pending_broadcast w' = pending_broadcast w /\ stats w' = stats w.
Proof.
  unfold user_from_dict, bind, ret.
  destruct (read_clock_run 3 w) as (w' & -> & H). exists w'.
  split; [reflexivity |]. intuition congruence.
Qed.

Lemma get_user_run uid w :
  exists w',
    get_user uid w = (Ok (stored_user uid w), w') /\
    users_collection w' = users_collection w /\
    sent w' = sent w /\ network w' = network w /\
    network_calls w' = network_calls w.
Proof.
  unfold get_user, stored_user, bind, get.
  destruct (find _ _) as [d |].
  - destruct (user_from_dict_run d w) as (w' & -> & H). exists w'.
    split; [reflexivity |]. intuition congruence.
  - exists w. repeat split.
Qed.

Lemma get_user_by_referral_code_run code w :
  exists w',
    get_user_by_referral_code code w = (Ok (user_with_code code w), w') /\
    users_collection w' = users_collection w /\
    sent w' = sent w /\ network w' = network w /\
    network_calls w' = network_calls w.
Proof.
  unfold get_user_by_referral_code, user_with_code, bind, get.
  destruct (find _ _) as [d |].
  - destruct (user_from_dict_run d w) as (w' & -> & H). exists w'.
    split; [reflexivity |]. intuition congruence.
  - exists w. repeat split.
Qed.

Section Referral.
Variable s : Settings.

(** A redemption always ends with an answer, and a refusal leaves the
    users collection as it was. *)
Lemma process_referral_refusal new_user_id code w :
  exists b msg w',
    process_referral s new_user_id code w = (Ok (b, msg), w') /\
    (b = false -> users_collection w' = users_collection w) /\
    (b = true <->
     exists referrer nu,
       user_with_code code w = Some referrer /\
       user_id referrer <> new_user_id /\
       stored_user new_user_id w = Some nu /\
       truthy (referred_by nu) = false).
Proof.
  unfold process_referral.
  destruct (get_user_by_referral_code_run code w) as (w1 & Hrun1 & Hu1 & _).
  rewrite (bind_ok _ _ _ Hrun1).
  destruct (user_with_code code w) as [referrer |] eqn:Hcode.
  2:{ eexists _, _, _. split; [reflexivity |]. split; [auto |].
      split; [discriminate | intros (? & ? & ? & _); discriminate]. }
  destruct (user_id referrer =? new_user_id) eqn:Hself.
  { eexists _, _, _. split; [reflexivity |]. split; [auto |].
    split; [discriminate |].
    intros (r & nu & [= <-] & Hne & _). apply Z.eqb_eq in Hself. lia. }
  destruct (get_user_run new_user_id w1) as (w2 & Hrun2 & Hu2 & _).
  rewrite (bind_ok _ _ _ Hrun2).
  assert (Hst : stored_user new_user_id w1 = stored_user new_user_id w)
    by (unfold stored_user; now rewrite Hu1).
  rewrite Hst.
  destruct (stored_user new_user_id w) as [nu |] eqn:Hnu.
  2:{ eexists _, _, _. split; [reflexivity |]. split; [congruence |].
      split; [discriminate | intros (? & ? & _ & _ & ? & _); discriminate]. }
  destruct (truthy (referred_by nu)) eqn:Hset.
  { eexists _, _, _. split; [reflexivity |]. split; [congruence |].
    split; [discriminate |].
    intros (? & ? & _ & _ & [= <-] & ?). congruence. }
  eexists _, _, _. split; [reflexivity |]. split; [discriminate |].
  split; [| reflexivity]. intros _.
  exists referrer, nu. apply Z.eqb_neq in Hself. auto.
Qed.

End Referral.

(** C6: redeeming one's own code, or redeeming any code when
    [referred_by] is already set, fails and leaves every stored user --
    balances, [referral_count], [referred_by] -- as it was. *)
Theorem referral_rejections (s : Settings) (new_user_id : Z) (code : pystr)
    (w : World) :
  (forall owner,
     user_with_code code w = Some owner -> user_id owner = new_user_id ->
     exists msg w',
       process_referral s new_user_id code w = (Ok (false, msg), w') /\
       users_collection w' = users_collection w) /\
  (forall nu referrer_id,
     stored_user new_user_id w = Some nu ->
     referred_by nu = Some referrer_id -> referrer_id <> 0 ->
     exists msg w',
       process_referral s new_user_id code w = (Ok (false, msg), w') /\
       users_collection w' = users_collection w).
Proof.
  destruct (process_referral_refusal s new_user_id code w)
    as (b & msg & w' & Hrun & Hkeep & Hsucc).
  split.
  - intros owner Hcode Hself.
    destruct b.
    + destruct (proj1 Hsucc eq_refl) as (r & nu & Hr & Hne & _).
      congruence.
    + exists msg, w'. auto.
  - intros nu r Hnu Href Hr.
    destruct b.
    + destruct (proj1 Hsucc eq_refl) as (r' & nu' & _ & _ & Hnu' & Hfalsy).
      rewrite Hnu in Hnu'. injection Hnu' as <-.
      rewrite Href in Hfalsy. cbn in Hfalsy.
      apply negb_false_iff, Z.eqb_eq in Hfalsy. contradiction.
    + exists msg, w'. auto.
Qed.

(** User 7 redeeming their own code, and user 8, referred by 7 before,
    redeeming it a second time. *)
Lemma referral_rejections_witness :
  let s := default_settings 1 in
  let u7 := sample_user 7 3 0 this_morning in
  let u8 := set_referred_by (Some 7) (sample_user 8 3 3 this_morning) in
  let w := sample_world [u7; u8] in
  (exists msg w',
     process_referral s 7 (str "CODE7") w = (Ok (false, msg), w') /\
     users_collection w' = users_collection w) /\
  (exists msg w',
     process_referral s 8 (str "CODE7") w = (Ok (false, msg), w') /\
     users_collection w' = users_collection w).
Proof.
  cbv zeta. split.
  - apply (proj1 (referral_rejections (default_settings 1) 7 (str "CODE7")
                    (sample_world
                       [sample_user 7 3 0 this_morning;
                        set_referred_by (Some 7)
                          (sample_user 8 3 3 this_morning)]))
             (sample_user 7 3 0 this_morning)).
    + vm_compute. reflexivity.
    + reflexivity.
  - apply (proj2 (referral_rejections (default_settings 1) 8 (str "CODE7")
                    (sample_world
                       [sample_user 7 3 0 this_morning;
                        set_referred_by (Some 7)
                          (sample_user 8 3 3 this_morning)]))
             (set_referred_by (Some 7) (sample_user 8 3 3 this_morning)) 7).
    + vm_compute. reflexivity.
    + reflexivity.
    + lia.
Defined.

(** ** C2: the points card *)

Section PointsCard.
Variable s : Settings.

Lemma until_midnight_bounds dt :
  0 < until_midnight dt <= day_us.
Proof.
  unfold until_midnight.
  pose proof (Z.mod_pos_bound (wall_clock dt) day_us eq_refl). lia.
Qed.

(** What the card would hold if [timedelta] were found: every entry the
    specification lists, the delay being the one to the next local
    midnight. *)
Lemma get_user_points_info_if_timedelta lib u w :
  existsb (String.eqb "timedelta") lib = true ->
  is_banned u = false ->
  exists d u' w',
    get_user_points_info_with s lib u w = (Ok (d, u'), w') /\
    let u0 := _check_daily_reset s (next_instant w) u in
    let delta :=
      until_midnight (datetime_now (TIMEZONE s)
                        (next_instant (tick_clock w))) in
    dict_get "daily_points" d = Some (VInt (daily_points u0)) /\
    dict_get "referral_points" d = Some (VInt (referral_points u0)) /\
    dict_get "total_points" d
    = Some (VInt (daily_points u0 + referral_points u0)) /\
    dict_get "total_points_used" d = Some (VInt (total_points_used u0)) /\
    dict_get "images_generated" d = Some (VInt (image_generated u0)) /\
    (exists can, dict_get "can_generate" d = Some (VBool can)) /\
    dict_get "time_until_reset" d
    = Some (VDict [ ("hours", VInt (reset_hours delta));
                    ("minutes", VInt (reset_minutes delta));
                    ("text", VStr (reset_text delta)) ]%string).
Proof.
  intros Hlib Hnb.
  unfold get_user_points_info_with.
  unfold bind at 1. rewrite now_run.
  set (u0 := _check_daily_reset s (next_instant w) u).
  assert (Hnb0 : is_banned u0 = false).
  { destruct (check_daily_reset_frame s (next_instant w) u)
      as (_ & Hb & _). unfold u0. congruence. }
  unfold try_except, bind. rewrite now_run.
  unfold getattr. rewrite Hlib. unfold ret at 1.
  rewrite (can_user_generate_image_run s u0 _ Hnb0).
  eexists _, _, _. split; [reflexivity |].
  cbv zeta. cbn [dict_get String.eqb Ascii.eqb Bool.eqb].
  repeat split. eexists. reflexivity.
Qed.

End PointsCard.

(** C2 does not hold: [get_user_points_info] evaluates [pytz.timedelta],
    a name the [pytz] package does not have; the [AttributeError] is
    caught by the function's own handler, which returns the empty
    dictionary -- for every user, banned or not, at every instant. *)
Theorem points_card_is_empty (s : Settings) (u : User) (w : World) :
  exists u' w', get_user_points_info s u w = (Ok ([], u'), w').
Proof.
  rewrite get_user_points_info_run. eauto.
Qed.

(** The sibling helper, which uses [timedelta] from [datetime], does give
    the delay until the next local midnight. *)
Lemma time_until_midnight_wib_run s w :
  exists d,
    time_until_midnight_wib s w = (Ok d, tick_clock w) /\
    let delta := until_midnight (datetime_now (TIMEZONE s) (next_instant w)) in
    dict_get "hours" d = Some (VInt (reset_hours delta)) /\
    dict_get "minutes" d = Some (VInt (reset_minutes delta)) /\
    dict_get "text" d = Some (VStr (reset_text delta)) /\
    0 <= reset_hours delta <= 24 /\ 0 <= reset_minutes delta < 60.
Proof.
  unfold time_until_midnight_wib, bind, ret. rewrite now_run.
  eexists. split; [reflexivity |]. cbv zeta.
  cbn [dict_get String.eqb Ascii.eqb Bool.eqb].
  repeat split; try reflexivity.
  - apply Z.div_pos; [| reflexivity].
    pose proof (until_midnight_bounds
                  (datetime_now (TIMEZONE s) (next_instant w))). lia.
  - unfold reset_hours.
    pose proof (until_midnight_bounds
                  (datetime_now (TIMEZONE s) (next_instant w))) as H.
    apply Z.div_le_upper_bound; [reflexivity |].
    change (hour_us * 24) with day_us. lia.
  - unfold reset_minutes. apply Z.div_pos; [| reflexivity].
    apply Z.mod_pos_bound. reflexivity.
  - unfold reset_minutes. apply Z.div_lt_upper_bound; [reflexivity |].
    change (minute_us * 60) with hour_us. apply Z.mod_pos_bound. reflexivity.
Qed.

(** At noon WIB the helper says twelve hours. *)
Example time_until_midnight_at_noon :
  fst (time_until_midnight_wib (default_settings 1) (sample_world []))
  = Ok [ ("hours", VInt 12); ("minutes", VInt 0); ("seconds", VInt 0);
         ("total_seconds", VInt 43200); ("text", VStr (str "12h 0m")) ]%string.
Proof. reflexivity. Qed.

(** ** C1: the refund of [/image] *)

Lemma update_one_found uid u docs d :
  find (fun d => user_id d =? uid) docs = Some d ->
  user_id u = uid ->
  find (fun d => user_id d =? uid) (update_one uid (fun _ => u) docs)
  = Some u.
Proof.
  intros Hf Hu. induction docs as [| x docs IH]; [discriminate |].
  cbn in *. destruct (user_id x =? uid) eqn:E.
  - cbn. now rewrite Hu, Z.eqb_refl.
  - cbn. rewrite E. auto.
Qed.

Lemma read_clock_same_io n w :
  exists w', read_clock n w = (Ok tt, w') /\
             same_io w w' /\ same_data w w'.
Proof.
  destruct (read_clock_run n w) as (w' & H & ? & ? & ? & ? & ? & ? & ? & ?).
  exists w'. unfold same_io, same_data. auto 10.
Qed.

Lemma get_user_frame uid w :
  exists w',
    get_user uid w = (Ok (stored_user uid w), w') /\
    same_io w w' /\ same_data w w'.
Proof.
  unfold get_user, stored_user, bind, get.
  destruct (find _ _) as [d |].
  - unfold user_from_dict, bind, ret.
    destruct (read_clock_same_io 3 w) as (w' & -> & H). exists w'. auto.
  - exists w. repeat split.
Qed.

Lemma client_send_ok chat text w :
  network w (network_calls w) = true ->
  client_send chat text w
  = (Ok tt, with_sent (sent w ++ [(chat, text)]) (tick_network w)).
Proof. unfold client_send. now intros ->. Qed.

Section ImageRequest.
Variable s : Settings.

(** A sender already stored: the activity is recorded, the account is
    as it was. *)
Lemma get_or_create_user_found fuel uid fname uname w d :
  stored_user uid w = Some d ->
  exists u w',
    get_or_create_user s fuel uid fname uname w = (Ok u, w') /\
    same_account d u /\ stored_user uid w' = Some u /\
    same_io w w' /\
    conversations_collection w' = conversations_collection w /\
    stats w' = stats w.
Proof.
  intros Hst. unfold get_or_create_user.
  destruct (get_user_frame uid w)
    as (w1 & Hrun & (Hc & Hn & Hnc & Hs) & (Hu & Hcv & _ & Hstats)).
  rewrite (bind_ok _ _ _ Hrun), Hst.
  unfold bind, update_user, modify, ret. rewrite now_run.
  assert (Hid : user_id d = uid).
  { unfold stored_user in Hst. apply find_some in Hst.
    now apply Z.eqb_eq. }
  eexists _, _. split; [reflexivity |].
  split; [repeat split |].
  split.
  - unfold stored_user in *.
    cbn [users_collection with_users tick_clock]. rewrite Hu.
    change (user_id (update_activity s (next_instant w1) d))
      with (user_id d).
    rewrite Hid. now apply update_one_found with (d := d).
  - unfold same_io. cbn. auto 10.
Qed.

Lemma use_point_user_id t pt u :
  user_id (snd (use_point s t pt u)) = user_id u.
Proof.
  unfold use_point, can_generate_image.
  destruct (check_daily_reset_frame s t u) as (Hid & _).
  destruct (is_banned u); cbn; [reflexivity |].
  destruct (0 <? _); cbn; [| exact Hid].
  destruct (_ && _); cbn; [exact Hid |].
  destruct (0 <? _); cbn; exact Hid.
Qed.

(** What a charge does to the world: on success the user object is
    written back, nothing else changes. *)
Lemma use_point_for_image_world u pt w :
  exists b u' w',
    use_point_for_image s u pt w = (Ok (b, u'), w') /\
    user_id u' = user_id u /\ same_io w w' /\
    conversations_collection w' = conversations_collection w /\
    stats w' = stats w /\
    (b = true ->
     users_collection w'
     = update_one (user_id u) (fun _ => u') (users_collection w)).
Proof.
  unfold use_point_for_image, can_user_generate_image.
  destruct (is_banned u) eqn:Hb.
  - unfold bind, ret. cbn. eexists _, _, _. split; [reflexivity |].
    repeat split. discriminate.
  - unfold bind, ret. rewrite now_run.
    destruct (check_daily_reset_frame s (next_instant w) u) as (Hid & _).
    destruct (0 <? _); cbn [negb].
    + rewrite now_run.
      set (pt' := if str_eqb pt (str "auto") then _ else _).
      pose proof (use_point_user_id (next_instant (tick_clock w)) pt'
                    (_check_daily_reset s (next_instant w) u)) as Hid2.
      destruct (use_point s _ pt' _) as [ok u2]. cbn [snd] in Hid2.
      destruct ok.
      * unfold update_user, modify. eexists _, _, _.
        split; [reflexivity |].
        split; [congruence |]. split; [repeat split |].
        split; [reflexivity |]. split; [reflexivity |].
        intros _. cbn. now rewrite Hid2, Hid.
      * eexists _, _, _. split; [reflexivity |].
        split; [congruence |]. repeat split. discriminate.
    + eexists _, _, _. split; [reflexivity |].
      repeat split; auto. discriminate.
Qed.

(** Recording a message leaves the users alone. *)
Lemma memory_add_message_users uid r c mt kw w :
  exists w',
    memory_add_message s uid r c mt kw w = (Ok tt, w') /\
    users_collection w' = users_collection w /\
    sent w' = sent w /\ stats w' = stats w.
Proof.
  unfold memory_add_message, get_or_create_conversation, get_conversation.
  unfold bind at 1. unfold bind at 1. unfold bind at 1. unfold get.
  destruct (find _ _) as [d |].
  - unfold conversation_from_dict, bind, ret.
    destruct (read_clock_same_io 2 w) as (w1 & -> & Hio1 & Hd1).
    destruct (read_clock_same_io (List.length (messages d)) w1)
      as (w2 & -> & Hio2 & Hd2).
    rewrite !now_run. unfold modify.
    eexists. split; [reflexivity |].
    destruct Hio1 as (_ & _ & _ & Hs1), Hio2 as (_ & _ & _ & Hs2).
    destruct Hd1 as (Hu1 & _ & _ & Hst1), Hd2 as (Hu2 & _ & _ & Hst2).
    destruct (update_one_conversation _ _ _); cbn; repeat split; congruence.
  - unfold create_conversation, bind, ret, modify. rewrite !now_run.
    eexists. split; [reflexivity |].
    destruct (update_one_conversation _ _ _); cbn; repeat split.
Qed.

End ImageRequest.

Lemma no_refill_transfer s w w' u u' :
  no_refill s w u -> clock w' = clock w ->
  daily_points u' = daily_points u -> last_reset u' = last_reset u ->
  no_refill s w' u'.
Proof.
  unfold no_refill, reset_day. intros [H | H] Hc Hd Hl.
  - left. congruence.
  - right. intros k. rewrite Hc, Hl. apply H.
Qed.

(** The balances after a [/image] request that passes both checks, the
    network working: the two counters are restored; the point comes back
    to [daily_points], whichever balance it was taken from. *)
Lemma image_refund_balances (bot : Bot) (fuel : nat)
    (message : TgMessage) (w : World) (d : User) :
  stored_user (from_user_id message) w = Some d ->
  is_banned d = false ->
  no_refill (settings bot) w d ->
  0 < daily_points d + referral_points d ->
  (2 <= List.length (command message))%nat ->
  (5 <= List.length (join (str " ") (tl (command message))))%nat ->
  (forall k, network w k = true) ->
  exists u' w',
    handle_image_generation bot fuel message w = (Ok tt, w') /\
    stored_user (from_user_id message) w' = Some u' /\
    total_points_used u' = total_points_used d /\
    image_generated u' = image_generated d /\
    (if 0 <? referral_points d
     then daily_points u' = daily_points d + 1 /\
          referral_points u' = referral_points d - 1
     else daily_points u' = daily_points d /\
          referral_points u' = referral_points d).
Proof.
  intros Hst Hnb Hstable Hpos Hcmd Hprompt Hnet.
  set (s := settings bot). set (uid := from_user_id message).
  unfold handle_image_generation. fold s.
  (* the sender is loaded *)
  destruct (@get_or_create_user_found s fuel uid (from_first_name message)
              (from_username message) w d Hst)
    as (u0 & w0 & Hrun0 & Hacc0 & Hst0 & Hio0 & _).
  destruct Hacc0 as (Hid0 & Hb0 & Hd0 & Hr0 & Ht0 & Hi0 & Hl0).
  destruct Hio0 as (Hc0 & Hn0 & Hnc0 & Hs0).
  assert (Hstable0 : no_refill s w0 u0)
    by (eapply no_refill_transfer; eassumption).
  (* the eligibility check *)
  assert (Hnb0 : is_banned u0 = false) by congruence.
  pose proof (can_user_generate_image_run s u0 w0 Hnb0) as Hrun1.
  destruct (@no_refill_check s w0 u0 (clock_reads w0) Hstable0)
    as [Hd1 Hstable1].
  fold (next_instant w0) in Hd1, Hstable1.
  destruct (check_daily_reset_frame s (next_instant w0) u0)
    as (Hid1 & Hb1 & Hr1 & Ht1 & Hi1 & _).
  set (u1 := _check_daily_reset s (next_instant w0) u0) in *.
  rewrite Hd1 in Hrun1.
  replace (0 <? daily_points u0 + referral_points u0) with true in Hrun1
    by (symmetry; apply Z.ltb_lt; lia).
  (* the charge *)
  destruct (@use_point_for_image_auto s u1 (tick_clock w0))
    as (u2 & w2 & Hrun2 & Hnb2 & Hc2 & Ht2 & Hi2 & Hbal2);
    [congruence | exact Hstable1 | lia |].
  destruct (use_point_for_image_world s u1 (str "auto") (tick_clock w0))
    as (b & u2' & w2' & Hrun2' & Hid2 & Hio2 & _ & _ & Hdb2).
  rewrite Hrun2 in Hrun2'. injection Hrun2' as <- <- <-.
  specialize (Hdb2 eq_refl).
  destruct Hio2 as (_ & Hn2 & Hnc2 & Hs2).
  (* the two messages of the stub go out *)
  set (chat := chat_id message).
  set (prompt := join (str " ") (tl (command message))) in *.
  set (processing := str "🎨 **Sedang membuat gambar...**" ++ nl ++ nl ++
                     str "Prompt: " ++ prompt ++ nl ++ nl ++
                     str "⏳ Mohon tunggu sebentar...").
  set (w3 := with_sent (sent w2 ++ [(chat, processing)]) (tick_network w2)).
  assert (Hsend3 : client_send chat processing w2 = (Ok tt, w3)).
  { apply client_send_ok. rewrite Hn2. cbn. rewrite Hn0. apply Hnet. }
  set (w4 := with_sent (sent w3 ++ [(chat, image_stub_text)])
               (tick_network w3)).
  assert (Hsend4 : client_send chat image_stub_text w3 = (Ok tt, w4)).
  { apply client_send_ok. cbn. rewrite Hn2. cbn. rewrite Hn0. apply Hnet. }
  (* the refund is written back *)
  set (u3 := refund_point u2).
  set (w5 := with_users (update_one (user_id u3) (fun _ => u3)
                           (users_collection w4)) w4).
  set (w6 := snd (update_stats (str "images") w5)).
  destruct (memory_add_message_users s (user_id u3) (str "user")
              (str "Meminta gambar: " ++ prompt) (str "image") no_kwargs w6)
    as (w7 & Hrun7 & Hu7 & _).
  exists u3, w7. split.
  { apply try_except_ok.
    rewrite (bind_ok _ _ _ Hrun0), (bind_ok _ _ _ Hrun1). cbn [negb].
    replace (List.length (command message) <? 2)%nat with false
      by (symmetry; apply Nat.ltb_ge; lia).
    fold prompt.
    replace (List.length prompt <? 5)%nat with false
      by (symmetry; apply Nat.ltb_ge; lia).
    rewrite (bind_ok _ _ _ Hrun2). cbn [negb].
    fold chat. fold processing.
    rewrite (bind_ok _ _ _ Hsend3).
    assert (Hrefund :
      try_except
        (_ <- client_send chat image_stub_text ;;
         let user := refund_point u2 in
         _ <- update_user user ;; ret user)
        (fun _ =>
         _ <- client_send chat
                (str "❌ Terjadi kesalahan saat membuat gambar. Poin Anda telah dikembalikan.") ;;
         let user := refund_point u2 in
         _ <- update_user user ;; ret user) w3
      = (Ok u3, w5)).
    { apply try_except_ok. rewrite (bind_ok _ _ _ Hsend4). reflexivity. }
    rewrite (bind_ok _ _ _ Hrefund).
    unfold bind at 1.
    change (update_stats (str "images") w5) with (Ok tt, w6).
    exact Hrun7. }
  (* the stored user *)
  assert (Hid : user_id d = uid).
  { unfold stored_user in Hst. apply find_some in Hst.
    now apply Z.eqb_eq. }
  assert (Hid3 : user_id u3 = uid) by (cbn; congruence).
  split.
  { unfold stored_user in *. rewrite Hu7.
    change (users_collection w6) with (users_collection w5).
    cbn [w5 users_collection with_users].
    rewrite Hid3.
    apply update_one_found with (d := u2); [| exact Hid3].
    change (users_collection w4) with (users_collection w2).
    rewrite Hdb2. cbn [users_collection tick_clock].
    replace (user_id u1) with uid by congruence.
    apply update_one_found with (d := u0); [exact Hst0 | congruence]. }
  split; [cbn; lia |]. split; [cbn; lia |].
  rewrite Hr1, Hr0 in Hbal2.
  destruct (0 <? referral_points d); cbn; intuition lia.
Qed.

(** C1 does not hold when the point charged was a referral point.  For
    every stored, non-banned sender with a referral point, whose request
    passes the eligibility and prompt-length checks (no daily refill
    falling in between, every message delivered): the handler ends,
    [total_points_used] and [image_generated] are back at their values,
    but [daily_points] is one more than before and [referral_points] one
    less -- the refund is always credited to the daily balance. *)
Theorem image_refund_credits_daily_balance (bot : Bot) (fuel : nat)
    (message : TgMessage) (w : World) (d : User) :
  stored_user (from_user_id message) w = Some d ->
  is_banned d = false ->
  0 < referral_points d ->
  0 < daily_points d + referral_points d ->
  no_refill (settings bot) w d ->
  (2 <= List.length (command message))%nat ->
  (5 <= List.length (join (str " ") (tl (command message))))%nat ->
  (forall k, network w k = true) ->
  exists u' w',
    handle_image_generation bot fuel message w = (Ok tt, w') /\
    stored_user (from_user_id message) w' = Some u' /\
    total_points_used u' = total_points_used d /\
    image_generated u' = image_generated d /\
    daily_points u' = daily_points d + 1 /\
    referral_points u' = referral_points d - 1.
Proof.
  intros Hst Hnb Href Hpos Hstable Hcmd Hprompt Hnet.
  destruct (@image_refund_balances bot fuel message w d
              Hst Hnb Hstable Hpos Hcmd Hprompt Hnet)
    as (u' & w' & Hrun & Hst' & Ht & Hi & Hbal).
  apply Z.ltb_lt in Href. rewrite Href in Hbal.
  exists u', w'. tauto.
Qed.

(** A user with 3 daily and 2 referral points, last reset this morning,
    sends [/image kucing lucu] at noon: stored afterwards with 4 daily
    points and 1 referral point. *)
Lemma image_refund_credits_daily_balance_witness :
  let before := sample_user 7 3 2 this_morning in
  balances before = (3, 2, 0, 0) /\
  exists u' w',
    handle_image_generation (main_bot 1) 1 (image_request 7)
      (sample_world [before]) = (Ok tt, w') /\
    stored_user 7 w' = Some u' /\
    balances u' = (4, 1, 0, 0).
Proof.
  cbv zeta. split; [reflexivity |].
  destruct (@image_refund_credits_daily_balance (main_bot 1) 1
              (image_request 7)
              (sample_world [sample_user 7 3 2 this_morning])
              (sample_user 7 3 2 this_morning))
    as (u' & w' & Hrun & Hst & Ht & Hi & Hd & Hr).
  - reflexivity.
  - reflexivity.
  - reflexivity.
  - reflexivity.
  - left. reflexivity.
  - cbn. lia.
  - cbn. lia.
  - reflexivity.
  - exists u', w'. split; [exact Hrun |]. split; [exact Hst |].
    unfold balances. rewrite Ht, Hi, Hd, Hr. reflexivity.
Defined.

(** The same request, evaluated: the stub reply is sent, and the stored
    balances are those. *)
Example image_request_evaluated :
  let r := handle_image_generation (main_bot 1) 1 (image_request 7)
             (sample_world [sample_user 7 3 2 this_morning]) in
  fst r = Ok tt /\
  In (7, image_stub_text) (sent (snd r)) /\
  option_map balances (stored_user 7 (snd r)) = Some (4, 1, 0, 0).
Proof.
  cbv zeta. split; [vm_compute; reflexivity |].
  split; vm_compute; auto.
Qed.

(** When the point charged was a daily point the four values are
    restored. *)
Example image_refund_daily_point :
  let before := sample_user 7 3 0 this_morning in
  let r := handle_image_generation (main_bot 1) 1 (image_request 7)
             (sample_world [before]) in
  fst r = Ok tt /\
  balances before = (3, 0, 0, 0) /\
  option_map balances (stored_user 7 (snd r)) = Some (3, 0, 0, 0).
Proof. cbv zeta. repeat split; vm_compute; reflexivity. Qed.

(** ** C8: the admin gate *)

Lemma client_send_run chat text w :
  (network w (network_calls w) = true /\
   client_send chat text w
   = (Ok tt, with_sent (sent w ++ [(chat, text)]) (tick_network w))) \/
  (network w (network_calls w) = false /\
   client_send chat text w = (Raise RPCError, tick_network w)).
Proof.
  unfold client_send. destruct (network w (network_calls w)); auto.
Qed.

Lemma same_data_refl w : same_data w w.
Proof. repeat split. Qed.

Lemma same_data_trans w1 w2 w3 :
  same_data w1 w2 -> same_data w2 w3 -> same_data w1 w3.
Proof. unfold same_data. intuition congruence. Qed.

Lemma client_send_same_data chat text w :
  same_data w (snd (client_send chat text w)) /\
  fst (client_send chat text w) <> Diverge.
Proof.
  destruct (client_send_run chat text w) as [[_ ->] | [_ ->]];
    split; try discriminate; repeat split.
Qed.

Lemma send_each_same_data chat msgs : forall w,
  same_data w (snd (send_each chat msgs w)) /\
  fst (send_each chat msgs w) <> Diverge.
Proof.
  induction msgs as [| m msgs IH]; intros w; cbn [send_each].
  - split; [apply same_data_refl | discriminate].
  - unfold bind.
    destruct (client_send_run chat m w) as [[_ ->] | [_ ->]].
    + destruct (IH (with_sent (sent w ++ [(chat, m)]) (tick_network w)))
        as [Hs Hd].
      split; [| exact Hd].
      eapply same_data_trans; [| exact Hs]. repeat split.
    + split; [repeat split | discriminate].
Qed.

(** [send_message_safe] always returns, and only sends. *)
Lemma send_message_safe_run chat text w :
  exists w',
    send_message_safe chat text w = (Ok tt, w') /\ same_data w w'.
Proof.
  unfold send_message_safe, try_except.
  destruct (_ <? _)%nat.
  - destruct (split_message_total text) as (msgs & -> & _).
    pose proof (send_each_same_data chat msgs w) as [Hs Hd].
    destruct (send_each chat msgs w) as [[[] | e |] w']; cbn in *.
    + eauto.
    + unfold ret. eauto.
    + congruence.
  - pose proof (client_send_same_data chat text w) as [Hs Hd].
    destruct (client_send chat text w) as [[[] | e |] w']; cbn in *.
    + eauto.
    + unfold ret. eauto.
    + congruence.
Qed.

(** A short text is sent as it is when the network works. *)
Lemma send_message_safe_short chat text w :
  (List.length text <= MAX_MESSAGE_LENGTH)%nat ->
  network w (network_calls w) = true ->
  send_message_safe chat text w
  = (Ok tt, with_sent (sent w ++ [(chat, text)]) (tick_network w)).
Proof.
  intros Hlen Hnet. unfold send_message_safe, try_except.
  replace (MAX_MESSAGE_LENGTH <? List.length text)%nat with false
    by (symmetry; now apply Nat.ltb_ge).
  destruct (client_send_run chat text w) as [[_ ->] | [H _]];
    [reflexivity | congruence].
Qed.

Section AdminGate.
Variable bot : Bot.

(** The check the handlers make is the owner / clone-admin test. *)
Lemma handlers_is_admin_spec uid :
  handlers_is_admin bot uid = true <-> owner_or_clone_admin bot uid.
Proof.
  unfold handlers_is_admin, is_admin, is_owner, owner_or_clone_admin.
  destruct (uid =? OWNER_ID (settings bot)) eqn:Ho.
  - apply Z.eqb_eq in Ho. cbn. tauto.
  - apply Z.eqb_neq in Ho. rewrite orb_false_r.
    destruct (is_clone bot); cbn.
    + destruct (clone_admin_id bot) as [a |].
      * destruct (uid =? a) eqn:Ha.
        -- apply Z.eqb_eq in Ha. subst. intuition.
        -- apply Z.eqb_neq in Ha. split; [discriminate |].
           intros [? | [_ [= ->]]]; congruence.
      * split; [discriminate |]. intros [? | [_ ?]]; congruence.
    + split; [discriminate |]. intros [? | [? _]]; congruence.
Qed.

Lemma handlers_is_admin_false uid :
  ~ owner_or_clone_admin bot uid -> handlers_is_admin bot uid = false.
Proof.
  intros H. destruct (handlers_is_admin bot uid) eqn:E; [| reflexivity].
  apply handlers_is_admin_spec in E. contradiction.
Qed.

Lemma try_send_message_safe chat text h w :
  try_except (send_message_safe chat text) h w
  = send_message_safe chat text w.
Proof.
  destruct (send_message_safe_run chat text w) as (w' & H & _).
  unfold try_except at 1. now rewrite H.
Qed.

(** A caller who fails the check gets the refusal, nothing else. *)
Lemma gated_handlers_refuse message w :
  handlers_is_admin bot (from_user_id message) = false ->
  handle_ban_user bot message w
  = send_message_safe (chat_id message) access_denied w /\
  handle_unban_user bot message w
  = send_message_safe (chat_id message) access_denied w /\
  handle_broadcast bot message w
  = send_message_safe (chat_id message) access_denied w.
Proof.
  intros H.
  unfold handle_ban_user, handle_unban_user, handle_broadcast.
  rewrite H. cbn [negb]. rewrite !try_send_message_safe. auto.
Qed.

End AdminGate.

(** C8 does not hold for the third kind of admin: a caller whose stored
    [is_admin] flag is true, but who is neither the owner nor the clone's
    designated admin, passes the check of the specification and is
    refused by the handlers all the same -- [/ban], [/unban] and
    [/broadcast] answer with the access-denied text and change nothing
    else. *)
Theorem stored_admin_flag_is_ignored (bot : Bot) (message : TgMessage)
    (w : World) (u : User) :
  stored_user (from_user_id message) w = Some u ->
  is_admin_flag u = true ->
  ~ owner_or_clone_admin bot (from_user_id message) ->
  network w (network_calls w) = true ->
  spec_admin_check bot w (from_user_id message) /\
  forall handler,
    In handler [handle_ban_user bot; handle_unban_user bot;
                handle_broadcast bot] ->
    exists w',
      handler message w = (Ok tt, w') /\
      sent w' = sent w ++ [(chat_id message, access_denied)] /\
      same_data w w'.
Proof.
  intros Hstored Hflag Hnot Hnet.
  split; [right; eauto |].
  intros handler Hin.
  destruct (@gated_handlers_refuse bot message w
              (@handlers_is_admin_false bot _ Hnot)) as (Hban & Hunban & Hbc).
  assert (Hsend : send_message_safe (chat_id message) access_denied w
                  = (Ok tt, with_sent (sent w ++ [(chat_id message,
                                                    access_denied)])
                              (tick_network w))).
  { apply send_message_safe_short; [| exact Hnet].
    apply Nat.leb_le. vm_compute. reflexivity. }
  assert (Hres : handler message w
                 = (Ok tt, with_sent (sent w ++ [(chat_id message,
                                                   access_denied)])
                             (tick_network w))).
  { cbn in Hin. destruct Hin as [<- | [<- | [<- | []]]]; congruence. }
  rewrite Hres. eexists. split; [reflexivity |]. repeat split.
Qed.

(** User 42, made admin by the owner, asks to ban user 7 and is refused;
    user 7 stays as stored. *)
Lemma stored_admin_flag_is_ignored_witness :
  let promoted := set_is_admin_flag true (sample_user 42 3 0 this_morning) in
  let w := sample_world [promoted; sample_user 7 3 0 this_morning] in
  let message := admin_request 42 [str "ban"; str "7"] in
  spec_admin_check (main_bot 1) w 42 /\
  exists w',
    handle_ban_user (main_bot 1) message w = (Ok tt, w') /\
    sent w' = [(42, access_denied)] /\
    option_map is_banned (stored_user 7 w') = Some false.
Proof.
  cbv zeta.
  destruct (@stored_admin_flag_is_ignored (main_bot 1)
              (admin_request 42 [str "ban"; str "7"])
              (sample_world
                 [set_is_admin_flag true (sample_user 42 3 0 this_morning);
                  sample_user 7 3 0 this_morning])
              (set_is_admin_flag true (sample_user 42 3 0 this_morning)))
    as [Hspec Hall].
  - vm_compute. reflexivity.
  - reflexivity.
  - intros [H | [H _]]; discriminate.
  - reflexivity.
  - split; [exact Hspec |].
    destruct (Hall (handle_ban_user (main_bot 1)) (or_introl eq_refl))
      as (w' & Hrun & Hsent & Hdata).
    exists w'. split; [exact Hrun |]. split; [exact Hsent |].
    destruct Hdata as (Husers & _).
    unfold stored_user. rewrite Husers. vm_compute. reflexivity.
Defined.

(** The same request from the owner is carried out. *)
Example owner_bans_user :
  let w := sample_world [sample_user 7 3 0 this_morning] in
  let r := handle_ban_user (main_bot 1) (admin_request 1 [str "ban"; str "7"])
             w in
  fst r = Ok tt /\
  option_map is_banned (stored_user 7 (snd r)) = Some true.
Proof. cbv zeta. split; vm_compute; reflexivity. Qed.

(** ** C7: the counts of a broadcast *)

(** Cutting a list into consecutive batches loses nothing. *)
Lemma batches_cover {A} (b : nat) (l : list A) : forall m,
  (0 < b)%nat -> (List.length l <= m * b)%nat ->
  List.concat (map (fun k => firstn b (skipn (k * b) l)) (seq 0 m)) = l.
Proof.
  intros m Hb. revert l.
  induction m as [| m IH]; intros l Hlen.
  - destruct l; [reflexivity | cbn in Hlen; lia].
  - rewrite <- cons_seq. cbn [map List.concat]. rewrite <- seq_shift, map_map.
    change (skipn (0 * b) l) with l.
    rewrite (map_ext _ (fun k => firstn b (skipn (k * b) (skipn b l)))).
    + rewrite IH; [apply firstn_skipn |].
      rewrite length_skipn. lia.
    + intros k. rewrite skipn_skipn. do 2 f_equal. lia.
Qed.

Lemma batches_of_cover ids : List.concat (batches_of ids) = ids.
Proof.
  unfold batches_of, range_step. rewrite map_map.
  apply batches_cover; [lia |].
  pose proof (Nat.div_mod_eq (List.length ids + (30 - 1)) 30).
  pose proof (Nat.mod_upper_bound (List.length ids + (30 - 1)) 30).
  lia.
Qed.

Lemma count_results_sum results : forall acc,
  fst (count_results results acc) + snd (count_results results acc)
  = fst acc + snd acc + len results.
Proof.
  unfold count_results, len.
  induction results as [| r results IH]; intros [ok ko]; cbn [fold_left].
  - cbn. lia.
  - rewrite IH. cbn [List.length]. destruct r; cbn [fst snd]; lia.
Qed.

Lemma count_results_mono results : forall acc,
  fst acc <= fst (count_results results acc) /\
  snd acc <= snd (count_results results acc).
Proof.
  unfold count_results.
  induction results as [| r results IH]; intros [ok ko]; cbn [fold_left].
  - cbn. lia.
  - destruct r.
    + destruct (IH (ok + 1, ko)) as [H1 H2]. cbn [fst snd] in *. lia.
    + destruct (IH (ok, ko + 1)) as [H1 H2]. cbn [fst snd] in *. lia.
Qed.

Section Broadcast.

Lemma send_broadcast_message_run uid text w :
  exists r w',
    _send_broadcast_message uid text w = (Ok r, w') /\ same_data w w'.
Proof.
  unfold _send_broadcast_message, try_except, bind.
  destruct (client_send_run uid
              (str "📢 **Broadcast dari Admin**" ++ nl ++ nl ++ text) w)
    as [[_ ->] | [_ ->]]; eexists _, _; split; try reflexivity;
    repeat split.
Qed.

Lemma gather_sends_run uids text : forall w,
  exists results w',
    gather_sends uids text w = (Ok results, w') /\
    List.length results = List.length uids /\ same_data w w'.
Proof.
  induction uids as [| u uids IH]; intros w; cbn [gather_sends].
  - exists [], w. repeat split.
  - destruct (send_broadcast_message_run u text w) as (r & w1 & Hr & Hs1).
    rewrite (bind_ok _ _ _ Hr).
    destruct (IH w1) as (rs & w2 & Hrs & Hlen & Hs2).
    rewrite (bind_ok _ _ _ Hrs).
    exists (r :: rs), w2. split; [reflexivity |].
    split; [cbn; lia | eapply same_data_trans; eassumption].
Qed.

Lemma broadcast_batches_run user_ids admin_id text starts : forall acc w,
  exists ok ko w',
    broadcast_batches starts user_ids admin_id text acc w
    = (Ok (ok, ko), w') /\
    ok + ko
    = fst acc + snd acc
      + len (filter (fun u => negb (u =? admin_id))
               (List.concat (map (fun i => firstn 30 (skipn i user_ids))
                            starts))) /\
    fst acc <= ok /\ snd acc <= ko /\
    same_data w w'.
Proof.
  induction starts as [| i starts IH]; intros acc w;
    cbn [broadcast_batches].
  - destruct acc as [ok ko]. exists ok, ko, w.
    split; [reflexivity |]. cbn.
    repeat split; lia.
  - destruct (gather_sends_run
                (filter (fun u => negb (u =? admin_id))
                   (firstn 30 (skipn i user_ids))) text w)
      as (results & w1 & Hrun & Hlen & Hs1).
    rewrite (bind_ok _ _ _ Hrun).
    destruct (IH (count_results results acc) w1)
      as (ok & ko & w2 & Hrest & Hsum & Hok & Hko & Hs2).
    destruct (count_results_mono results acc) as [Hm1 Hm2].
    exists ok, ko, w2. split; [exact Hrest |].
    split; [| split; [lia | split; [lia |]];
              eapply same_data_trans; eassumption].
    rewrite Hsum, count_results_sum.
    cbn [map List.concat]. rewrite filter_app. unfold len.
    rewrite length_app, Hlen. lia.
Qed.

(** What [execute_broadcast] reports: [success + failed] counts the
    recipients, [total] counts the whole audience, initiator included. *)
Lemma execute_broadcast_counts text admin_id w :
  exists r w',
    execute_broadcast text admin_id w = (Ok r, w') /\
    success r + failed r = len (recipients admin_id w) /\
    total r = len (audience w) /\
    0 <= success r /\ 0 <= failed r /\
    same_data w w'.
Proof.
  unfold execute_broadcast.
  assert (Hids : get_users_for_broadcast true w = (Ok (audience w), w))
    by reflexivity.
  unfold try_except. rewrite (bind_ok _ _ _ Hids).
  unfold recipients.
  destruct (audience w) as [| i ids] eqn:Ha.
  - eexists _, _. split; [reflexivity |]. cbn.
    repeat split; lia.
  - destruct (broadcast_batches_run (i :: ids) admin_id text
                (range_step (List.length (i :: ids)) 30) (0, 0) w)
      as (ok & ko & w' & Hrun & Hsum & Hok & Hko & Hs).
    rewrite (bind_ok _ _ _ Hrun).
    eexists _, _. split; [reflexivity |]. cbn [success failed total].
    fold (batches_of (i :: ids)) in Hsum.
    rewrite batches_of_cover in Hsum. cbn [fst snd] in *.
    destruct Hs as (? & ? & ? & ?). repeat split; try lia; assumption.
Qed.

End Broadcast.

Lemma filter_out_shorter (x : Z) (l : list Z) :
  In x l ->
  (List.length (filter (fun u => negb (u =? x)%Z) l) < List.length l)%nat.
Proof.
  induction l as [| y l IH]; [contradiction |].
  cbn [filter List.length]. intros [-> | Hin].
  - rewrite Z.eqb_refl. cbn [negb].
    pose proof (filter_length_le (fun u => negb (u =? x)) l). lia.
  - specialize (IH Hin).
    destruct (negb (y =? x)); cbn [List.length]; lia.
Qed.

(** C7 does not hold when the initiating admin is a stored, non-banned
    user (as is anyone who has talked to the bot): [total] is the number
    of non-banned users, initiator included, whereas only the others are
    sent to, so that [success + failed] equals the number N of eligible
    recipients and stays below [total]. *)
Theorem broadcast_total_counts_initiator (text : pystr) (admin_id : Z)
    (w : World) :
  In admin_id (audience w) ->
  exists r w',
    execute_broadcast text admin_id w = (Ok r, w') /\
    success r + failed r = len (recipients admin_id w) /\
    total r = len (audience w) /\
    success r + failed r < total r.
Proof.
  intros Hin.
  destruct (execute_broadcast_counts text admin_id w)
    as (r & w' & Hrun & Hsum & Htot & _).
  exists r, w'. repeat split; auto.
  rewrite Hsum, Htot. unfold recipients, len.
  apply Nat2Z.inj_lt. now apply filter_out_shorter.
Qed.

(** The owner (user 1) broadcasts to users 2 and 3; the message to user 2
    does not get through.  Two recipients, one success, one failure -- and
    a total of three. *)
Lemma broadcast_total_counts_initiator_witness :
  let w := world_with_network [sample_user 1 3 0 this_morning;
                               sample_user 2 3 0 this_morning;
                               sample_user 3 3 0 this_morning]
             (fun k => negb (k =? 0)%nat) in
  len (recipients 1 w) = 2 /\
  exists r w',
    execute_broadcast (str "Halo") 1 w = (Ok r, w') /\
    success r + failed r = len (recipients 1 w) /\
    total r = len (audience w) /\
    success r + failed r < total r.
Proof.
  cbv zeta. split; [reflexivity |].
  apply (@broadcast_total_counts_initiator (str "Halo") 1
           (world_with_network [sample_user 1 3 0 this_morning;
                                sample_user 2 3 0 this_morning;
                                sample_user 3 3 0 this_morning]
              (fun k => negb (k =? 0)%nat))).
  vm_compute. auto.
Defined.

(** That broadcast, evaluated. *)
Example broadcast_evaluated :
  fst (execute_broadcast (str "Halo") 1
         (world_with_network [sample_user 1 3 0 this_morning;
                              sample_user 2 3 0 this_morning;
                              sample_user 3 3 0 this_morning]
            (fun k => negb (k =? 0)%nat)))
  = Ok {| success := 1; failed := 1; total := 3 |}.
Proof. vm_compute. reflexivity. Qed.

(** The confirmation of that broadcast, as the owner sees it: one of two
    deliveries failed, and the card says 1 of 3, 33.3%. *)
Example confirm_broadcast_report :
  let users := [sample_user 1 3 0 this_morning;
                sample_user 2 3 0 this_morning;
                sample_user 3 3 0 this_morning] in
  let w := {| users_collection := users; conversations_collection := [];
              stats := {| total_users := 3; total_messages := 0;
                          total_images := 0 |};
              pending_broadcast := Some (str "Halo", 1); sent := [];
              clock := fun _ => noon; clock_reads := 0;
              network := fun k => negb (k =? 1)%nat; network_calls := 0;
              codes := fun _ => str "AAAAAAAA"; codes_drawn := 0 |} in
  let r := handle_confirm_broadcast (main_bot 1)
             {| cq_from_user_id := 1; cq_chat_id := 1 |} w in
  fst r = Ok (Some {| success := 1; failed := 1; total := 3 |}) /\
  len (recipients 1 w) = 2 /\
  format_rate (success_rate_tenths {| success := 1; failed := 1; total := 3 |})
  = str "33.3" /\
  last (sent (snd r)) (0, [])
  = (1, broadcast_result_text {| success := 1; failed := 1; total := 3 |}).
Proof. cbv zeta. repeat split; vm_compute; reflexivity. Qed.

Lemma filter_out_absent (x : Z) (l : list Z) :
  ~ In x l -> filter (fun u => negb (u =? x)) l = l.
Proof.
  induction l as [| y l IH]; [reflexivity |]. intros Hout.
  cbn [filter]. destruct (y =? x) eqn:E.
  - apply Z.eqb_eq in E. subst. exfalso. apply Hout. now left.
  - cbn [negb]. f_equal. apply IH. intros H. apply Hout. now right.
Qed.

(** When the initiator is not in the audience the three counts agree. *)
Lemma broadcast_counts_without_initiator text admin_id w :
  ~ In admin_id (audience w) ->
  exists r w',
    execute_broadcast text admin_id w = (Ok r, w') /\
    success r + failed r = total r /\
    total r = len (recipients admin_id w).
Proof.
  intros Hout.
  destruct (execute_broadcast_counts text admin_id w)
    as (r & w' & Hrun & Hsum & Htot & _).
  exists r, w'. split; [exact Hrun |].
  assert (Hsame : recipients admin_id w = audience w)
    by now apply filter_out_absent.
  rewrite Hsum, Htot, Hsame. auto.
Qed.

(* ================================================================== *)
(** * Further properties *)
(* ================================================================== *)

Lemma str_eqb_eq (a b : pystr) : str_eqb a b = true <-> a = b.
Proof.
  revert b. induction a as [| x a IH]; intros [| y b]; cbn;
    try (split; [discriminate | discriminate]); [tauto |].
  rewrite andb_true_iff, Ascii.eqb_eq, IH. split.
  - intros [-> ->]. reflexivity.
  - intros [= -> ->]. auto.
Qed.

Lemma str_eqb_refl (a : pystr) : str_eqb a a = true.
Proof. now apply str_eqb_eq. Qed.

(** ** Spending a point *)

(** X1: [use_point] on non-negative balances (the allotment being
    non-negative too).  The balances stay non-negative; the call succeeds
    exactly when the user is not banned and either a referral point was
    asked for and there is one, or there is a daily point after the reset
    -- so the default type ["daily"] fails for a user who only has
    referral points; a success takes exactly one point and adds one to
    both counters. *)
Theorem use_point_outcome (s : Settings) (t : Z) (pt : pystr) (u : User) :
  0 <= DAILY_POINTS s -> 0 <= daily_points u -> 0 <= referral_points u ->
  let u0 := _check_daily_reset s t u in
  let ok := fst (use_point s t pt u) in
  let u' := snd (use_point s t pt u) in
  0 <= daily_points u' /\ 0 <= referral_points u' /\
  (ok = true <->
   is_banned u = false /\
   ((pt = str "referral" /\ 0 < referral_points u) \/ 0 < daily_points u0)) /\
  (ok = true ->
   daily_points u' + referral_points u'
   = daily_points u0 + referral_points u - 1 /\
   total_points_used u' = total_points_used u + 1 /\
   image_generated u' = image_generated u + 1) /\
  (ok = false ->
   daily_points u' + referral_points u'
   = (if is_banned u then daily_points u else daily_points u0)
     + referral_points u /\
   total_points_used u' = total_points_used u /\
   image_generated u' = image_generated u).
Proof.
  intros Hallot Hd Hr. cbv zeta.
  unfold use_point, can_generate_image.
  destruct (check_daily_reset_frame s t u)
    as (_ & Hb0 & Hr0 & Ht0 & Hi0 & Hd0).
  set (u0 := _check_daily_reset s t u) in *. clearbody u0.
  assert (Hd0' : 0 <= daily_points u0) by (destruct Hd0; lia).
  destruct (is_banned u) eqn:Hb.
  { cbn. intuition (try lia; try discriminate). }
  destruct (0 <? daily_points u0 + referral_points u0) eqn:Hsum; cbn [negb].
  2:{ apply Z.ltb_ge in Hsum. cbn. intuition (try lia; try discriminate). }
  apply Z.ltb_lt in Hsum.
  destruct (str_eqb pt (str "referral")) eqn:Hpt.
  - apply str_eqb_eq in Hpt. subst pt.
    destruct (0 <? referral_points u0) eqn:Href; cbn [andb].
    + apply Z.ltb_lt in Href. cbn.
      intuition (try lia; try discriminate).
    + apply Z.ltb_ge in Href.
      destruct (0 <? daily_points u0) eqn:Hdaily.
      * apply Z.ltb_lt in Hdaily. cbn.
        intuition (try lia; try discriminate).
      * apply Z.ltb_ge in Hdaily. lia.
  - cbn [andb].
    assert (Hne : pt <> str "referral").
    { intros ->. rewrite str_eqb_refl in Hpt. discriminate. }
    destruct (0 <? daily_points u0) eqn:Hdaily.
    + apply Z.ltb_lt in Hdaily. cbn.
      intuition (try lia; try discriminate).
    + apply Z.ltb_ge in Hdaily. cbn.
      intuition (try lia; try discriminate).
Qed.

(** A user with two referral points and no daily point: asking for a
    daily point fails, asking for a referral point succeeds. *)
Lemma use_point_outcome_witness :
  let s := default_settings 1 in
  let u := sample_user 7 0 2 this_morning in
  fst (use_point s noon (str "daily") u) = false /\
  fst (use_point s noon (str "referral") u) = true /\
  0 <= daily_points (snd (use_point s noon (str "referral") u)) /\
  referral_points (snd (use_point s noon (str "referral") u)) = 1.
Proof.
  cbv zeta.
  pose proof (@use_point_outcome (default_settings 1) noon (str "referral")
                (sample_user 7 0 2 this_morning)
                ltac:(cbn; lia) ltac:(cbn; lia) ltac:(cbn; lia)) as H.
  cbv zeta in H. destruct H as (Hd & _ & _ & _ & _).
  split; [reflexivity |]. split; [reflexivity |].
  split; [exact Hd | reflexivity].
Defined.

(** X2: a banned user is refused whatever the balances: the two
    eligibility checks and the two charging functions answer [False],
    the user object, the stored users, and even the clock are left
    untouched. *)
Theorem banned_user_is_refused (s : Settings) (t : Z) (pt : pystr)
    (u : User) (w : World) :
  is_banned u = true ->
  can_generate_image s t u = (false, u) /\
  use_point s t pt u = (false, u) /\
  can_user_generate_image s u w = (Ok (false, u), w) /\
  use_point_for_image s u pt w = (Ok (false, u), w).
Proof.
  intros Hb.
  assert (H1 : can_generate_image s t u = (false, u))
    by (unfold can_generate_image; now rewrite Hb).
  assert (H3 : can_user_generate_image s u w = (Ok (false, u), w))
    by (now apply can_user_generate_image_banned).
  repeat split; auto.
  - unfold use_point. now rewrite H1.
  - unfold use_point_for_image. now rewrite (bind_ok _ _ _ H3).
Qed.

Lemma banned_user_is_refused_witness :
  let u := set_is_banned true (sample_user 7 3 5 this_morning) in
  use_point_for_image (default_settings 1) u (str "auto") (sample_world [u])
  = (Ok (false, u), sample_world [u]).
Proof.
  cbv zeta.
  apply (@banned_user_is_refused (default_settings 1) noon (str "auto")
           (set_is_banned true (sample_user 7 3 5 this_morning))
           (sample_world
              [set_is_banned true (sample_user 7 3 5 this_morning)])).
  reflexivity.
Defined.

(** ** The history handed to the AI client *)

Lemma flat_map_length_le {A B} (f : A -> list B) (l : list A) :
  (forall x, (List.length (f x) <= 1)%nat) ->
  (List.length (flat_map f l) <= List.length l)%nat.
Proof.
  intros Hf. induction l as [| x l IH]; cbn; [lia |].
  rewrite length_app. specialize (Hf x). lia.
Qed.

(** X3: [get_gemini_format(limit)] hands over only the text messages
    among the most recent ones, in their order, each with the role
    ["user"] or ["model"]; with a positive [limit] it never has more than
    [limit] entries. *)
Theorem gemini_format_entries (c : Conversation) (limit : Z) :
  map g_text (get_gemini_format limit c)
  = map content
      (filter (fun m => str_eqb (message_type m) (str "text"))
              (get_recent_messages limit c)) /\
  Forall (fun g => g_role g = str "user" \/ g_role g = str "model")
         (get_gemini_format limit c) /\
  (0 < limit -> len (get_gemini_format limit c) <= limit).
Proof.
  unfold get_gemini_format. split; [| split].
  - induction (get_recent_messages limit c) as [| m l IH]; [reflexivity |].
    cbn [flat_map filter].
    destruct (str_eqb (message_type m) (str "text")).
    + rewrite map_app, IH. reflexivity.
    + exact IH.
  - induction (get_recent_messages limit c) as [| m l IH]; [constructor |].
    cbn [flat_map].
    destruct (str_eqb (message_type m) (str "text")); cbn; [| exact IH].
    constructor; [| exact IH]. cbn [g_role].
    destruct (str_eqb (role m) _); [left | right]; reflexivity.
  - intros Hpos.
    assert (Hlen : len (get_recent_messages limit c) <= limit).
    { unfold get_recent_messages.
      replace (0 <? limit) with true by (symmetry; apply Z.ltb_lt; lia).
      rewrite slice_from_neg_Z by assumption.
      unfold len. rewrite lastn_length. lia. }
    pose proof (@flat_map_length_le _ _
      (fun msg =>
         if str_eqb (message_type msg) (str "text")
         then [ {| g_role := if str_eqb (role msg) (str "user")
                             then str "user" else str "model";
                   g_text := content msg |} ]
         else []) (get_recent_messages limit c)) as Hle.
    unfold len in *.
    assert (Hone : forall x : Message,
               (List.length
                  (if str_eqb (message_type x) (str "text")
                   then [ {| g_role := if str_eqb (role x) (str "user")
                                       then str "user" else str "model";
                             g_text := content x |} ]
                   else []) <= 1)%nat).
    { intros x. destruct (str_eqb _ _); cbn; lia. }
    specialize (Hle Hone). lia.
Qed.

(** A text message, an image request and an answer: with a limit of 2
    only the answer is handed over. *)
Lemma gemini_format_entries_witness :
  let c := add_messages (default_settings 1)
             (map (fun '(r, t, ty) =>
                     {| ap_role := r; ap_content := t; ap_type := ty;
                        ap_kwargs := no_kwargs; ap_t1 := noon;
                        ap_t2 := noon |})
                  [ (str "user", str "halo", str "text");
                    (str "user", str "Meminta gambar: kucing", str "image");
                    (str "assistant", str "Halo juga", str "text") ])
             (new_conversation (default_settings 1) noon noon 7) in
  len (get_gemini_format 2 c) <= 2 /\
  get_gemini_format 2 c
  = [ {| g_role := str "model"; g_text := str "Halo juga" |} ].
Proof.
  cbv zeta. split; [| reflexivity].
  match goal with
  | |- len (get_gemini_format 2 ?c) <= 2 =>
      apply (proj2 (proj2 (gemini_format_entries c 2)))
  end.
  lia.
Defined.

(** ** Statistics of a conversation *)

Lemma count_if_from {A} (p : A -> bool) (l : list A) : forall n,
  fold_left (fun n x => if p x then n + 1 else n) l n
  = n + count_if p l.
Proof.
  unfold count_if. induction l as [| x l IH]; intros n; cbn [fold_left].
  - lia.
  - rewrite IH, (IH (if p x then 0 + 1 else 0)).
    destruct (p x); lia.
Qed.

Lemma count_if_cons {A} (p : A -> bool) x (l : list A) :
  count_if p (x :: l) = (if p x then 1 else 0) + count_if p l.
Proof.
  unfold count_if at 1. cbn [fold_left]. rewrite count_if_from.
  destruct (p x); lia.
Qed.

(** Two conditions that exclude each other count at most every element. *)
Lemma count_if_disjoint {A} (p q : A -> bool) (l : list A) :
  (forall x, p x = true -> q x = false) ->
  0 <= count_if p l /\ 0 <= count_if q l /\
  count_if p l + count_if q l <= len l.
Proof.
  intros Hpq. induction l as [| x l IH].
  - cbn. lia.
  - rewrite !count_if_cons. unfold len in *. cbn [List.length].
    specialize (Hpq x). destruct (p x), (q x); try lia.
    all: try discriminate (Hpq eq_refl).
Qed.

(** X4: in the statistics of a conversation the user's and the
    assistant's messages together, and likewise the image and the audio
    messages together, never exceed the total; they add up to the total
    when every message comes from one of the two roles; and a cleared
    conversation counts nothing. *)
Theorem conversation_stats_consistent (s : Settings) (c : Conversation)
    (t : Z) :
  let st := get_stats c in
  user_messages st + assistant_messages st <= total_messages_count st /\
  image_messages st + audio_messages st <= total_messages_count st /\
  (Forall (fun m => role m = str "user" \/ role m = str "assistant")
          (messages c) ->
   user_messages st + assistant_messages st = total_messages_count st) /\
  get_stats (clear_memory s t c)
  = {| total_messages_count := 0; user_messages := 0;
       assistant_messages := 0; image_messages := 0; audio_messages := 0 |}.
Proof.
  cbv zeta. unfold get_stats. cbn [total_messages_count user_messages
    assistant_messages image_messages audio_messages].
  split; [| split; [| split]].
  - apply count_if_disjoint. intros m H. apply str_eqb_eq in H.
    rewrite H. reflexivity.
  - apply count_if_disjoint. intros m H. apply str_eqb_eq in H.
    rewrite H. reflexivity.
  - intros Hall. induction Hall as [| m l Hm _ IH]; [reflexivity |].
    rewrite !count_if_cons. unfold len in *. cbn [List.length].
    rewrite Nat2Z.inj_succ.
    destruct Hm as [-> | ->].
    + replace (str_eqb (str "user") (str "user")) with true by reflexivity.
      replace (str_eqb (str "user") (str "assistant")) with false
        by reflexivity.
      lia.
    + replace (str_eqb (str "assistant") (str "user")) with false
        by reflexivity.
      replace (str_eqb (str "assistant") (str "assistant")) with true
        by reflexivity.
      lia.
  - reflexivity.
Qed.

Lemma conversation_stats_consistent_witness :
  let c := add_messages (default_settings 1)
             (map (fun '(r, t, ty) =>
                     {| ap_role := r; ap_content := t; ap_type := ty;
                        ap_kwargs := no_kwargs; ap_t1 := noon;
                        ap_t2 := noon |})
                  [ (str "user", str "halo", str "text");
                    (str "assistant", str "Halo juga", str "text") ])
             (new_conversation (default_settings 1) noon noon 7) in
  user_messages (get_stats c) + assistant_messages (get_stats c)
  = total_messages_count (get_stats c) /\
  total_messages_count (get_stats c) = 2.
Proof.
  cbv zeta. split; [| reflexivity].
  match goal with
  | |- user_messages (get_stats ?c) + _ = _ =>
      apply (proj1 (proj2 (proj2
               (conversation_stats_consistent (default_settings 1) c noon))))
  end.
  vm_compute.
  repeat (constructor; [first [left; reflexivity | right; reflexivity] |]).
  constructor.
Defined.

(** ** The users collection *)

Lemma update_one_other uid f docs k :
  k <> uid -> (forall d, user_id d = uid -> user_id (f d) = uid) ->
  find (fun d => user_id d =? k) (update_one uid f docs)
  = find (fun d => user_id d =? k) docs.
Proof.
  intros Hk Hf. induction docs as [| x docs IH]; [reflexivity |].
  cbn [update_one]. destruct (user_id x =? uid) eqn:E.
  - cbn [find]. apply Z.eqb_eq in E. rewrite (Hf x E), E.
    replace (uid =? k) with false by (symmetry; apply Z.eqb_neq; lia).
    reflexivity.
  - cbn [find]. destruct (user_id x =? k); [reflexivity | exact IH].
Qed.

Lemma update_one_same uid f docs :
  (forall d, user_id d = uid -> user_id (f d) = uid) ->
  find (fun d => user_id d =? uid) (update_one uid f docs)
  = option_map f (find (fun d => user_id d =? uid) docs).
Proof.
  intros Hf. induction docs as [| x docs IH]; [reflexivity |].
  cbn [update_one]. destruct (user_id x =? uid) eqn:E.
  - cbn [find]. apply Z.eqb_eq in E. rewrite (Hf x E), E, Z.eqb_refl.
    reflexivity.
  - cbn [find]. rewrite E. exact IH.
Qed.

Lemma update_one_ids uid f docs :
  (forall d, user_id d = uid -> user_id (f d) = uid) ->
  map user_id (update_one uid f docs) = map user_id docs.
Proof.
  intros Hf. induction docs as [| x docs IH]; [reflexivity |].
  cbn [update_one]. destruct (user_id x =? uid) eqn:E; cbn [map].
  - apply Z.eqb_eq in E. now rewrite (Hf x E), E.
  - now rewrite IH.
Qed.

Lemma update_one_codes uid f docs :
  (forall d, referral_code (f d) = referral_code d) ->
  codes_in_use (update_one uid f docs) = codes_in_use docs.
Proof.
  intros Hf. unfold codes_in_use.
  induction docs as [| x docs IH]; [reflexivity |].
  cbn [update_one]. destruct (user_id x =? uid); cbn [flat_map].
  - now rewrite Hf.
  - now rewrite IH.
Qed.

Lemma update_one_missing uid f docs :
  find (fun d => user_id d =? uid) docs = None ->
  update_one uid f docs = docs.
Proof.
  induction docs as [| x docs IH]; [reflexivity |].
  cbn. destruct (user_id x =? uid); [discriminate |].
  intros H. now rewrite IH.
Qed.

Lemma update_one_twice uid f g docs :
  (forall d, user_id d = uid -> user_id (f d) = uid) ->
  update_one uid g (update_one uid f docs)
  = update_one uid (fun d => g (f d)) docs.
Proof.
  intros Hf. induction docs as [| x docs IH]; [reflexivity |].
  cbn [update_one]. destruct (user_id x =? uid) eqn:E.
  - cbn [update_one]. apply Z.eqb_eq in E.
    now rewrite (Hf x E), Z.eqb_refl.
  - cbn [update_one]. now rewrite E, IH.
Qed.

Lemma update_one_identity uid f docs :
  (forall d, In d docs -> f d = d) -> update_one uid f docs = docs.
Proof.
  induction docs as [| x docs IH]; [reflexivity |]. intros Hf.
  cbn [update_one]. destruct (user_id x =? uid).
  - rewrite Hf by now left. reflexivity.
  - rewrite IH; [reflexivity |]. intros d Hd. apply Hf. now right.
Qed.

(** With unique ids, a document found by any test is the stored user of
    its id. *)
Lemma find_is_stored (p : User -> bool) docs d :
  NoDup (map user_id docs) ->
  find p docs = Some d ->
  find (fun x => user_id x =? user_id d) docs = Some d.
Proof.
  intros Hnd Hf. induction docs as [| x docs IH]; [discriminate |].
  cbn in Hnd. inversion Hnd as [| ? ? Hnotin Hnd']; subst.
  cbn in Hf. cbn [find]. destruct (p x).
  - injection Hf as ->. now rewrite Z.eqb_refl.
  - destruct (user_id x =? user_id d) eqn:E.
    + apply Z.eqb_eq in E. exfalso. apply Hnotin. rewrite E.
      apply in_map. now apply find_some in Hf.
    + now apply IH.
Qed.

(** ** A successful redemption *)

Lemma process_referral_success (s : Settings) (new_user_id : Z)
    (code : pystr) (w : World) (referrer nu : User) :
  unique_ids w ->
  user_with_code code w = Some referrer ->
  user_id referrer <> new_user_id ->
  stored_user new_user_id w = Some nu ->
  truthy (referred_by nu) = false ->
  exists msg w',
    process_referral s new_user_id code w = (Ok (true, msg), w') /\
    stored_user new_user_id w'
    = Some (set_referral_points (referral_points nu + REFERRAL_POINTS s)
              (set_referred_by (Some (user_id referrer)) nu)) /\
    stored_user (user_id referrer) w'
    = Some (set_referral_points
              (referral_points referrer + REFERRAL_POINTS s)
              (set_referral_count (referral_count referrer + 1) referrer)) /\
    (forall k, k <> new_user_id -> k <> user_id referrer ->
               stored_user k w' = stored_user k w) /\
    unique_ids w'.
Proof.
  intros Huniq Hcode Hne Hnu Hfalsy.
  unfold process_referral.
  destruct (get_user_by_referral_code_run code w)
    as (w1 & Hrun1 & Hu1 & _).
  rewrite (bind_ok _ _ _ Hrun1), Hcode.
  replace (user_id referrer =? new_user_id) with false
    by (symmetry; now apply Z.eqb_neq).
  destruct (get_user_run new_user_id w1) as (w2 & Hrun2 & Hu2 & _).
  rewrite (bind_ok _ _ _ Hrun2).
  assert (Hst : stored_user new_user_id w1 = Some nu)
    by (unfold stored_user in *; now rewrite Hu1).
  rewrite Hst, Hfalsy.
  unfold bind, update_user, modify, ret.
  cbn [users_collection with_users user_id set_referral_points
       set_referred_by set_referral_count].
  assert (Hnid : user_id nu = new_user_id).
  { unfold stored_user in Hnu. apply find_some in Hnu.
    now apply Z.eqb_eq. }
  assert (Hrst : stored_user (user_id referrer) w = Some referrer).
  { unfold stored_user, user_with_code in *.
    now apply find_is_stored with (p := fun d =>
      opt_str_eqb (referral_code d) code). }
  eexists _, _. split; [reflexivity |].
  unfold stored_user in *. cbn [users_collection with_users].
  rewrite Hu2, Hu1, Hnid.
  split; [| split; [| split]].
  - rewrite update_one_other by (cbn; auto; lia).
    rewrite update_one_same by (cbn; auto). now rewrite Hnu.
  - rewrite update_one_same by (cbn; auto).
    rewrite update_one_other by (cbn; auto; lia). now rewrite Hrst.
  - intros k Hk1 Hk2.
    rewrite !update_one_other by (cbn; auto). reflexivity.
  - unfold unique_ids in *. cbn [users_collection with_users].
    rewrite !update_one_ids by (cbn; auto). exact Huniq.
Qed.

(** X5: when the code belongs to another stored user and the redeemer has
    not been referred yet, the redemption succeeds; both parties gain
    exactly [REFERRAL_POINTS] referral points, the redeemer is marked as
    referred by the code's owner, the owner's [referral_count] grows by
    one, the daily balances stay, and no other stored user changes. *)
Theorem referral_reward (s : Settings) (new_user_id : Z) (code : pystr)
    (w : World) (referrer nu : User) :
  unique_ids w ->
  user_with_code code w = Some referrer ->
  user_id referrer <> new_user_id ->
  stored_user new_user_id w = Some nu ->
  truthy (referred_by nu) = false ->
  exists msg w' nu' referrer',
    process_referral s new_user_id code w = (Ok (true, msg), w') /\
    stored_user new_user_id w' = Some nu' /\
    stored_user (user_id referrer) w' = Some referrer' /\
    referral_points nu' = referral_points nu + REFERRAL_POINTS s /\
    referred_by nu' = Some (user_id referrer) /\
    referral_count nu' = referral_count nu /\
    daily_points nu' = daily_points nu /\
    referral_points referrer'
    = referral_points referrer + REFERRAL_POINTS s /\
    referral_count referrer' = referral_count referrer + 1 /\
    referred_by referrer' = referred_by referrer /\
    daily_points referrer' = daily_points referrer /\
    (forall k, k <> new_user_id -> k <> user_id referrer ->
               stored_user k w' = stored_user k w).
Proof.
  intros Huniq Hcode Hne Hnu Hfalsy.
  destruct (@process_referral_success s new_user_id code w referrer nu
              Huniq Hcode Hne Hnu Hfalsy)
    as (msg & w' & Hrun & Hst & Hrst & Hothers & _).
  eexists msg, w', _, _.
  split; [exact Hrun |]. split; [exact Hst |]. split; [exact Hrst |].
  cbn. repeat split; auto.
Qed.

(** User 8 redeems the code of user 7. *)
Lemma referral_reward_witness :
  let s := default_settings 1 in
  let u7 := sample_user 7 3 0 this_morning in
  let u8 := sample_user 8 3 0 this_morning in
  exists msg w',
    process_referral s 8 (str "CODE7") (sample_world [u7; u8])
    = (Ok (true, msg), w') /\
    option_map referral_points (stored_user 8 w') = Some 3 /\
    option_map referred_by (stored_user 8 w') = Some (Some 7) /\
    option_map referral_points (stored_user 7 w') = Some 3 /\
    option_map referral_count (stored_user 7 w') = Some 1.
Proof.
  cbv zeta.
  destruct (@referral_reward (default_settings 1) 8 (str "CODE7")
              (sample_world [sample_user 7 3 0 this_morning;
                             sample_user 8 3 0 this_morning])
              (sample_user 7 3 0 this_morning)
              (sample_user 8 3 0 this_morning))
    as (msg & w' & nu' & r' & Hrun & H8 & H7 & Hp8 & Hb8 & _ & _ &
        Hp7 & Hc7 & _).
  - unfold unique_ids. cbn. repeat constructor; cbn; intuition lia.
  - vm_compute. reflexivity.
  - cbn. lia.
  - vm_compute. reflexivity.
  - reflexivity.
  - exists msg, w'. split; [exact Hrun |].
    cbn [user_id sample_user] in H7. rewrite H8, H7. cbn [option_map].
    rewrite Hp8, Hb8, Hp7, Hc7. repeat split.
Defined.

(** X6: a redemption that succeeded cannot be repeated: once the
    redeemer is marked as referred (by a referrer whose id is not 0),
    every further redemption by the same user, with whatever code, is
    refused and leaves the stored users as they are. *)
Theorem referral_is_one_shot (s : Settings) (new_user_id : Z)
    (code code2 : pystr) (w : World) (referrer nu : User) :
  unique_ids w ->
  user_with_code code w = Some referrer ->
  user_id referrer <> new_user_id ->
  user_id referrer <> 0 ->
  stored_user new_user_id w = Some nu ->
  truthy (referred_by nu) = false ->
  exists msg w' msg2 w'',
    process_referral s new_user_id code w = (Ok (true, msg), w') /\
    process_referral s new_user_id code2 w' = (Ok (false, msg2), w'') /\
    users_collection w'' = users_collection w'.
Proof.
  intros Huniq Hcode Hne Hnz Hnu Hfalsy.
  destruct (@process_referral_success s new_user_id code w referrer nu
              Huniq Hcode Hne Hnu Hfalsy)
    as (msg & w' & Hrun & Hst & _).
  destruct (process_referral_refusal s new_user_id code2 w')
    as (b & msg2 & w'' & Hrun2 & Hkeep & Hsucc).
  exists msg, w', msg2, w''. split; [exact Hrun |].
  destruct b.
  - destruct (proj1 Hsucc eq_refl) as (r2 & nu2 & _ & _ & Hst2 & Hf2).
    rewrite Hst in Hst2. injection Hst2 as <-. cbn in Hf2.
    apply negb_false_iff, Z.eqb_eq in Hf2. contradiction.
  - auto.
Qed.

Lemma referral_is_one_shot_witness :
  let s := default_settings 1 in
  let w := sample_world [sample_user 7 3 0 this_morning;
                         sample_user 8 3 0 this_morning;
                         sample_user 9 3 0 this_morning] in
  exists msg w' msg2 w'',
    process_referral s 8 (str "CODE7") w = (Ok (true, msg), w') /\
    process_referral s 8 (str "CODE9") w' = (Ok (false, msg2), w'') /\
    users_collection w'' = users_collection w'.
Proof.
  cbv zeta.
  apply (@referral_is_one_shot (default_settings 1) 8 (str "CODE7")
           (str "CODE9")
           (sample_world [sample_user 7 3 0 this_morning;
                          sample_user 8 3 0 this_morning;
                          sample_user 9 3 0 this_morning])
           (sample_user 7 3 0 this_morning)
           (sample_user 8 3 0 this_morning)).
  - unfold unique_ids. cbn. repeat constructor; cbn; intuition lia.
  - vm_compute. reflexivity.
  - cbn. lia.
  - cbn. lia.
  - vm_compute. reflexivity.
  - reflexivity.
Defined.

(** ** Validating a referral code *)

(** X7: [validate_referral_code] only reads, and accepts a code exactly
    when it has eight characters and belongs to a stored user who is not
    banned. *)
Theorem validate_referral_code_accepts (code : pystr) (w : World) :
  exists ok msg w',
    validate_referral_code code w = (Ok (ok, msg), w') /\
    users_collection w' = users_collection w /\
    sent w' = sent w /\
    (ok = true <->
     List.length code = 8%nat /\
     exists u, user_with_code code w = Some u /\ is_banned u = false).
Proof.
  unfold validate_referral_code.
  destruct (List.length code =? 8)%nat eqn:Hlen; cbn [negb].
  2:{ apply Nat.eqb_neq in Hlen. eexists _, _, _.
      split; [reflexivity |]. repeat split; try discriminate.
      all: intros (? & _); contradiction. }
  apply Nat.eqb_eq in Hlen.
  destruct (get_user_by_referral_code_run code w)
    as (w1 & Hrun & Hu & Hs & _).
  rewrite (bind_ok _ _ _ Hrun).
  destruct (user_with_code code w) as [u |].
  - destruct (is_banned u) eqn:Hb.
    + eexists _, _, _. split; [reflexivity |].
      repeat split; auto; try discriminate.
      intros (_ & u' & [= <-] & ?). congruence.
    + eexists _, _, _. split; [reflexivity |].
      repeat split; eauto.
  - eexists _, _, _. split; [reflexivity |].
    repeat split; auto; try discriminate.
    intros (_ & ? & ? & _). discriminate.
Qed.

(** ** Banning and unbanning *)

Lemma update_one_ext uid f g docs :
  (forall d, f d = g d) -> update_one uid f docs = update_one uid g docs.
Proof.
  intros H. induction docs as [| x docs IH]; [reflexivity |].
  cbn [update_one]. now rewrite H, IH.
Qed.

Lemma update_one_fixed uid f docs d :
  find (fun x => user_id x =? uid) docs = Some d -> f d = d ->
  update_one uid f docs = docs.
Proof.
  intros Hf Hd. induction docs as [| x docs IH]; [reflexivity |].
  cbn in *. destruct (user_id x =? uid).
  - injection Hf as ->. now rewrite Hd.
  - now rewrite IH.
Qed.

Lemma set_banned_run v uid w :
  set_banned v uid w
  = (Ok (match stored_user uid w with
         | Some d => negb (Bool.eqb (is_banned d) v)
         | None => false
         end),
     with_users (update_one uid (set_is_banned v) (users_collection w)) w).
Proof. reflexivity. Qed.

(** X8: banning a stored user who is not banned succeeds and sets the
    flag; banning again changes nothing and is reported as a failure;
    unbanning then succeeds and puts the users collection back as it
    was before the ban. *)
Theorem ban_unban_round_trip (uid : Z) (w : World) (u : User) :
  stored_user uid w = Some u ->
  is_banned u = false ->
  exists w1 w1' w2,
    ban_user uid w = (Ok true, w1) /\
    stored_user uid w1 = Some (set_is_banned true u) /\
    ban_user uid w1 = (Ok false, w1') /\
    users_collection w1' = users_collection w1 /\
    unban_user uid w1 = (Ok true, w2) /\
    users_collection w2 = users_collection w.
Proof.
  intros Hst Hnb.
  assert (Hid : forall v d, user_id d = uid ->
                            user_id (set_is_banned v d) = uid)
    by (intros v d; now destruct d).
  assert (Hst1 : stored_user uid
                   (with_users (update_one uid (set_is_banned true)
                                  (users_collection w)) w)
                 = Some (set_is_banned true u)).
  { unfold stored_user in *. cbn [users_collection with_users].
    rewrite update_one_same by (apply Hid). now rewrite Hst. }
  unfold ban_user, unban_user. eexists _, _, _.
  split; [rewrite set_banned_run, Hst, Hnb; reflexivity |].
  split; [exact Hst1 |].
  split; [rewrite set_banned_run, Hst1; destruct u; reflexivity |].
  split.
  { cbn [users_collection with_users].
    rewrite update_one_twice by (apply Hid).
    apply update_one_ext. intros d. now destruct d. }
  split; [rewrite set_banned_run, Hst1; destruct u; reflexivity |].
  cbn [users_collection with_users].
  rewrite update_one_twice by (apply Hid).
  apply (@update_one_fixed uid _ _ u Hst).
  destruct u. cbn in Hnb. now subst.
Qed.

(** User 7 is banned, banned again, and unbanned. *)
Lemma ban_unban_round_trip_witness :
  let w := sample_world [sample_user 7 3 0 this_morning;
                         sample_user 8 3 0 this_morning] in
  exists w1 w2,
    ban_user 7 w = (Ok true, w1) /\
    option_map is_banned (stored_user 7 w1) = Some true /\
    fst (ban_user 7 w1) = Ok false /\
    unban_user 7 w1 = (Ok true, w2) /\
    users_collection w2 = users_collection w.
Proof.
  cbv zeta.
  destruct (@ban_unban_round_trip 7
              (sample_world [sample_user 7 3 0 this_morning;
                             sample_user 8 3 0 this_morning])
              (sample_user 7 3 0 this_morning))
    as (w1 & w1' & w2 & Hban & Hst & Hagain & _ & Hunban & Hback).
  - reflexivity.
  - reflexivity.
  - exists w1, w2. split; [exact Hban |].
    split; [now rewrite Hst |].
    split; [now rewrite Hagain |].
    split; [exact Hunban | exact Hback].
Defined.

(** ** Bonus points *)





(** ** Resetting the daily balance *)

Lemma find_map_users (f : User -> User) docs k :
  (forall d, user_id (f d) = user_id d) ->
  find (fun d => user_id d =? k) (map f docs)
  = option_map f (find (fun d => user_id d =? k) docs).
Proof.
  intros Hf. induction docs as [| x docs IH]; [reflexivity |].
  cbn [map find]. rewrite Hf. destruct (user_id x =? k); [reflexivity |].
  exact IH.
Qed.

Lemma count_if_bounds {A} (p : A -> bool) (l : list A) :
  0 <= count_if p l <= len l.
Proof.
  induction l as [| x l IH]; [cbn; lia |].
  rewrite count_if_cons. unfold len in *. cbn [List.length].
  destruct (p x); lia.
Qed.

Lemma modified_one_bounds uid changed docs :
  0 <= modified_one uid changed docs <= len docs.
Proof.
  unfold modified_one.
  destruct (find _ docs) as [d |] eqn:E; [| unfold len; lia].
  destruct docs as [| x docs]; [discriminate |].
  unfold len. cbn [List.length]. destruct (changed d); lia.
Qed.

Lemma reset_daily_points_run (s : Settings) (uid : option Z) (w : World) :
  let now_dt := datetime_now (TIMEZONE s) (next_instant w) in
  let docs := users_collection w in
  reset_daily_points s uid w
  = if truthy uid then
      let id := match uid with Some n => n | None => 0 end in
      (Ok (modified_one id (reset_changes s now_dt) docs),
       with_users (update_one id (reset_update s now_dt) docs)
         (tick_clock w))
    else
      (Ok (count_if (reset_changes s now_dt) docs),
       with_users (map (reset_update s now_dt) docs) (tick_clock w)).
Proof.
  cbv zeta. unfold reset_daily_points, bind, get, modify, ret.
  rewrite now_run. now destruct (truthy uid).
Qed.

Lemma reset_update_user_id (s : Settings) t d :
  user_id (reset_update s t d) = user_id d.
Proof. now destruct d. Qed.

(** X10: [reset_daily_points] tests its argument for truth, so the id 0
    is treated like no id at all: with [None] or 0 every stored user is
    refilled to [DAILY_POINTS] and stamped with the current time, with
    any other id that user alone; the count returned lies between 0 and
    the number of stored users. *)
Theorem reset_daily_points_scope (s : Settings) (uid : option Z)
    (w : World) :
  exists n w',
    reset_daily_points s uid w = (Ok n, w') /\
    0 <= n <= len (users_collection w) /\
    forall k u,
      stored_user k w = Some u ->
      let now_dt := datetime_now (TIMEZONE s) (next_instant w) in
      let targeted := match uid with
                      | Some id => (id =? 0) || (id =? k)
                      | None => true
                      end in
      stored_user k w'
      = Some (if targeted then reset_update s now_dt u else u).
Proof.
  pose proof (reset_daily_points_run s uid w) as Hrun. cbv zeta in Hrun.
  rewrite Hrun. clear Hrun.
  destruct (truthy uid) eqn:Htruthy.
  - destruct uid as [id |]; [| discriminate]. cbn in Htruthy.
    destruct (id =? 0) eqn:Hz; [discriminate |]. cbn [orb].
    eexists _, _. split; [reflexivity |].
    split; [apply modified_one_bounds |].
    intros k u Hst. cbv zeta. unfold stored_user in *.
    cbn [users_collection with_users tick_clock].
    destruct (id =? k) eqn:Hk.
    + apply Z.eqb_eq in Hk. subst k.
      rewrite update_one_same
        by (intros d Hd; now rewrite reset_update_user_id).
      now rewrite Hst.
    + apply Z.eqb_neq in Hk.
      rewrite update_one_other;
        [exact Hst | lia
         | intros d Hd; now rewrite reset_update_user_id].
  - eexists _, _. split; [reflexivity |].
    split; [apply count_if_bounds |].
    intros k u Hst. cbv zeta. unfold stored_user in *.
    cbn [users_collection with_users tick_clock].
    rewrite find_map_users by (apply reset_update_user_id).
    rewrite Hst. cbn [option_map].
    destruct uid as [id |]; [| reflexivity].
    cbn in Htruthy. destruct (id =? 0); [reflexivity | discriminate].
Qed.

(** [manual_reset_user_points(0)] refills both stored users. *)
Example manual_reset_of_id_zero :
  let w := sample_world [sample_user 7 0 0 this_morning;
                         sample_user 8 1 2 this_morning] in
  let r := manual_reset_user_points (default_settings 1) 0 w in
  fst r = Ok true /\
  map daily_points (users_collection (snd r)) = [3; 3].
Proof. cbv zeta. split; vm_compute; reflexivity. Qed.

(** X11: after a reset of the daily balance a stored user who is not
    banned may generate an image, whatever the clock reads at the time
    of the check, as long as the daily allowance is positive and the
    referral balance is not negative. *)
Theorem reset_makes_eligible (s : Settings) (uid : Z) (w : World)
    (u : User) :
  stored_user uid w = Some u ->
  is_banned u = false ->
  0 < DAILY_POINTS s ->
  0 <= referral_points u ->
  exists n w1 u1 w2 u2 w3,
    reset_daily_points s (Some uid) w = (Ok n, w1) /\
    get_user uid w1 = (Ok (Some u1), w2) /\
    can_user_generate_image s u1 w2 = (Ok (true, u2), w3) /\
    daily_points u2 = DAILY_POINTS s /\
    referral_points u2 = referral_points u.
Proof.
  intros Hst Hnb Hdaily Href.
  pose proof (reset_daily_points_run s (Some uid) w) as Hrun.
  cbv zeta in Hrun.
  set (now_dt := datetime_now (TIMEZONE s) (next_instant w)) in *.
  set (u1 := reset_update s now_dt u).
  assert (Hrun' : exists n w1,
            reset_daily_points s (Some uid) w = (Ok n, w1) /\
            stored_user uid w1 = Some u1).
  { rewrite Hrun. unfold stored_user in *.
    destruct (truthy (Some uid)); eexists _, _;
      (split; [reflexivity |]);
      cbn [users_collection with_users tick_clock].
    - rewrite update_one_same
        by (intros d Hd; now rewrite reset_update_user_id).
      now rewrite Hst.
    - rewrite find_map_users by (apply reset_update_user_id).
      now rewrite Hst. }
  destruct Hrun' as (n & w1 & Hres & Hst1).
  destruct (get_user_run uid w1) as (w2 & Hget & _).
  rewrite Hst1 in Hget.
  assert (Hb1 : is_banned u1 = false) by (subst u1; now destruct u).
  pose proof (@can_user_generate_image_run s u1 w2 Hb1) as Hcan.
  exists n, w1, u1, w2. eexists _, _.
  split; [exact Hres |]. split; [exact Hget |].
  rewrite Hcan.
  destruct (check_daily_reset_frame s (next_instant w2) u1)
    as (_ & _ & Hr & _ & _ & Hd).
  assert (Hd' : daily_points (_check_daily_reset s (next_instant w2) u1)
                = DAILY_POINTS s).
  { destruct Hd as [Hd | Hd]; [| exact Hd]. rewrite Hd.
    subst u1. now destruct u. }
  assert (Hr' : referral_points u1 = referral_points u)
    by (subst u1; now destruct u).
  split; [| split; [exact Hd' | congruence]].
  do 2 f_equal. f_equal. apply Z.ltb_lt. lia.
Qed.

(** User 7, out of points, is reset by an admin and asks for an image
    the next day. *)
Lemma reset_makes_eligible_witness :
  let w := sample_world [sample_user 7 0 0 this_morning] in
  exists n w1 u1 w2 u2 w3,
    reset_daily_points (default_settings 1) (Some 7) w = (Ok n, w1) /\
    get_user 7 w1 = (Ok (Some u1), w2) /\
    can_user_generate_image (default_settings 1) u1 w2
    = (Ok (true, u2), w3) /\
    daily_points u2 = 3.
Proof.
  cbv zeta.
  destruct (@reset_makes_eligible (default_settings 1) 7
              (sample_world [sample_user 7 0 0 this_morning])
              (sample_user 7 0 0 this_morning))
    as (n & w1 & u1 & w2 & u2 & w3 & H1 & H2 & H3 & H4 & _);
    [reflexivity | reflexivity | reflexivity | cbn; lia |].
  exists n, w1, u1, w2, u2, w3. auto.
Defined.

(** ** Clearing a conversation *)

Lemma update_one_conversation_other uid c docs docs' k :
  update_one_conversation uid c docs = Some docs' ->
  conv_user_id c = uid -> k <> uid ->
  find (fun d => conv_user_id d =? k) docs'
  = find (fun d => conv_user_id d =? k) docs.
Proof.
  intros Hup Hc Hk. revert docs' Hup.
  induction docs as [| x docs IH]; intros docs' Hup; [discriminate |].
  cbn in Hup. destruct (conv_user_id x =? uid) eqn:E.
  - injection Hup as <-. cbn [find]. apply Z.eqb_eq in E.
    rewrite Hc, E.
    replace (uid =? k) with false by (symmetry; apply Z.eqb_neq; lia).
    reflexivity.
  - destruct (update_one_conversation uid c docs) as [ds |];
      [| discriminate].
    injection Hup as <-. cbn [find].
    destruct (conv_user_id x =? k); [reflexivity | now apply IH].
Qed.

Lemma get_recent_messages_nil limit c :
  messages c = [] -> get_recent_messages limit c = [].
Proof.
  intros H. unfold get_recent_messages, slice_from. rewrite H.
  destruct (0 <? limit); [| reflexivity]. now rewrite skipn_nil.
Qed.

Lemma get_conversation_frame uid w :
  let w' := snd (get_conversation uid w) in
  users_collection w' = users_collection w /\
  pending_broadcast w' = pending_broadcast w /\
  network w' = network w /\ network_calls w' = network_calls w /\
  sent w' = sent w.
Proof.
  cbv zeta. unfold get_conversation, bind, get.
  destruct (find _ _) as [d |]; [| cbn; auto].
  unfold conversation_from_dict, bind, ret.
  destruct (read_clock_run 2 w)
    as (wb & -> & _ & Hub & Hsb & _ & Hnb & Hncb & Hpb & _).
  destruct (read_clock_run (List.length (messages d)) wb)
    as (wc & -> & _ & Huc & Hsc & _ & Hnc & Hncc & Hpc & _).
  cbn [snd]. repeat split; congruence.
Qed.

(** [clear_conversation] always returns; it leaves the user without
    stored messages and touches nothing else. *)
Lemma clear_conversation_run (s : Settings) (uid : Z) (w : World) :
  exists b w1,
    clear_conversation s uid w = (Ok b, w1) /\
    stored_messages uid w1 = [] /\
    users_collection w1 = users_collection w /\
    pending_broadcast w1 = pending_broadcast w /\
    network w1 = network w /\ network_calls w1 = network_calls w /\
    sent w1 = sent w /\
    (forall k, k <> uid ->
               stored_conversation k w1 = stored_conversation k w).
Proof.
  unfold clear_conversation.
  destruct (get_conversation_run uid w) as (wa & Hget & Hca).
  rewrite (bind_ok _ _ _ Hget).
  pose proof (get_conversation_frame uid w) as Hfr.
  rewrite Hget in Hfr. cbn [snd] in Hfr.
  destruct Hfr as (Hua & Hpa & Hna & Hnca & Hsa).
  destruct (stored_conversation uid w) as [c |] eqn:Hst.
  - unfold bind, get, modify, ret. rewrite now_run.
    cbn [conversations_collection tick_clock].
    assert (Hid : conv_user_id c = uid).
    { unfold stored_conversation in Hst. apply find_some in Hst.
      now apply Z.eqb_eq. }
    assert (Hfind : find (fun d => conv_user_id d =? uid)
                      (conversations_collection wa) = Some c)
      by (rewrite Hca; exact Hst).
    destruct (@update_one_conversation_found uid
                (clear_memory s (next_instant wa) c)
                (conversations_collection wa) c Hfind Hid)
      as (docs' & Hup & Hnew).
    rewrite Hup.
    set (w1 := with_conversations docs' (tick_clock wa)).
    assert (Hst1 : stored_conversation uid w1
                   = Some (clear_memory s (next_instant wa) c))
      by exact Hnew.
    exists (clear_changes s (next_instant wa) c), w1.
    split; [reflexivity |].
    split; [unfold stored_messages; now rewrite Hst1 |].
    do 5 (split; [assumption |]).
    intros k Hk. unfold stored_conversation. subst w1.
    cbn [conversations_collection with_conversations].
    rewrite (@update_one_conversation_other uid _ _ docs' k Hup Hid Hk).
    now rewrite Hca.
  - assert (Hsta : stored_conversation uid wa = None)
      by (unfold stored_conversation in *; now rewrite Hca).
    exists true, wa. split; [reflexivity |].
    split; [unfold stored_messages; now rewrite Hsta |].
    do 5 (split; [assumption |]).
    intros k _. unfold stored_conversation. now rewrite Hca.
Qed.

(** X12: after [clear_conversation] the history handed to the AI client
    is empty, whatever limit is asked for and whether or not the user
    had a conversation; the users and the conversations of the others
    are not touched. *)
Theorem cleared_history_is_empty (s : Settings) (uid limit : Z)
    (w : World) :
  exists b w1 w2,
    clear_conversation s uid w = (Ok b, w1) /\
    get_conversation_history uid limit w1 = (Ok [], w2) /\
    stored_messages uid w1 = [] /\
    users_collection w1 = users_collection w /\
    (forall k, k <> uid ->
               stored_conversation k w1 = stored_conversation k w).
Proof.
  destruct (clear_conversation_run s uid w)
    as (b & w1 & Hrun & Hnone & Hu & _ & _ & _ & _ & Hothers).
  destruct (get_conversation_run uid w1) as (w2 & Hget & _).
  exists b, w1, w2. split; [exact Hrun |].
  split; [| auto].
  unfold get_conversation_history. rewrite (bind_ok _ _ _ Hget).
  unfold stored_messages in Hnone.
  destruct (stored_conversation uid w1) as [c |]; [| reflexivity].
  unfold ret, get_gemini_format.
  now rewrite get_recent_messages_nil.
Qed.

(** ** The countdown to midnight *)

(** X13: the entries of [time_until_midnight_wib] agree with one
    another: hours, minutes and seconds add up to [total_seconds], which
    lies between 0 and a full day, minutes and seconds stay below 60, and
    the text shows the hours and the minutes. *)
Theorem midnight_countdown_consistent (s : Settings) (w : World) :
  exists d h m sec total,
    time_until_midnight_wib s w = (Ok d, tick_clock w) /\
    dict_get "hours" d = Some (VInt h) /\
    dict_get "minutes" d = Some (VInt m) /\
    dict_get "seconds" d = Some (VInt sec) /\
    dict_get "total_seconds" d = Some (VInt total) /\
    dict_get "text" d
    = Some (VStr (str_of_Z h ++ str "h " ++ str_of_Z m ++ str "m")) /\
    h * 3600 + m * 60 + sec = total /\
    0 <= total <= 86400 /\
    0 <= h <= 24 /\ 0 <= m < 60 /\ 0 <= sec < 60.
Proof.
  unfold time_until_midnight_wib, bind, ret. rewrite now_run.
  set (delta := until_midnight _).
  pose proof (until_midnight_bounds
                (datetime_now (TIMEZONE s) (next_instant w))) as Hb.
  fold delta in Hb. clearbody delta.
  eexists _, _, _, _, _. split; [reflexivity |].
  cbn [dict_get String.eqb Ascii.eqb Bool.eqb].
  do 5 (split; [reflexivity |]).
  unfold reset_hours, reset_minutes, hour_us, minute_us, second_us, day_us,
    hour_us in *.
  Z.div_mod_to_equations. lia.
Qed.

(** ** What the admin commands leave alone *)

Lemma notify_run uid text w :
  exists w', notify uid text w = (Ok tt, w') /\ same_data w w'.
Proof.
  unfold notify, try_except.
  destruct (client_send_run uid text w) as [[_ ->] | [_ ->]];
    eexists; (split; [reflexivity |]); repeat split.
Qed.

Lemma try_except_ok_ex {A} (m : M A) h w a (P : World -> Prop) :
  (exists w', m w = (Ok a, w') /\ P w') ->
  exists w', try_except m h w = (Ok a, w') /\ P w'.
Proof.
  intros (w' & Hrun & HP). exists w'. split; [| exact HP].
  unfold try_except. now rewrite Hrun.
Qed.

Lemma same_data_users w w' :
  same_data w w' -> users_collection w' = users_collection w.
Proof. now intros (H & _). Qed.

(** X14: no [/ban] command, whoever sends it and whatever its
    arguments, changes the stored record of the owner; the handler
    always returns. *)
Theorem owner_is_never_banned (bot : Bot) (message : TgMessage)
    (w : World) :
  exists w',
    handle_ban_user bot message w = (Ok tt, w') /\
    stored_user (OWNER_ID (settings bot)) w'
    = stored_user (OWNER_ID (settings bot)) w.
Proof.
  assert (Hsend : forall text w0,
            stored_user (OWNER_ID (settings bot)) w0
            = stored_user (OWNER_ID (settings bot)) w ->
            exists w',
              send_message_safe (chat_id message) text w0 = (Ok tt, w') /\
              stored_user (OWNER_ID (settings bot)) w'
              = stored_user (OWNER_ID (settings bot)) w).
  { intros text w0 H0.
    destruct (send_message_safe_run (chat_id message) text w0)
      as (w' & Hrun & Hs).
    exists w'. split; [exact Hrun |].
    unfold stored_user in *. now rewrite (same_data_users Hs). }
  unfold handle_ban_user. apply try_except_ok_ex.
  destruct (negb (handlers_is_admin bot (from_user_id message)));
    [now apply Hsend |].
  destruct (_ <? 2)%nat; [now apply Hsend |].
  destruct (int_of_str _) as [uid |]; [| now apply Hsend].
  destruct (is_owner bot uid) eqn:Hown; [now apply Hsend |].
  unfold is_owner in Hown. apply Z.eqb_neq in Hown.
  unfold ban_user. unfold bind at 1. rewrite set_banned_run.
  set (w1 := with_users _ w).
  assert (H1 : stored_user (OWNER_ID (settings bot)) w1
               = stored_user (OWNER_ID (settings bot)) w).
  { unfold stored_user, w1. cbn [users_collection with_users].
    apply update_one_other; [lia |]. intros d Hd. now destruct d. }
  destruct (match stored_user uid w with
            | Some d => negb (Bool.eqb (is_banned d) true)
            | None => false
            end); [| now apply Hsend].
  destruct (get_user_run uid w1) as (w2 & Hget & Hu2 & _).
  rewrite (bind_ok _ _ _ Hget).
  assert (H2 : stored_user (OWNER_ID (settings bot)) w2
               = stored_user (OWNER_ID (settings bot)) w)
    by (unfold stored_user in *; now rewrite Hu2).
  match goal with
  | |- context [send_message_safe ?c ?t] =>
      destruct (Hsend t w2 H2) as (w3 & Hrun3 & H3)
  end.
  rewrite (bind_ok _ _ _ Hrun3).
  match goal with
  | |- context [notify ?u ?t] =>
      destruct (notify_run u t w3) as (w4 & Hrun4 & Hs4)
  end.
  exists w4. split; [exact Hrun4 |].
  unfold stored_user in *. now rewrite (same_data_users Hs4).
Qed.

(** X15: [/addadmin] is for the owner alone: any other caller, the
    designated admin of a clone included, gets the refusal and nothing
    is changed. *)
Theorem add_admin_is_owner_only (bot : Bot) (message : TgMessage)
    (w : World) :
  is_owner bot (from_user_id message) = false ->
  exists w',
    handle_add_admin bot message w = (Ok tt, w') /\
    same_data w w' /\
    (network w (network_calls w) = true ->
     sent w' = sent w ++ [(chat_id message,
                           str "❌ Hanya owner yang bisa menambah admin.")]).
Proof.
  intros Hown. unfold handle_add_admin. rewrite Hown. cbn [negb].
  rewrite try_send_message_safe.
  destruct (send_message_safe_run (chat_id message)
              (str "❌ Hanya owner yang bisa menambah admin.") w)
    as (w' & Hrun & Hs).
  exists w'. split; [exact Hrun |]. split; [exact Hs |].
  intros Hnet. rewrite send_message_safe_short in Hrun;
    [| apply Nat.leb_le; vm_compute; reflexivity | exact Hnet].
  injection Hrun as <-. reflexivity.
Qed.

(** On a clone run for user 5, user 5 passes the admin check and still
    cannot promote user 7. *)
Lemma add_admin_is_owner_only_witness :
  let clone := {| settings := default_settings 1; is_clone := true;
                  clone_admin_id := Some 5 |} in
  let w := sample_world [sample_user 7 3 0 this_morning] in
  handlers_is_admin clone 5 = true /\
  exists w',
    handle_add_admin clone (admin_request 5 [str "addadmin"; str "7"]) w
    = (Ok tt, w') /\
    option_map is_admin_flag (stored_user 7 w') = Some false.
Proof.
  cbv zeta. split; [reflexivity |].
  destruct (@add_admin_is_owner_only
              {| settings := default_settings 1; is_clone := true;
                 clone_admin_id := Some 5 |}
              (admin_request 5 [str "addadmin"; str "7"])
              (sample_world [sample_user 7 3 0 this_morning]))
    as (w' & Hrun & Hs & _); [reflexivity |].
  exists w'. split; [exact Hrun |].
  unfold stored_user. rewrite (same_data_users Hs). reflexivity.
Defined.

(** ** What a broadcast delivers *)

Lemma deliveries_app net us : forall call vs,
  deliveries net call (us ++ vs)
  = deliveries net call us ++ deliveries net (call + List.length us) vs.
Proof.
  induction us as [| u us IH]; intros call vs; cbn [deliveries app].
  - now rewrite Nat.add_0_r.
  - cbn [List.length]. rewrite IH.
    replace (S call + List.length us)%nat
      with (call + S (List.length us))%nat by lia.
    now destruct (net call).
Qed.

Lemma deliveries_incl net us : forall call u,
  In u (deliveries net call us) -> In u us.
Proof.
  induction us as [| x us IH]; intros call u; cbn [deliveries];
    [auto |].
  destruct (net call); cbn [In]; intros H.
  - destruct H as [-> | H]; [now left | right; eauto].
  - right; eauto.
Qed.

Lemma deliveries_length net us : forall call,
  (List.length (deliveries net call us) <= List.length us)%nat.
Proof.
  induction us as [| x us IH]; intros call; cbn [deliveries];
    [lia |].
  specialize (IH (S call)). destruct (net call); cbn [List.length]; lia.
Qed.

(** One batch: what is delivered, and how the results are counted. *)
Lemma gather_sends_sent uids text : forall w acc,
  exists results w',
    gather_sends uids text w = (Ok results, w') /\
    sent w'
    = sent w ++ map (fun u => (u, broadcast_message text))
                    (deliveries (network w) (network_calls w) uids) /\
    network w' = network w /\
    network_calls w' = (network_calls w + List.length uids)%nat /\
    users_collection w' = users_collection w /\
    count_results results acc
    = (fst acc
       + len (deliveries (network w) (network_calls w) uids),
       snd acc
       + (len uids
          - len (deliveries (network w) (network_calls w) uids))).
Proof.
  induction uids as [| u uids IH]; intros w acc; cbn [gather_sends].
  - exists [], w. split; [reflexivity |]. cbn.
    rewrite app_nil_r, Nat.add_0_r. destruct acc as [a b]. cbn.
    repeat split; f_equal; lia.
  - unfold _send_broadcast_message, try_except. unfold bind at 1 2.
    fold (broadcast_message text). cbn [deliveries List.length].
    destruct (client_send_run u (broadcast_message text) w)
      as [[Hnet ->] | [Hnet ->]]; rewrite Hnet; unfold ret.
    + destruct (IH (with_sent (sent w ++ [(u, broadcast_message text)])
                      (tick_network w))
                   (fst acc + 1, snd acc))
        as (rs & w' & Hrun & Hsent & Hn & Hc & Hu & Hcount).
      cbn [network network_calls sent with_sent tick_network
           users_collection] in *.
      rewrite (bind_ok _ _ _ Hrun).
      exists (true :: rs), w'. split; [reflexivity |].
      split; [rewrite Hsent, <- app_assoc; reflexivity |].
      split; [exact Hn |]. split; [lia |]. split; [exact Hu |].
      unfold count_results in *. cbn [fold_left].
      destruct acc as [a b]. cbn [fst snd] in *. rewrite Hcount.
      unfold len. cbn [List.length]. f_equal; lia.
    + destruct (IH (tick_network w) (fst acc, snd acc + 1))
        as (rs & w' & Hrun & Hsent & Hn & Hc & Hu & Hcount).
      cbn [network network_calls sent with_sent tick_network
           users_collection] in *.
      rewrite (bind_ok _ _ _ Hrun).
      exists (false :: rs), w'. split; [reflexivity |].
      split; [exact Hsent |].
      split; [exact Hn |]. split; [lia |]. split; [exact Hu |].
      unfold count_results in *. cbn [fold_left].
      destruct acc as [a b]. cbn [fst snd] in *. rewrite Hcount.
      unfold len. cbn [List.length]. f_equal; lia.
Qed.

Lemma broadcast_batches_sent user_ids admin_id text starts :
  forall acc w,
  let sent_to := filter (fun u => negb (u =? admin_id))
                   (List.concat (map (fun i => firstn 30 (skipn i user_ids))
                                   starts)) in
  exists ok ko w',
    broadcast_batches starts user_ids admin_id text acc w
    = (Ok (ok, ko), w') /\
    sent w'
    = sent w ++ map (fun u => (u, broadcast_message text))
                    (deliveries (network w) (network_calls w) sent_to) /\
    network w' = network w /\
    network_calls w' = (network_calls w + List.length sent_to)%nat /\
    users_collection w' = users_collection w /\
    ok = fst acc + len (deliveries (network w) (network_calls w) sent_to) /\
    ko = snd acc
         + (len sent_to
            - len (deliveries (network w) (network_calls w) sent_to)).
Proof.
  induction starts as [| i starts IH]; intros acc w; cbv zeta;
    cbn [broadcast_batches map List.concat].
  - destruct acc as [ok ko]. exists ok, ko, w.
    split; [reflexivity |]. cbn.
    rewrite app_nil_r, Nat.add_0_r. repeat split; lia.
  - rewrite filter_app.
    set (batch := filter (fun u => negb (u =? admin_id))
                    (firstn 30 (skipn i user_ids))).
    destruct (gather_sends_sent batch text w acc)
      as (results & w1 & Hrun & Hsent1 & Hn1 & Hc1 & Hu1 & Hcount).
    rewrite (bind_ok _ _ _ Hrun).
    destruct (IH (count_results results acc) w1)
      as (ok & ko & w2 & Hrest & Hsent2 & Hn2 & Hc2 & Hu2 & Hok & Hko).
    cbv zeta in *.
    exists ok, ko, w2. split; [exact Hrest |].
    rewrite deliveries_app, map_app, app_assoc, <- Hsent1.
    rewrite Hn1, Hc1 in *. rewrite Hcount in Hok, Hko.
    cbn [fst snd] in *.
    split; [exact Hsent2 |]. split; [exact Hn2 |].
    split; [rewrite length_app; lia |]. split; [congruence |].
    unfold len in *. rewrite !length_app. split; lia.
Qed.

(** X16: a broadcast is delivered, in the order of the collection, to
    the stored users who are not banned and are not the initiator, one
    client call each: exactly those whose call goes through receive the
    text, under the broadcast header; [success] counts them and [failed]
    the others.  Nobody else receives anything. *)
Theorem broadcast_deliveries (text : pystr) (admin_id : Z) (w : World) :
  exists r w',
    execute_broadcast text admin_id w = (Ok r, w') /\
    let delivered := deliveries (network w) (network_calls w)
                       (recipients admin_id w) in
    sent w' = sent w ++ map (fun u => (u, broadcast_message text)) delivered /\
    success r = len delivered /\
    failed r = len (recipients admin_id w) - len delivered /\
    users_collection w' = users_collection w /\
    forall u, In u delivered ->
      u <> admin_id /\
      exists d, In d (users_collection w) /\ user_id d = u /\
                is_banned d = false.
Proof.
  assert (Hin : forall u,
            In u (deliveries (network w) (network_calls w)
                    (recipients admin_id w)) ->
            u <> admin_id /\
            exists d, In d (users_collection w) /\ user_id d = u /\
                      is_banned d = false).
  { intros u Hu. apply deliveries_incl in Hu.
    unfold recipients, audience in Hu.
    apply filter_In in Hu. destruct Hu as [Hu Hne].
    apply in_map_iff in Hu. destruct Hu as (d & Hd & Hf).
    apply filter_In in Hf. destruct Hf as [Hf Hb].
    split.
    - intros ->. rewrite Z.eqb_refl in Hne. discriminate.
    - exists d. repeat split; auto. now destruct (is_banned d). }
  unfold execute_broadcast.
  assert (Hids : get_users_for_broadcast true w = (Ok (audience w), w))
    by reflexivity.
  unfold try_except. rewrite (bind_ok _ _ _ Hids).
  revert Hin. unfold recipients.
  destruct (audience w) as [| i ids] eqn:Ha; intros Hin.
  - eexists _, _. split; [reflexivity |]. cbn.
    rewrite app_nil_r. repeat split; auto; contradiction.
  - destruct (broadcast_batches_sent (i :: ids) admin_id text
                (range_step (List.length (i :: ids)) 30) (0, 0) w)
      as (ok & ko & w' & Hrun & Hsent & _ & _ & Hu & Hok & Hko).
    cbv zeta in *.
    fold (batches_of (i :: ids)) in Hrun, Hsent, Hok, Hko.
    rewrite batches_of_cover in Hsent, Hok, Hko.
    rewrite (bind_ok _ _ _ Hrun).
    eexists _, _. split; [reflexivity |]. cbn [success failed total].
    cbn [fst snd] in *.
    split; [exact Hsent |]. split; [lia |]. split; [lia |].
    split; [exact Hu | exact Hin].
Qed.

(** Of the users 1 (the initiator), 2, 3 (banned) and 4, only 2 and 4 are
    sent to; the call for user 2 fails, so user 4 alone receives the
    text. *)
Example broadcast_deliveries_evaluated :
  let w := world_with_network
             [sample_user 1 3 0 this_morning;
              sample_user 2 3 0 this_morning;
              set_is_banned true (sample_user 3 3 0 this_morning);
              sample_user 4 3 0 this_morning]
             (fun k => negb (k =? 0)%nat) in
  recipients 1 w = [2; 4] /\
  deliveries (network w) (network_calls w) (recipients 1 w) = [4] /\
  sent (snd (execute_broadcast (str "Halo") 1 w))
  = [(4, broadcast_message (str "Halo"))].
Proof. cbv zeta. repeat split; vm_compute; reflexivity. Qed.

(** ** Confirming a broadcast *)

Lemma confirm_broadcast_outcome (bot : Bot) (cq : CallbackQuery)
    (w w' : World) (r : BroadcastResult) :
  handle_confirm_broadcast bot cq w = (Ok (Some r), w') ->
  is_admin bot (cq_from_user_id cq) = true /\
  (exists text,
     pending_broadcast w = Some (text, cq_from_user_id cq)) /\
  pending_broadcast w' = None /\
  users_collection w' = users_collection w.
Proof.
  unfold handle_confirm_broadcast, try_except.
  assert (Hrefuse : forall text w0 res w1,
            match (_ <- answer cq text ;; ret (@None BroadcastResult)) w0
            with
            | (Raise e, w2) =>
                (_ <- answer cq (str "❌ Terjadi kesalahan.") ;;
                 ret (@None BroadcastResult)) w2
            | x => x
            end = (res, w1) ->
            res <> Ok (Some r)).
  { intros text w0 res w1. unfold answer, bind, ret.
    destruct (client_send_run (cq_from_user_id cq) text w0)
      as [[_ ->] | [_ ->]].
    - intros [= <- _]. discriminate.
    - destruct (client_send_run (cq_from_user_id cq)
                  (str "❌ Terjadi kesalahan.") (tick_network w0))
        as [[_ ->] | [_ ->]]; intros [= <- _]; discriminate. }
  destruct (is_admin bot (cq_from_user_id cq)) eqn:Hadm; cbn [negb].
  2:{ intros H. now apply Hrefuse in H. }
  unfold bind at 1. unfold get at 1.
  destruct (pending_broadcast w) as [[text admin_id] |] eqn:Hp.
  2:{ intros H. now apply Hrefuse in H. }
  destruct (admin_id =? cq_from_user_id cq) eqn:Hid; cbn [negb].
  2:{ intros H. now apply Hrefuse in H. }
  apply Z.eqb_eq in Hid. subst admin_id.
  assert (Hfail : forall w0 res w1,
            (_ <- answer cq (str "❌ Terjadi kesalahan.") ;;
             ret (@None BroadcastResult)) w0 = (res, w1) ->
            res <> Ok (Some r)).
  { intros w0 res w1. unfold answer, bind, ret.
    destruct (client_send_run (cq_from_user_id cq)
                (str "❌ Terjadi kesalahan.") w0)
      as [[_ ->] | [_ ->]]; intros [= <- _]; discriminate. }
  unfold edit_message_text. unfold bind at 1.
  match goal with
  | |- context [client_send ?c ?t w] =>
      destruct (client_send_run c t w) as [[_ ->] | [_ ->]]
  end.
  2:{ intros H. now apply Hfail in H. }
  match goal with
  | |- context [bind (execute_broadcast ?t ?a) _ ?w0] =>
      destruct (execute_broadcast_counts t a w0)
        as (r0 & w1 & Hex & _ & _ & _ & _ & Hs1)
  end.
  rewrite (bind_ok _ _ _ Hex). unfold bind at 1.
  match goal with
  | |- context [client_send ?c ?t w1] =>
      destruct (client_send_run c t w1) as [[_ ->] | [_ ->]]
  end.
  2:{ intros H. now apply Hfail in H. }
  unfold bind, modify, ret. intros [= <- <-].
  split; [reflexivity |]. split; [eauto |]. split; [reflexivity |].
  cbn [users_collection with_pending_broadcast with_sent tick_network].
  apply (same_data_users Hs1).
Qed.



(** ** The points command *)

(** X18: for a stored sender [/points] never shows the card: the points
    dictionary comes back empty, so the reply is the failure text, and
    the sender's account stays as it was. *)
Theorem points_command_always_fails (bot : Bot) (fuel : nat)
    (message : TgMessage) (w : World) (d : User) :
  stored_user (from_user_id message) w = Some d ->
  network w (network_calls w) = true ->
  exists w' u,
    handle_points bot fuel message w = (Ok tt, w') /\
    sent w'
    = sent w ++ [(chat_id message,
                  str "Gagal mengambil informasi poin. Silakan coba lagi.")] /\
    stored_user (from_user_id message) w' = Some u /\
    same_account d u.
Proof.
  intros Hst Hnet. unfold handle_points.
  destruct (@get_or_create_user_found (settings bot) fuel
              (from_user_id message) (from_first_name message)
              (from_username message) w d Hst)
    as (u & w1 & Hrun & Hacc & Hst1 & (Hc & Hn & Hnc & Hs) & _).
  unfold try_except. rewrite (bind_ok _ _ _ Hrun).
  unfold bind at 1. rewrite get_user_points_info_run.
  rewrite send_message_safe_short;
    [| apply Nat.leb_le; vm_compute; reflexivity
     | cbn [network network_calls tick_clock]; now rewrite Hn, Hnc].
  eexists _, u. split; [reflexivity |].
  cbn [sent with_sent tick_network tick_clock]. rewrite Hs.
  split; [reflexivity |]. split; [exact Hst1 | exact Hacc].
Qed.

(** User 7, holding three daily points, asks for the card. *)
Lemma points_command_always_fails_witness :
  let w := sample_world [sample_user 7 3 0 this_morning] in
  exists w',
    handle_points (main_bot 1) 1 (image_request 7) w = (Ok tt, w') /\
    sent w'
    = [(7, str "Gagal mengambil informasi poin. Silakan coba lagi.")].
Proof.
  cbv zeta.
  destruct (@points_command_always_fails (main_bot 1) 1 (image_request 7)
              (sample_world [sample_user 7 3 0 this_morning])
              (sample_user 7 3 0 this_morning))
    as (w' & u & Hrun & Hsent & _); [reflexivity | reflexivity |].
  exists w'. split; [exact Hrun | exact Hsent].
Defined.

(** ** Granting and resetting points by command *)

Lemma grant_bonus_points_run uid points point_type w :
  exists ok,
    grant_bonus_points uid points point_type w
    = (Ok ok,
       with_users
         (update_one uid
            (if str_eqb point_type (str "referral")
             then fun d => set_referral_points (referral_points d + points) d
             else fun d => set_daily_points (daily_points d + points) d)
            (users_collection w)) w).
Proof. eexists. reflexivity. Qed.

(** X19: whoever sends [/givepoints] and whatever its arguments, the
    handler returns, no balance of any stored user goes down, and the
    two balances of a user together grow by at most 100; when the
    sender fails the admin check nothing changes at all. *)
Theorem give_points_bounds (bot : Bot) (message : TgMessage) (w : World) :
  exists w',
    handle_give_points bot message w = (Ok tt, w') /\
    (handlers_is_admin bot (from_user_id message) = false ->
     users_collection w' = users_collection w) /\
    forall k u,
      stored_user k w = Some u ->
      exists u',
        stored_user k w' = Some u' /\
        daily_points u <= daily_points u' /\
        referral_points u <= referral_points u' /\
        (daily_points u' + referral_points u')
        - (daily_points u + referral_points u) <= 100.
Proof.
  set (P := fun w' : World =>
    (handlers_is_admin bot (from_user_id message) = false ->
     users_collection w' = users_collection w) /\
    forall k u,
      stored_user k w = Some u ->
      exists u',
        stored_user k w' = Some u' /\
        daily_points u <= daily_points u' /\
        referral_points u <= referral_points u' /\
        (daily_points u' + referral_points u')
        - (daily_points u + referral_points u) <= 100).
  assert (HP0 : P w).
  { split; [reflexivity |]. intros k u Hst. exists u.
    split; [exact Hst | lia]. }
  assert (Hkeep : forall w0 w1,
            P w0 -> users_collection w1 = users_collection w0 -> P w1).
  { intros w0 w1 [Ha Hb] Hu. split.
    - intros H. rewrite Hu. now apply Ha.
    - intros k u Hst. unfold stored_user in *. rewrite Hu.
      now apply Hb. }
  assert (Hsend : forall text w0,
            P w0 ->
            exists w',
              send_message_safe (chat_id message) text w0 = (Ok tt, w') /\
              P w').
  { intros text w0 H0.
    destruct (send_message_safe_run (chat_id message) text w0)
      as (w' & Hrun & Hs).
    exists w'. split; [exact Hrun |].
    apply (Hkeep w0); [exact H0 | apply (same_data_users Hs)]. }
  change (exists w', handle_give_points bot message w = (Ok tt, w') /\ P w').
  unfold handle_give_points. apply try_except_ok_ex.
  destruct (handlers_is_admin bot (from_user_id message)) eqn:Hadm;
    cbn [negb]; [| now apply Hsend].
  destruct (_ <? 3)%nat; [now apply Hsend |].
  destruct (int_of_str (nth 1 (command message) [])) as [uid |];
    [| now apply Hsend].
  destruct (int_of_str (nth 2 (command message) [])) as [points |];
    [| now apply Hsend].
  set (point_type := if (3 <? _)%nat then _ else _).
  destruct (negb _); [now apply Hsend |].
  destruct (points <=? 0) eqn:Hlow; cbn [orb]; [now apply Hsend |].
  destruct (100 <? points) eqn:Hhigh; [now apply Hsend |].
  apply Z.leb_gt in Hlow. apply Z.ltb_ge in Hhigh.
  destruct (grant_bonus_points_run uid points point_type w) as (ok & Hrun).
  rewrite (bind_ok _ _ _ Hrun).
  set (w1 := with_users _ w) in *.
  assert (H1 : P w1).
  { split; [discriminate |].
    intros k u Hst. unfold stored_user, w1 in *.
    cbn [users_collection with_users].
    destruct (Z.eq_dec k uid) as [-> | Hk].
    - rewrite update_one_same
        by (intros d Hd; destruct (str_eqb _ _); now destruct d).
      rewrite Hst. cbn [option_map]. eexists. split; [reflexivity |].
      destruct (str_eqb _ _); destruct u; cbn; lia.
    - rewrite update_one_other;
        [| exact Hk
         | intros d Hd; destruct (str_eqb _ _); now destruct d].
      exists u. split; [exact Hst | lia]. }
  clearbody w1.
  destruct ok; [| now apply Hsend].
  destruct (get_user_run uid w1) as (w2 & Hget & Hu2 & _).
  rewrite (bind_ok _ _ _ Hget).
  assert (H2 : P w2) by (apply (Hkeep w1); assumption).
  match goal with
  | |- context [send_message_safe ?c ?t] =>
      destruct (Hsend t w2 H2) as (w3 & Hrun3 & H3)
  end.
  rewrite (bind_ok _ _ _ Hrun3).
  match goal with
  | |- context [notify ?u ?t] =>
      destruct (notify_run u t w3) as (w4 & Hrun4 & Hs4)
  end.
  exists w4. split; [exact Hrun4 |].
  apply (Hkeep w3); [exact H3 | apply (same_data_users Hs4)].
Qed.

(** The owner grants 100 daily points to user 7; 101 are refused. *)
Example give_points_evaluated :
  let w := sample_world [sample_user 7 3 0 this_morning] in
  let give n := handle_give_points (main_bot 1)
                  (admin_request 1 [str "givepoints"; str "7"; n;
                                    str "daily"]) w in
  map daily_points (users_collection (snd (give (str "100")))) = [103] /\
  map daily_points (users_collection (snd (give (str "101")))) = [3].
Proof. cbv zeta. split; vm_compute; reflexivity. Qed.

Lemma int_of_str_not_all t n :
  int_of_str t = Some n -> str_eqb (lower t) (str "all") = false.
Proof.
  destruct t as [| c t]; [discriminate |].
  unfold int_of_str.
  destruct (str_eqb (lower (c :: t)) (str "all")) eqn:E; [| reflexivity].
  apply str_eqb_eq in E. cbn in E. injection E as Hc _.
  assert (Hcases : c = "a"%char \/ c = "A"%char).
  { destruct c as [[] [] [] [] [] [] [] []]; cbv in Hc;
      try discriminate; auto. }
  destruct Hcases as [-> | ->]; cbn; discriminate.
Qed.

(** X20: a caller who passes the admin check and sends [/resetpoints]
    with an id that reads as 0 refills the daily balance of every stored
    user -- the reset of one user falls through to the reset of all,
    which [/resetpoints all] reserves to the owner. *)
Theorem resetpoints_zero_resets_everyone (bot : Bot) (message : TgMessage)
    (w : World) :
  handlers_is_admin bot (from_user_id message) = true ->
  (2 <= List.length (command message))%nat ->
  int_of_str (nth 1 (command message) []) = Some 0 ->
  exists w',
    handle_reset_points bot message w = (Ok tt, w') /\
    forall k u,
      stored_user k w = Some u ->
      stored_user k w'
      = Some (reset_update (settings bot)
                (datetime_now (TIMEZONE (settings bot)) (next_instant w)) u).
Proof.
  intros Hadm Hlen Hint.
  set (P := fun w' : World =>
    forall k u,
      stored_user k w = Some u ->
      stored_user k w'
      = Some (reset_update (settings bot)
                (datetime_now (TIMEZONE (settings bot)) (next_instant w)) u)).
  assert (Hkeep : forall w0 w1,
            P w0 -> users_collection w1 = users_collection w0 -> P w1).
  { intros w0 w1 H0 Hu k u Hst. unfold stored_user in *. rewrite Hu.
    now apply H0. }
  assert (Hsend : forall text w0,
            P w0 ->
            exists w',
              send_message_safe (chat_id message) text w0 = (Ok tt, w') /\
              P w').
  { intros text w0 H0.
    destruct (send_message_safe_run (chat_id message) text w0)
      as (w' & Hrun & Hs).
    exists w'. split; [exact Hrun |].
    apply (Hkeep w0); [exact H0 | apply (same_data_users Hs)]. }
  change (exists w', handle_reset_points bot message w = (Ok tt, w') /\ P w').
  unfold handle_reset_points. apply try_except_ok_ex.
  rewrite Hadm. cbn [negb].
  replace (List.length (command message) <? 2)%nat with false
    by (symmetry; apply Nat.ltb_ge; lia).
  cbv zeta. rewrite (int_of_str_not_all _ Hint), Hint.
  unfold manual_reset_user_points. unfold bind at 1 2.
  pose proof (reset_daily_points_run (settings bot) (Some 0) w) as Hrun.
  cbv zeta in Hrun.
  change (truthy (Some 0)) with false in Hrun. cbv iota in Hrun.
  rewrite Hrun. unfold ret.
  set (w1 := with_users _ (tick_clock w)).
  assert (H1 : P w1).
  { intros k u Hst. unfold stored_user, w1 in *.
    cbn [users_collection with_users tick_clock].
    rewrite find_map_users by (apply reset_update_user_id).
    now rewrite Hst. }
  clearbody w1.
  destruct (0 <? _); [| now apply Hsend].
  destruct (get_user_run 0 w1) as (w2 & Hget & Hu2 & _).
  rewrite (bind_ok _ _ _ Hget).
  assert (H2 : P w2) by (apply (Hkeep w1); assumption).
  match goal with
  | |- context [send_message_safe ?c ?t] =>
      destruct (Hsend t w2 H2) as (w3 & Hrun3 & H3)
  end.
  rewrite (bind_ok _ _ _ Hrun3).
  match goal with
  | |- context [notify ?u ?t] =>
      destruct (notify_run u t w3) as (w4 & Hrun4 & Hs4)
  end.
  exists w4. split; [exact Hrun4 |].
  apply (Hkeep w3); [exact H3 | apply (same_data_users Hs4)].
Qed.

(** On a clone run for user 5, user 5 is refused [/resetpoints all] and
    resets both stored users with [/resetpoints 0]. *)
Lemma resetpoints_zero_resets_everyone_witness :
  let clone := {| settings := default_settings 1; is_clone := true;
                  clone_admin_id := Some 5 |} in
  let w := sample_world [sample_user 7 0 0 this_morning;
                         sample_user 8 1 2 this_morning] in
  map daily_points
    (users_collection
       (snd (handle_reset_points clone
               (admin_request 5 [str "resetpoints"; str "all"]) w)))
  = [0; 1] /\
  exists w',
    handle_reset_points clone
      (admin_request 5 [str "resetpoints"; str "0"]) w = (Ok tt, w') /\
    option_map daily_points (stored_user 7 w') = Some 3 /\
    option_map daily_points (stored_user 8 w') = Some 3.
Proof.
  cbv zeta. split; [vm_compute; reflexivity |].
  destruct (@resetpoints_zero_resets_everyone
              {| settings := default_settings 1; is_clone := true;
                 clone_admin_id := Some 5 |}
              (admin_request 5 [str "resetpoints"; str "0"])
              (sample_world [sample_user 7 0 0 this_morning;
                             sample_user 8 1 2 this_morning]))
    as (w' & Hrun & Hall);
    [reflexivity | cbn; lia | reflexivity |].
  exists w'. split; [exact Hrun |].
  rewrite (Hall 7 (sample_user 7 0 0 this_morning) eq_refl).
  rewrite (Hall 8 (sample_user 8 1 2 this_morning) eq_refl).
  split; reflexivity.
Defined.

(** ** Cancelling a broadcast, clearing a memory *)

(** X21: [handle_cancel_broadcast] makes no admin check: whoever presses
    the button, once the edit of the message goes through the pending
    broadcast is dropped, and no confirmation carries it out any more. *)
Theorem cancel_broadcast_needs_no_admin (bot : Bot) (cq : CallbackQuery)
    (w : World) :
  network w (network_calls w) = true ->
  exists w',
    handle_cancel_broadcast cq w = (Ok tt, w') /\
    pending_broadcast w' = None /\
    users_collection w' = users_collection w /\
    forall cq2 r2 w2,
      handle_confirm_broadcast bot cq2 w' <> (Ok (Some r2), w2).
Proof.
  intros Hnet.
  unfold handle_cancel_broadcast, try_except, edit_message_text, bind.
  destruct (client_send_run (cq_chat_id cq)
              (str "✅ Broadcast dibatalkan.") w) as [[_ ->] | [H _]];
    [| congruence].
  unfold modify. eexists. split; [reflexivity |].
  split; [reflexivity |]. split; [reflexivity |].
  intros cq2 r2 w2 Hagain.
  destruct (@confirm_broadcast_outcome _ _ _ _ _ Hagain)
    as (_ & (text & Hp) & _).
  discriminate.
Qed.

(** User 9, who is no admin, cancels the broadcast the owner prepared. *)
Lemma cancel_broadcast_needs_no_admin_witness :
  let w := with_pending_broadcast (Some (str "Halo", 1))
             (sample_world [sample_user 1 3 0 this_morning;
                            sample_user 9 3 0 this_morning]) in
  is_admin (main_bot 1) 9 = false /\
  exists w',
    handle_cancel_broadcast {| cq_from_user_id := 9; cq_chat_id := 9 |} w
    = (Ok tt, w') /\
    pending_broadcast w' = None.
Proof.
  cbv zeta. split; [reflexivity |].
  destruct (@cancel_broadcast_needs_no_admin (main_bot 1)
              {| cq_from_user_id := 9; cq_chat_id := 9 |}
              (with_pending_broadcast (Some (str "Halo", 1))
                 (sample_world [sample_user 1 3 0 this_morning;
                                sample_user 9 3 0 this_morning])))
    as (w' & Hrun & Hnone & _); [reflexivity |].
  exists w'. split; [exact Hrun | exact Hnone].
Defined.

Lemma answer_frame cq text w :
  let w' := snd (answer cq text w) in
  users_collection w' = users_collection w /\
  conversations_collection w' = conversations_collection w.
Proof.
  cbv zeta. unfold answer.
  destruct (client_send_run (cq_from_user_id cq) text w)
    as [[_ ->] | [_ ->]]; split; reflexivity.
Qed.

(** X22: a caller who does not pass the admin check can clear no memory
    but their own: whatever the callback data, the conversations of all
    other users and the users collection are left as they were. *)
Theorem clear_memory_is_for_oneself (bot : Bot) (int_ : pystr -> option Z)
    (cq : CallbackQuery) (data : pystr) (w : World) :
  is_admin bot (cq_from_user_id cq) = false ->
  let w' := snd (handle_clear_memory_confirm bot int_ cq data w) in
  users_collection w' = users_collection w /\
  forall k, k <> cq_from_user_id cq ->
            stored_conversation k w' = stored_conversation k w.
Proof.
  intros Hadm. cbv zeta.
  set (P := fun w' : World =>
    users_collection w' = users_collection w /\
    forall k, k <> cq_from_user_id cq ->
              stored_conversation k w' = stored_conversation k w).
  assert (Hkeep : forall w0 w1,
            P w0 -> users_collection w1 = users_collection w0 ->
            conversations_collection w1 = conversations_collection w0 ->
            P w1).
  { intros w0 w1 [Ha Hb] Hu Hc. split; [congruence |].
    intros k Hk. unfold stored_conversation in *. rewrite Hc.
    now apply Hb. }
  assert (Hanswer : forall text w0, P w0 -> P (snd (answer cq text w0))).
  { intros text w0 H0. destruct (answer_frame cq text w0) as [Hu Hc].
    now apply (Hkeep w0). }
  assert (Hedit : forall text text' w0,
            P w0 ->
            P (snd (try_except
                      (_ <- edit_message_text cq text ;; answer cq text')
                      (fun _ => answer cq (str "❌ Terjadi kesalahan."))
                      w0))).
  { intros text text' w0 H0.
    unfold try_except, edit_message_text, bind.
    destruct (client_send_run (cq_chat_id cq) text w0)
      as [[_ ->] | [_ ->]].
    - set (w1 := with_sent _ _).
      assert (H1 : P w1) by (apply (Hkeep w0); auto).
      clearbody w1.
      pose proof (Hanswer text' w1 H1) as H2.
      destruct (answer cq text' w1) as [[[] | e |] w2]; cbn [snd] in *;
        auto.
    - apply Hanswer. apply (Hkeep w0); auto. }
  assert (HP0 : P w) by (split; auto).
  change (P (snd (handle_clear_memory_confirm bot int_ cq data w))).
  unfold handle_clear_memory_confirm.
  destruct (3 <=? _)%nat; [| exact HP0].
  destruct (int_ _) as [uid |].
  2:{ unfold try_except, raise. now apply Hanswer. }
  rewrite Hadm. cbn [negb]. rewrite andb_true_r.
  destruct (cq_from_user_id cq =? uid) eqn:Hid; cbn [negb].
  - apply Z.eqb_eq in Hid. subst uid.
    destruct (clear_conversation_run (settings bot) (cq_from_user_id cq) w)
      as (b & w1 & Hrun & _ & Hu & _ & _ & _ & _ & Hothers).
    assert (H1 : P w1) by (split; assumption).
    unfold try_except at 1. rewrite (bind_ok _ _ _ Hrun).
    destruct b.
    + match goal with
      | |- context [edit_message_text cq ?t ;;; answer cq ?t'] =>
          exact (Hedit t t' w1 H1)
      | |- context [bind (edit_message_text cq ?t) (fun _ => answer cq ?t')] =>
          exact (Hedit t t' w1 H1)
      end.
    + match goal with
      | |- context [bind (edit_message_text cq ?t) (fun _ => answer cq ?t')] =>
          exact (Hedit t t' w1 H1)
      end.
  - unfold try_except.
    match goal with
    | |- context [answer cq ?t w] =>
        pose proof (Hanswer t w HP0) as H1;
        destruct (answer cq t w) as [[[] | e |] w1]; cbn [snd] in *; auto
    end.
Qed.

(** User 9 presses a button that names the memory of user 7. *)
Lemma clear_memory_is_for_oneself_witness :
  let w := sample_world [sample_user 7 3 0 this_morning] in
  let w1 := snd (memory_add_message (default_settings 1) 7 (str "user")
                   (str "Halo") (str "text") no_kwargs w) in
  let w2 := snd (handle_clear_memory_confirm (main_bot 1) int_of_str
                   {| cq_from_user_id := 9; cq_chat_id := 9 |}
                   (str "clear_memory_7") w1) in
  List.length (stored_messages 7 w1) = 1%nat /\
  stored_conversation 7 w2 = stored_conversation 7 w1.
Proof.
  cbv zeta. split; [vm_compute; reflexivity |].
  apply (@clear_memory_is_for_oneself (main_bot 1) int_of_str
           {| cq_from_user_id := 9; cq_chat_id := 9 |}
           (str "clear_memory_7")
           (snd (memory_add_message (default_settings 1) 7 (str "user")
                   (str "Halo") (str "text") no_kwargs
                   (sample_world [sample_user 7 3 0 this_morning])))).
  - reflexivity.
  - cbn. lia.
Defined.

(** The same button pressed by user 7 empties the memory. *)
Example clear_memory_of_oneself :
  let w := sample_world [sample_user 7 3 0 this_morning] in
  let w1 := snd (memory_add_message (default_settings 1) 7 (str "user")
                   (str "Halo") (str "text") no_kwargs w) in
  let w2 := snd (handle_clear_memory_confirm (main_bot 1) int_of_str
                   {| cq_from_user_id := 7; cq_chat_id := 7 |}
                   (str "clear_memory_7") w1) in
  stored_messages 7 w2 = [].
Proof. cbv zeta. vm_compute. reflexivity. Qed.

(** ** Helpers on texts *)



(** With a limit below the length of the suffix the slice counts from
    the end, and the result is longer than the limit. *)
Example truncate_text_below_suffix :
  truncate_text (str "0123456789") 1 (str "...") = str "01234567...".
Proof. reflexivity. Qed.

Lemma escape_char_app c t1 t2 :
  escape_char c (t1 ++ t2) = escape_char c t1 ++ escape_char c t2.
Proof. unfold escape_char. apply flat_map_app. Qed.

Lemma escape_char_absent c t :
  ~ In c t -> escape_char c t = t.
Proof.
  unfold escape_char. induction t as [| x t IH]; [reflexivity |].
  intros Hout. cbn [flat_map].
  destruct (Ascii.eqb x c) eqn:E.
  - apply Ascii.eqb_eq in E. subst. exfalso. apply Hout. now left.
  - cbn. f_equal. apply IH. intros H. apply Hout. now right.
Qed.

Lemma escape_all_app cs : forall t1 t2,
  fold_left (fun t c => escape_char c t) cs (t1 ++ t2)
  = fold_left (fun t c => escape_char c t) cs t1
    ++ fold_left (fun t c => escape_char c t) cs t2.
Proof.
  induction cs as [| c cs IH]; intros t1 t2; cbn [fold_left];
    [reflexivity |].
  now rewrite escape_char_app, IH.
Qed.

Lemma escape_all_absent cs : forall t,
  (forall c, In c cs -> ~ In c t) ->
  fold_left (fun t c => escape_char c t) cs t = t.
Proof.
  induction cs as [| c cs IH]; intros t Hout; cbn [fold_left];
    [reflexivity |].
  rewrite escape_char_absent by (apply Hout; now left).
  apply IH. intros c' Hc'. apply Hout. now right.
Qed.

Lemma escape_all_single cs : forall x,
  NoDup cs -> ~ In "\"%char cs ->
  fold_left (fun t c => escape_char c t) cs [x]
  = if existsb (Ascii.eqb x) cs then ["\"%char; x] else [x].
Proof.
  induction cs as [| c cs IH]; intros x Hnd Hbs; cbn [fold_left existsb];
    [reflexivity |].
  inversion Hnd as [| ? ? Hc Hnd']; subst.
  unfold escape_char at 2. cbn [flat_map app].
  destruct (Ascii.eqb x c) eqn:E; cbn [orb].
  - apply Ascii.eqb_eq in E. subst x.
    apply escape_all_absent. intros c' Hc' [<- | [<- | []]].
    + apply Hbs. now right.
    + contradiction.
  - apply IH; [exact Hnd' |]. intros H. apply Hbs. now right.
Qed.

(** X24: the eighteen replacements of [escape_markdown], made one after
    the other, amount to a single pass: every special character gets one
    backslash in front of it, and nothing is escaped twice. *)
Theorem escape_markdown_single_pass (text : pystr) :
  escape_markdown text
  = flat_map (fun x => if existsb (Ascii.eqb x) special_chars
                       then ["\"%char; x] else [x]) text /\
  len (escape_markdown text)
  = len text
    + count_if (fun x => existsb (Ascii.eqb x) special_chars) text.
Proof.
  assert (Hnd : NoDup special_chars).
  { unfold special_chars.
    repeat (constructor;
            [cbn; intros H;
             repeat (destruct H as [H | H]; [discriminate |]);
             exact H |]).
    constructor. }
  assert (Hbs : ~ In "\"%char special_chars).
  { cbn. intros H.
    repeat (destruct H as [H | H]; [discriminate |]). exact H. }
  assert (Heq : escape_markdown text
                = flat_map (fun x => if existsb (Ascii.eqb x) special_chars
                                     then ["\"%char; x] else [x]) text).
  { unfold escape_markdown.
    induction text as [| x text IH]; [reflexivity |].
    change (x :: text) with ([x] ++ text).
    rewrite escape_all_app, IH, (escape_all_single x Hnd Hbs).
    reflexivity. }
  split; [exact Heq |]. rewrite Heq. clear Heq.
  induction text as [| x text IH]; [reflexivity |].
  rewrite count_if_cons. cbn [flat_map]. unfold len in *.
  rewrite length_app. cbn [List.length] in *.
  destruct (existsb _ _); cbn [List.length]; lia.
Qed.

(** A file name with an underscore, a dot and a backslash. *)
Example escape_markdown_evaluated :
  escape_markdown ("a"%char :: "_"%char :: "b"%char :: "."%char ::
                   "\"%char :: "c"%char :: nil)
  = "a"%char :: "\"%char :: "_"%char :: "b"%char :: "\"%char ::
    "."%char :: "\"%char :: "c"%char :: nil.
Proof. reflexivity. Qed.

(** ** What the splitter keeps *)

Lemma without_newlines_app t1 t2 :
  without_newlines (t1 ++ t2) = without_newlines t1 ++ without_newlines t2.
Proof. apply filter_app. Qed.

Lemma without_newlines_lstrip t :
  without_newlines (lstrip newline t) = without_newlines t.
Proof.
  induction t as [| x t IH]; [reflexivity |].
  cbn [lstrip]. destruct (Ascii.eqb x newline) eqn:E; [| reflexivity].
  unfold without_newlines at 2. cbn [filter]. rewrite E. exact IH.
Qed.

Lemma split_loop_keeps (max_length : nat) (fuel : nat) :
  (0 < max_length)%nat ->
  forall text chunks,
    (List.length text < fuel)%nat ->
    exists res,
      split_loop max_length fuel text chunks = Some res /\
      without_newlines (List.concat res)
      = without_newlines (List.concat chunks ++ text).
Proof.
  intros Hpos. induction fuel as [| fuel IH]; intros text chunks Hfuel;
    [lia |].
  destruct (Nat.le_gt_cases (List.length text) max_length) as [Hs | Hl].
  - rewrite split_loop_stop by assumption. eexists.
    split; [reflexivity |].
    destruct text; [now rewrite app_nil_r |].
    rewrite concat_app. cbn [List.concat]. now rewrite app_nil_r.
  - rewrite split_loop_step by assumption.
    pose proof (@remainder_shorter max_length Hpos text Hl) as Hr.
    destruct (IH (remainder max_length text)
                (chunks ++ [firstn (split_pos max_length text) text]))
      as (res & Hrun & Hkeep); [lia |].
    exists res. split; [exact Hrun |]. rewrite Hkeep.
    rewrite concat_app. cbn [List.concat]. rewrite app_nil_r.
    rewrite <- app_assoc, !without_newlines_app. f_equal.
    unfold remainder. rewrite without_newlines_lstrip.
    rewrite <- without_newlines_app. now rewrite firstn_skipn.
Qed.

(** X25: splitting loses nothing but newlines: the chunks of
    [_split_message], and those of [split_text_by_length] for any
    positive limit, put end to end hold the characters of the text other
    than newlines, in the same order. *)
Theorem split_keeps_characters (text : pystr) :
  (exists chunks,
     _split_message text = Some chunks /\
     without_newlines (List.concat chunks) = without_newlines text) /\
  forall max_length,
    (0 < max_length)%nat ->
    exists chunks,
      split_text_by_length text max_length = Some chunks /\
      without_newlines (List.concat chunks) = without_newlines text.
Proof.
  split.
  - unfold _split_message.
    apply (@split_loop_keeps MAX_MESSAGE_LENGTH (S (List.length text)));
      [unfold MAX_MESSAGE_LENGTH; lia | lia].
  - intros max_length Hpos. unfold split_text_by_length.
    destruct (_ <=? _)%nat.
    + eexists. split; [reflexivity |]. cbn. now rewrite app_nil_r.
    + apply (@split_loop_keeps max_length (S (List.length text)));
        [exact Hpos | lia].
Qed.

(** Six characters split at a limit of four: the newline at the cut is
    dropped, the letters stay. *)
Lemma split_keeps_characters_witness :
  split_text_by_length (str "ab" ++ nl ++ str "cde") 4
  = Some [str "ab"; str "cde"] /\
  exists chunks,
    split_text_by_length (str "ab" ++ nl ++ str "cde") 4 = Some chunks /\
    without_newlines (List.concat chunks) = str "abcde".
Proof.
  split; [reflexivity |].
  destruct (proj2 (split_keeps_characters (str "ab" ++ nl ++ str "cde"))
              4%nat) as (chunks & Hrun & Hkeep); [lia |].
  exists chunks. split; [exact Hrun | exact Hkeep].
Defined.




(** ** The indexes of the users collection *)

Lemma update_one_codes_at uid f docs d :
  find (fun x => user_id x =? uid) docs = Some d ->
  referral_code (f d) = referral_code d ->
  codes_in_use (update_one uid f docs) = codes_in_use docs.
Proof.
  intros Hf Hd. unfold codes_in_use.
  induction docs as [| x docs IH]; [reflexivity |].
  cbn in Hf. cbn [update_one]. destruct (user_id x =? uid).
  - injection Hf as ->. cbn [flat_map]. now rewrite Hd.
  - cbn [flat_map]. now rewrite IH.
Qed.

Lemma find_none_not_in uid docs :
  find (fun d => user_id d =? uid) docs = None ->
  ~ In uid (map user_id docs).
Proof.
  induction docs as [| x docs IH]; cbn; [auto |].
  destruct (user_id x =? uid) eqn:E; [discriminate |].
  apply Z.eqb_neq in E. intros Hf [H | H]; [contradiction |].
  now apply IH.
Qed.

Lemma code_not_in_use code docs :
  find (fun d => opt_str_eqb (referral_code d) code) docs = None ->
  ~ In code (codes_in_use docs).
Proof.
  unfold codes_in_use.
  induction docs as [| x docs IH]; cbn; [auto |].
  destruct (opt_str_eqb (referral_code x) code) eqn:E; [discriminate |].
  intros Hf Hin. apply in_app_or in Hin. destruct Hin as [Hin | Hin].
  - destruct (referral_code x) as [c |]; [| contradiction].
    destruct Hin as [-> | []]. cbn in E.
    rewrite str_eqb_refl in E. discriminate.
  - now apply IH.
Qed.

Lemma NoDup_app_single {A} (l : list A) a :
  NoDup l -> ~ In a l -> NoDup (l ++ [a]).
Proof.
  intros Hl Ha. apply NoDup_app; [exact Hl | repeat constructor; auto |].
  intros x Hx [<- | []]. contradiction.
Qed.

Lemma find_app_other {A} (p : A -> bool) l x :
  p x = false -> find p (l ++ [x]) = find p l.
Proof.
  intros Hp. induction l as [| y l IH]; cbn; [now rewrite Hp |].
  destruct (p y); [reflexivity | exact IH].
Qed.

Lemma generate_code_fresh fuel : forall w code w',
  _generate_unique_referral_code fuel w = (Ok code, w') ->
  users_collection w' = users_collection w /\
  user_with_code code w = None.
Proof.
  induction fuel as [| fuel IH]; intros w code w'; cbn; [discriminate |].
  unfold bind, draw_code, get.
  cbn [users_collection tick_codes].
  destruct (find _ (users_collection w)) as [d |] eqn:E.
  - intros H. apply IH in H. cbn [users_collection tick_codes] in H.
    destruct H as [Hu Hc]. split; [exact Hu |].
    unfold user_with_code in *. exact Hc.
  - unfold ret. intros [= <- <-]. split; [reflexivity | exact E].
Qed.

(** X27: [get_or_create_user] respects the two unique indexes of the
    users collection: when it returns, no [user_id] and no referral code
    occurs twice, the user returned is the one stored under the id asked
    for, and the other users are as before.  A new user gets a code no
    stored user holds. *)
Theorem get_or_create_user_keeps_indexes (s : Settings) (fuel : nat)
    (uid : Z) (fname uname : option pystr) (w w' : World) (u : User) :
  unique_ids w ->
  unique_codes w ->
  get_or_create_user s fuel uid fname uname w = (Ok u, w') ->
  unique_ids w' /\ unique_codes w' /\
  stored_user uid w' = Some u /\ user_id u = uid /\
  (forall k, k <> uid -> stored_user k w' = stored_user k w) /\
  (stored_user uid w = None ->
   exists code, referral_code u = Some code /\
                user_with_code code w = None).
Proof.
  intros Hids Hcodes. unfold get_or_create_user.
  destruct (get_user_run uid w) as (w1 & Hget & Hu1 & _).
  rewrite (bind_ok _ _ _ Hget).
  destruct (stored_user uid w) as [d |] eqn:Hst.
  - unfold bind, update_user, modify, ret. rewrite now_run.
    intros [= <- <-].
    assert (Hid : user_id d = uid).
    { unfold stored_user in Hst. apply find_some in Hst.
      now apply Z.eqb_eq. }
    assert (Hid' : user_id (update_activity s (next_instant w1) d) = uid)
      by (now destruct d).
    unfold unique_ids, unique_codes, stored_user in *.
    cbn [users_collection with_users tick_clock].
    change (user_id (update_activity s (next_instant w1) d))
      with (user_id d).
    rewrite !Hid, Hu1.
    split; [rewrite update_one_ids; [exact Hids | auto] |].
    split; [rewrite (@update_one_codes_at uid _ _ d Hst);
            [exact Hcodes | now destruct d] |].
    split; [rewrite update_one_same by auto; now rewrite Hst |].
    split; [reflexivity |].
    split; [intros k Hk; now apply update_one_other | discriminate].
  - unfold create_user. unfold bind at 1.
    destruct (_generate_unique_referral_code fuel w1)
      as [[code | e |] w2] eqn:Hgen; try discriminate.
    apply generate_code_fresh in Hgen. destruct Hgen as [Hu2 Hfresh].
    unfold bind, modify, ret. rewrite !now_run.
    intros [= <- <-].
    unfold unique_ids, unique_codes, stored_user, user_with_code in *.
    cbn [users_collection with_users tick_clock].
    rewrite Hu2, Hu1 in *.
    split.
    { rewrite map_app. cbn [map]. apply NoDup_app_single; [exact Hids |].
      now apply find_none_not_in. }
    split.
    { unfold codes_in_use in *. rewrite flat_map_app. cbn [flat_map].
      rewrite app_nil_r. apply NoDup_app_single; [exact Hcodes |].
      now apply code_not_in_use. }
    split; [apply find_app_missing; [exact Hst | apply Z.eqb_refl] |].
    split; [reflexivity |].
    split.
    { intros k Hk. apply find_app_other. cbn. apply Z.eqb_neq. lia. }
    intros _. exists code. split; [reflexivity | exact Hfresh].
Qed.

(** User 9 writes for the first time, to a bot that knows user 7. *)
Lemma get_or_create_user_keeps_indexes_witness :
  let w := sample_world [sample_user 7 3 0 this_morning] in
  exists u w',
    get_or_create_user (default_settings 1) 2 9 None None w = (Ok u, w') /\
    unique_ids w' /\ unique_codes w' /\
    stored_user 9 w' = Some u /\
    referral_code u = Some (str "AAAAAAAA").
Proof.
  cbv zeta.
  set (w := sample_world [sample_user 7 3 0 this_morning]).
  set (r := get_or_create_user (default_settings 1) 2 9 None None w).
  set (u := new_user (default_settings 1) noon noon noon 9 None None
              (Some (str "AAAAAAAA"))).
  assert (Hrun : r = (Ok u, snd r)).
  { rewrite (surjective_pairing r) at 1.
    apply pair_equal_spec. split; [vm_compute |]; reflexivity. }
  assert (Hids : unique_ids w).
  { unfold unique_ids. cbn. repeat constructor. intros []. }
  assert (Hcodes : unique_codes w).
  { unfold unique_codes. cbn. repeat constructor. intros []. }
  destruct (@get_or_create_user_keeps_indexes (default_settings 1) 2 9
              None None w (snd r) u Hids Hcodes Hrun)
    as (H1 & H2 & H3 & _).
  exists u, (snd r). repeat split; assumption.
Defined.

(** ** The optimiser of the memory *)

Lemma update_one_conversation_forall (P : Conversation -> Prop) uid c docs :
  forall docs',
    update_one_conversation uid c docs = Some docs' ->
    Forall P docs -> P c -> Forall P docs'.
Proof.
  induction docs as [| x docs IH]; intros docs' Hup Hall Hc;
    [discriminate |].
  cbn in Hup. inversion Hall as [| ? ? Hx Hrest]; subst.
  destruct (conv_user_id x =? uid).
  - injection Hup as <-. now constructor.
  - destruct (update_one_conversation uid c docs) as [ds |];
      [| discriminate].
    injection Hup as <-. constructor; [exact Hx | now apply IH].
Qed.

Lemma get_or_create_conversation_capped (s : Settings) uid w :
  capped w ->
  exists conv w1,
    get_or_create_conversation s uid w = (Ok conv, w1) /\
    capped w1 /\ stored_conversation uid w1 = Some conv /\
    users_collection w1 = users_collection w.
Proof.
  intros Hcap. unfold get_or_create_conversation.
  destruct (get_conversation_run uid w) as (w1 & Hrun & Hc1).
  pose proof (get_conversation_frame uid w) as Hfr.
  rewrite Hrun in Hfr. cbn [snd] in Hfr. destruct Hfr as (Hu1 & _).
  rewrite (bind_ok _ _ _ Hrun).
  destruct (stored_conversation uid w) as [d |] eqn:Hfind.
  - exists d, w1. split; [reflexivity |].
    split; [unfold capped; now rewrite Hc1 |].
    split; [unfold stored_conversation in *; now rewrite Hc1 | exact Hu1].
  - unfold create_conversation, bind, ret, modify. rewrite !now_run.
    eexists _, _. split; [reflexivity |].
    unfold capped, stored_conversation in *.
    cbn [conversations_collection users_collection tick_clock
         with_conversations].
    rewrite Hc1.
    split; [apply Forall_app; split; [exact Hcap |];
            constructor; [cbn; lia | constructor] |].
    split; [apply find_app_missing; [exact Hfind | cbn; apply Z.eqb_refl]
           | exact Hu1].
Qed.

(** X28: the cap of 50 messages is an invariant of the memory service,
    and under it the optimiser has nothing to do: from a store in which
    no conversation exceeds the cap, [add_message] leads to such a store
    again, and [optimize_memory_usage] answers [True] for every user
    without rewriting any conversation. *)
Theorem cap_keeps_optimizer_idle (s : Settings) (w : World) :
  capped w ->
  (forall uid r c mt kw,
     exists w',
       memory_add_message s uid r c mt kw w = (Ok tt, w') /\ capped w') /\
  (forall uid,
     exists w',
       optimize_memory_usage s uid w = (Ok true, w') /\
       conversations_collection w' = conversations_collection w /\
       users_collection w' = users_collection w).
Proof.
  intros Hcap. split.
  - intros uid r c mt kw. unfold memory_add_message.
    destruct (get_or_create_conversation_capped s uid Hcap)
      as (conv & w1 & Hrun & Hcap1 & Hstored & _).
    rewrite (bind_ok _ _ _ Hrun).
    unfold bind, modify. rewrite !now_run.
    cbn [conversations_collection tick_clock].
    set (a := {| ap_role := r; ap_content := c; ap_type := mt;
                 ap_kwargs := kw; ap_t1 := next_instant w1;
                 ap_t2 := next_instant (tick_clock w1) |}).
    destruct (@update_one_conversation_found uid (add_message s a conv)
                _ conv Hstored) as (docs' & Hup & _).
    { cbn. unfold stored_conversation in Hstored.
      apply find_some in Hstored. now apply Z.eqb_eq. }
    rewrite Hup. eexists. split; [reflexivity |].
    unfold capped. cbn [conversations_collection with_conversations].
    eapply update_one_conversation_forall; [exact Hup | exact Hcap1 |].
    cbv beta. rewrite add_message_messages, lastn_length.
    unfold MAX_MEMORY_MESSAGES. lia.
  - intros uid. unfold optimize_memory_usage.
    destruct (get_conversation_run uid w) as (w1 & Hrun & Hc1).
    pose proof (get_conversation_frame uid w) as Hfr.
    rewrite Hrun in Hfr. cbn [snd] in Hfr. destruct Hfr as (Hu1 & _).
    rewrite (bind_ok _ _ _ Hrun).
    destruct (stored_conversation uid w) as [c |] eqn:Hst.
    + assert (Hlen : (List.length (messages c) <= MAX_MEMORY_MESSAGES)%nat).
      { unfold stored_conversation in Hst. apply find_some in Hst.
        destruct Hst as [Hin _]. unfold capped in Hcap.
        rewrite Forall_forall in Hcap. now apply Hcap. }
      apply Nat.leb_le in Hlen. rewrite Hlen.
      exists w1. repeat split; assumption.
    + exists w1. repeat split; assumption.
Qed.

(** A store with no conversation at all takes its first message. *)
Lemma cap_keeps_optimizer_idle_witness :
  let w := sample_world [sample_user 7 3 0 this_morning] in
  exists w1 w2,
    memory_add_message (default_settings 1) 7 (str "user") (str "Halo")
      (str "text") no_kwargs w = (Ok tt, w1) /\
    capped w1 /\
    optimize_memory_usage (default_settings 1) 7 w = (Ok true, w2).
Proof.
  cbv zeta.
  destruct (@cap_keeps_optimizer_idle (default_settings 1)
              (sample_world [sample_user 7 3 0 this_morning]))
    as [Hadd Hopt]; [constructor |].
  destruct (Hadd 7 (str "user") (str "Halo") (str "text") no_kwargs)
    as (w1 & Hrun1 & Hcap1).
  destruct (Hopt 7) as (w2 & Hrun2 & _).
  exists w1, w2. auto.
Defined.

Lemma slice_to_Z_neg {A} (n : nat) (l : list A) :
  (0 < n)%nat ->
  slice_to_Z (- Z.of_nat n) l = firstn (List.length l - n) l.
Proof.
  intros H. unfold slice_to_Z, len.
  replace (- Z.of_nat n <? 0) with true by (symmetry; apply Z.ltb_lt; lia).
  f_equal. lia.
Qed.

(** X29: a stored conversation of more than 50 messages -- which only a
    writer other than [add_message] can have left -- is replaced by one
    summary message of the assistant followed by its last 25 messages;
    the summary states how many messages it stands for, all but those
    25. *)
Theorem optimizer_keeps_the_last_25 (s : Settings) (uid : Z) (w : World)
    (c : Conversation) :
  stored_conversation uid w = Some c ->
  (50 < List.length (messages c))%nat ->
  exists w' summary,
    optimize_memory_usage s uid w = (Ok true, w') /\
    stored_messages uid w' = summary :: lastn 25 (messages c) /\
    role summary = str "assistant" /\
    message_type summary = str "text" /\
    content summary = summary_text (len (messages c) - 25) /\
    List.length (stored_messages uid w') = 26%nat /\
    users_collection w' = users_collection w.
Proof.
  intros Hst Hlong. unfold optimize_memory_usage.
  destruct (get_conversation_run uid w) as (w1 & Hrun & Hc1).
  pose proof (get_conversation_frame uid w) as Hfr.
  rewrite Hrun in Hfr. cbn [snd] in Hfr. destruct Hfr as (Hu1 & _).
  rewrite (bind_ok _ _ _ Hrun), Hst.
  replace (List.length (messages c) <=? MAX_MEMORY_MESSAGES)%nat
    with false
    by (symmetry; apply Nat.leb_gt; unfold MAX_MEMORY_MESSAGES; lia).
  cbv zeta.
  change ((- Z.of_nat MAX_MEMORY_MESSAGES) / 2) with (- Z.of_nat 25).
  rewrite slice_from_neg, slice_to_Z_neg by lia.
  destruct (firstn (List.length (messages c) - 25) (messages c))
    as [| m0 old] eqn:Hold.
  { apply (f_equal (@List.length _)) in Hold.
    rewrite length_firstn in Hold. cbn in Hold. lia. }
  assert (Holdlen : len (m0 :: old) = len (messages c) - 25).
  { rewrite <- Hold. unfold len. rewrite length_firstn. lia. }
  rewrite Holdlen.
  unfold bind, get, modify, ret. rewrite now_run.
  cbn [conversations_collection tick_clock].
  assert (Hid : conv_user_id c = uid).
  { unfold stored_conversation in Hst. apply find_some in Hst.
    now apply Z.eqb_eq. }
  assert (Hfind : find (fun d => conv_user_id d =? uid)
                    (conversations_collection w1) = Some c)
    by (rewrite Hc1; exact Hst).
  match goal with
  | |- context [update_one_conversation uid ?c' _] =>
      destruct (@update_one_conversation_found uid c'
                  (conversations_collection w1) c Hfind Hid)
        as (docs' & Hup & Hnew)
  end.
  rewrite Hup. eexists _, _. split; [reflexivity |].
  unfold stored_messages, stored_conversation.
  cbn [conversations_collection users_collection with_conversations
       tick_clock].
  rewrite Hnew. cbn [messages].
  split; [reflexivity |]. split; [reflexivity |]. split; [reflexivity |].
  split; [reflexivity |].
  split; [cbn [List.length]; rewrite lastn_length; lia | exact Hu1].
Qed.

(** Fifty-one stored messages become twenty-six. *)
Lemma optimizer_keeps_the_last_25_witness :
  let m := new_message (default_settings 1) noon (str "user") (str "Halo")
             (str "text") no_kwargs in
  let c := {| conv_user_id := 7; messages := repeat m 51;
              created_at := this_morning; updated_at := this_morning;
              context := [] |} in
  let w := with_conversations [c] (sample_world []) in
  exists w' summary,
    optimize_memory_usage (default_settings 1) 7 w = (Ok true, w') /\
    content summary = summary_text 26 /\
    List.length (stored_messages 7 w') = 26%nat.
Proof.
  cbv zeta.
  set (m := new_message (default_settings 1) noon (str "user") (str "Halo")
              (str "text") no_kwargs).
  set (c := {| conv_user_id := 7; messages := repeat m 51;
               created_at := this_morning; updated_at := this_morning;
               context := [] |}).
  destruct (@optimizer_keeps_the_last_25 (default_settings 1) 7
              (with_conversations [c] (sample_world [])) c)
    as (w' & summary & Hrun & _ & _ & _ & Hcontent & Hlen & _).
  - reflexivity.
  - cbn [messages c]. rewrite repeat_length. lia.
  - exists w', summary. split; [exact Hrun |].
    split; [| exact Hlen].
    rewrite Hcontent. cbn [messages c]. unfold len.
    rewrite repeat_length. reflexivity.
Defined.

(** ** Adding a message, then asking for the history *)

Lemma skipn_snoc {A} (k : nat) (l : list A) (x : A) :
  (k <= List.length l)%nat -> skipn k (l ++ [x]) = skipn k l ++ [x].
Proof.
  intros H. rewrite skipn_app.
  replace (k - List.length l)%nat with 0%nat by lia. reflexivity.
Qed.

(** X30: a text message just added is the last entry of the history
    handed to the AI client, whatever limit is asked for: its role is
    [user] when it was added with the role [user] and [model] for any
    other role, and its text is the content added. *)
Theorem added_message_ends_history (s : Settings) (uid limit : Z)
    (r c : pystr) (kw : MessageKwargs) (w : World) :
  exists w1 w2 earlier,
    memory_add_message s uid r c (str "text") kw w = (Ok tt, w1) /\
    get_conversation_history uid limit w1
    = (Ok (earlier ++
           [ {| g_role := if str_eqb r (str "user")
                          then str "user" else str "model";
                g_text := c |} ]), w2).
Proof.
  destruct (memory_add_message_stored s uid r c (str "text") kw w)
    as (w1 & m & Hrun & Hr & Hc & Ht & Hstored).
  destruct (get_conversation_run uid w1) as (w2 & Hget & _).
  set (old := stored_messages uid w) in *.
  assert (Hlast : exists pre, stored_messages uid w1 = pre ++ [m]).
  { rewrite Hstored. unfold lastn. rewrite length_app. cbn [List.length].
    exists (skipn (List.length old + 1 - 50) old).
    apply skipn_snoc. lia. }
  destruct Hlast as (pre & Hpre).
  unfold stored_messages in Hpre.
  destruct (stored_conversation uid w1) as [conv |] eqn:Hconv;
    [| destruct pre; discriminate].
  assert (Hrecent : exists pre',
            get_recent_messages limit conv = pre' ++ [m]).
  { unfold get_recent_messages. rewrite Hpre.
    destruct (0 <? limit) eqn:Hl; [| now exists pre].
    apply Z.ltb_lt in Hl. unfold slice_from, len.
    replace (- limit <? 0) with true by (symmetry; apply Z.ltb_lt; lia).
    rewrite length_app. cbn [List.length].
    eexists. apply skipn_snoc. lia. }
  destruct Hrecent as (pre' & Hrecent).
  exists w1, w2. eexists. split; [exact Hrun |].
  unfold get_conversation_history. rewrite (bind_ok _ _ _ Hget).
  unfold ret, get_gemini_format. rewrite Hrecent, flat_map_app.
  cbn [flat_map]. rewrite Ht, Hr, Hc, str_eqb_refl, app_nil_r.
  reflexivity.
Qed.

(** ** The statements above, on sample data *)

(** A reset asked for the id 0 refills users 7 and 8. *)
Lemma reset_daily_points_scope_witness :
  let w := sample_world [sample_user 7 0 0 this_morning;
                         sample_user 8 1 2 this_morning] in
  exists n w',
    reset_daily_points (default_settings 1) (Some 0) w = (Ok n, w') /\
    option_map daily_points (stored_user 7 w') = Some 3 /\
    option_map daily_points (stored_user 8 w') = Some 3.
Proof.
  cbv zeta.
  destruct (reset_daily_points_scope (default_settings 1) (Some 0)
              (sample_world [sample_user 7 0 0 this_morning;
                             sample_user 8 1 2 this_morning]))
    as (n & w' & Hrun & _ & Hall).
  exists n, w'. split; [exact Hrun |].
  rewrite (Hall 7 (sample_user 7 0 0 this_morning) eq_refl).
  rewrite (Hall 8 (sample_user 8 1 2 this_morning) eq_refl).
  split; reflexivity.
Defined.

(** User 7 says hello, then clears the memory; the conversation of
    user 8 stays. *)
Lemma cleared_history_is_empty_witness :
  let s := default_settings 1 in
  let w0 := sample_world [sample_user 7 3 0 this_morning] in
  let w1 := snd (memory_add_message s 7 (str "user") (str "Halo")
                   (str "text") no_kwargs w0) in
  let w := snd (memory_add_message s 8 (str "user") (str "Hai")
                  (str "text") no_kwargs w1) in
  List.length (stored_messages 7 w) = 1%nat /\
  exists b w' w'',
    clear_conversation s 7 w = (Ok b, w') /\
    get_conversation_history 7 10 w' = (Ok [], w'') /\
    stored_conversation 8 w' = stored_conversation 8 w.
Proof.
  cbv zeta. split; [vm_compute; reflexivity |].
  match goal with
  | |- exists b w' w'', clear_conversation ?s 7 ?w = _ /\ _ =>
      destruct (cleared_history_is_empty s 7 10 w)
        as (b & w' & w'' & Hrun & Hhist & _ & _ & Hothers)
  end.
  exists b, w', w''. split; [exact Hrun |]. split; [exact Hhist |].
  apply Hothers. lia.
Defined.

(** Of the users 1 (the initiator), 2, 3 (banned) and 4, user 4 alone
    receives the broadcast when the call for user 2 fails. *)
Lemma broadcast_deliveries_witness :
  let w := world_with_network
             [sample_user 1 3 0 this_morning;
              sample_user 2 3 0 this_morning;
              set_is_banned true (sample_user 3 3 0 this_morning);
              sample_user 4 3 0 this_morning]
             (fun k => negb (k =? 0)%nat) in
  exists r w',
    execute_broadcast (str "Halo") 1 w = (Ok r, w') /\
    sent w' = [(4, broadcast_message (str "Halo"))] /\
    success r = 1 /\ failed r = 1.
Proof.
  cbv zeta.
  match goal with
  | |- exists r w', execute_broadcast ?t ?a ?w = _ /\ _ =>
      destruct (broadcast_deliveries t a w)
        as (r & w' & Hrun & Hsent & Hok & Hko & _)
  end.
  exists r, w'. split; [exact Hrun |].
  rewrite Hsent, Hok, Hko. repeat split; vm_compute; reflexivity.
Defined.

(** The owner grants 100 daily points to user 7. *)
Lemma give_points_bounds_witness :
  let w := sample_world [sample_user 7 3 0 this_morning] in
  exists w' u',
    handle_give_points (main_bot 1)
      (admin_request 1 [str "givepoints"; str "7"; str "100"; str "daily"])
      w = (Ok tt, w') /\
    stored_user 7 w' = Some u' /\
    3 <= daily_points u' /\ daily_points u' + referral_points u' <= 103.
Proof.
  cbv zeta.
  destruct (give_points_bounds (main_bot 1)
              (admin_request 1 [str "givepoints"; str "7"; str "100";
                                str "daily"])
              (sample_world [sample_user 7 3 0 this_morning]))
    as (w' & Hrun & _ & Hall).
  destruct (Hall 7 (sample_user 7 3 0 this_morning) eq_refl)
    as (u' & Hst & Hd & Hr & Hsum).
  exists w', u'. split; [exact Hrun |]. split; [exact Hst |].
  cbn [daily_points referral_points sample_user] in *. lia.
Defined.
